(** * Fraud dashboard (app.py): query cache, date decomposition, group-sum
      and drill-down filter.

    The script is a Streamlit page.  Every user interaction re-runs it from
    top to bottom; the only state that survives a run is the store kept by
    the [st.cache_data] decorator around [run_query].  The development
    follows the script section by section:

    - [Pandas]    the library operations the script calls
                  ([to_datetime], [.dt.year], [unique], [sorted],
                  [groupby(...).sum()], boolean masks);
    - [Warehouse] the statements sent through [session.sql];
    - [Cache]     [run_query] and the decorator around it;
    - [Trend]     lines 53-125;
    - [Drill]     lines 161-200.

    Column names read by the script are taken to exist in the views, so a
    row is a record of those columns.  The metric HIGH_RISK_TXNS is a count
    column of integers, summed by pandas in int64.  A missing value (NaN,
    NaT, None) is [None] or [TNull].  The clock is an integer count of
    seconds. *)

From Stdlib Require Import ZArith List Bool Lia Sorted Permutation Ascii.
From stdpp Require Import base option list gmap strings pretty.

Local Open Scope Z_scope.

(** Python exceptions are modelled by their message. *)
Inductive outcome (A : Type) : Type :=
| Ok (a : A)
| Raise (e : string).
Arguments Ok {A} a.
Arguments Raise {A} e.

(* ===================================================================== *)
(** ** Pandas *)
(* ===================================================================== *)

Module Pandas.

(** A calendar timestamp; the script reads only its year and month. *)
Record Timestamp := mkTs { ts_year : Z; ts_month : Z; ts_day : Z }.

(** A cell of the designated timestamp column.  As fetched it is missing,
    already a date, or a text to be parsed; after [to_datetime] it is
    [TNull] (NaT) or [TStamp]. *)
Inductive tcell :=
| TNull
| TStamp (t : Timestamp)
| TText (s : string).

(** A nullable number: [None] is NaN (or Python's None). *)
Abbreviation num := (option Z).

(** The texts pandas reads as a missing timestamp (NaT) instead of parsing
    them: the empty text and its list of NaT spellings. *)
Definition nat_strings : list string :=
  ["NaT"; "nat"; "NAT"; "nan"; "NaN"; "NAN"]%string.

Definition nat_text (s : string) : bool :=
  String.eqb s EmptyString || existsb (String.eqb s) nat_strings.

Section ToDatetime.
(** The reading pandas gives one text cell of the column at hand, under the
    format it settles on for that column.  [None] is a cell that fails
    strict parsing. *)
Variable strptime : string -> option Timestamp.

Definition to_datetime_cell (c : tcell) : outcome tcell :=
  match c with
  | TNull => Ok TNull
  | TStamp t => Ok (TStamp t)
  | TText s =>
      if nat_text s then Ok TNull
      else
        match strptime s with
        | Some t => Ok (TStamp t)
        | None => Raise (String.append "Unknown datetime string format, unable to parse: " s)
        end
  end.

(** [pd.to_datetime(column)] with the default [errors=raise]: the first
  cell that does not parse raises, and nothing is returned. *)
Fixpoint to_datetime (col : list tcell) : outcome (list tcell) :=
  match col with
  | [] => Ok []
  | c :: rest =>
      match to_datetime_cell c with
      | Raise e => Raise e
      | Ok c' =>
          match to_datetime rest with
          | Raise e => Raise e
          | Ok rest' => Ok (c' :: rest')
          end
      end
  end.

(** A cell that fails strict parsing: a text that is no NaT spelling and
    that the parser rejects. *)
Definition malformed (c : tcell) : Prop :=
  exists s, c = TText s /\ nat_text s = false /\ strptime s = None.

Definition malformedb (c : tcell) : bool :=
  match c with
  | TText s =>
      negb (nat_text s) && match strptime s with None => true | Some _ => false end
  | _ => false
  end.

(** A cell without a timestamp: a missing value or a NaT spelling. *)
Definition missing (c : tcell) : Prop :=
  c = TNull \/ exists s, c = TText s /\ nat_text s = true.

(** A cell that holds the timestamp [t]: it is that date already, or a
    text the parser reads as [t]. *)
Definition reads (c : tcell) (t : Timestamp) : Prop :=
  c = TStamp t
  \/ exists s, c = TText s /\ nat_text s = false /\ strptime s = Some t.
End ToDatetime.

(** [.dt.year] and [.dt.month] of a parsed column: NaT gives NaN. *)
Definition dt_year (c : tcell) : num :=
  match c with TStamp t => Some (ts_year t) | _ => None end.
Definition dt_month (c : tcell) : num :=
  match c with TStamp t => Some (ts_month t) | _ => None end.

(** Element-wise [==] of a numeric column against a scalar: NaN and None
    are equal to nothing, themselves included. *)
Definition num_eq (cell sel : num) : bool :=
  match cell, sel with
  | Some a, Some b => a =? b
  | _, _ => false
  end.

(** Element-wise [==] of a text column against a string: exact,
    case-sensitive; a missing cell is equal to nothing. *)
Definition str_eq (cell : option string) (sel : string) : bool :=
  match cell with
  | Some s => String.eqb s sel
  | None => false
  end.

(** [Series.unique()]: distinct values in order of first appearance; NaN
    is kept, once. *)
Fixpoint unique_from {A} `{EqDecision A} (seen : list A) (col : list A) : list A :=
  match col with
  | [] => []
  | x :: rest =>
      if bool_decide (x ∈ seen) then unique_from seen rest
      else x :: unique_from (x :: seen) rest
  end.
Definition unique {A} `{EqDecision A} (col : list A) : list A := unique_from [] col.

(** [Series.dropna()]. *)
Definition dropna {A} (col : list (option A)) : list A := omap id col.

(** Python's [<] on floats: false as soon as one side is NaN. *)
Definition num_lt (a b : num) : bool :=
  match a, b with
  | Some x, Some y => x <? y
  | _, _ => false
  end.

(** [sorted(xs)]: a stable insertion sort under [<].  On NaN-free input
    this is the ascending order Python returns; with NaN present Python
    fixes no order, and only the elements of the result are relied on. *)
Fixpoint insort {A} (lt : A -> A -> bool) (x : A) (l : list A) : list A :=
  match l with
  | [] => [x]
  | y :: rest => if lt x y then x :: y :: rest else y :: insort lt x rest
  end.
Definition sorted {A} (lt : A -> A -> bool) (l : list A) : list A :=
  fold_left (fun acc x => insort lt x acc) l [].

(** An int64 value after an addition: the sum wraps around modulo 2^64. *)
Definition wrap64 (z : Z) : Z := (z + 2 ^ 63) mod 2 ^ 64 - 2 ^ 63.

(** [df.groupby(key)[metric].sum().reset_index()] for a metric column of
    integers, which pandas sums as int64.
    Rows whose key is NaN are left out ([dropna=True]); the groups come out
    in ascending key order ([sort=True]); each sum is accumulated in int64
    and wraps around silently.  The accumulator is the list of
    (key, running sum) pairs kept sorted by key. *)
Fixpoint group_add (k v : Z) (acc : list (Z * Z)) : list (Z * Z) :=
  match acc with
  | [] => [(k, wrap64 v)]
  | (k', s) :: rest =>
      if k <? k' then (k, wrap64 v) :: (k', s) :: rest
      else if k =? k' then (k', wrap64 (s + v)) :: rest
      else (k', s) :: group_add k v rest
  end.

Definition groupby_step {R} (key : R -> num) (metric : R -> Z)
    (acc : list (Z * Z)) (r : R) : list (Z * Z) :=
  match key r with
  | None => acc
  | Some k => group_add k (metric r) acc
  end.

Definition groupby_sum {R} (key : R -> num) (metric : R -> Z) (df : list R)
  : list (Z * Z) :=
  fold_left (groupby_step key metric) df [].

(** The same accumulation over the integers, without wrap-around: the
    sums the int64 ones are compared with. *)
Fixpoint exact_add (k v : Z) (acc : list (Z * Z)) : list (Z * Z) :=
  match acc with
  | [] => [(k, v)]
  | (k', s) :: rest =>
      if k <? k' then (k, v) :: (k', s) :: rest
      else if k =? k' then (k', s + v) :: rest
      else (k', s) :: exact_add k v rest
  end.

Definition exact_step {R} (key : R -> num) (metric : R -> Z)
    (acc : list (Z * Z)) (r : R) : list (Z * Z) :=
  match key r with
  | None => acc
  | Some k => exact_add k (metric r) acc
  end.

Definition exact_groupby {R} (key : R -> num) (metric : R -> Z) (df : list R)
  : list (Z * Z) :=
  fold_left (exact_step key metric) df [].

(** The running sum recorded for key [k] in an accumulator. *)
Definition group_total (k : Z) (acc : list (Z * Z)) : Z :=
  fold_right (fun p s => if fst p =? k then snd p + s else s) 0 acc.

(** The metric summed, as integers, over the rows of one key. *)
Definition sum_where {R} (key : R -> num) (metric : R -> Z) (k : Z) (df : list R) : Z :=
  fold_right Z.add 0
    (map metric (List.filter (fun r => num_eq (key r) (Some k)) df)).

End Pandas.

(* ===================================================================== *)
(** ** Tables *)
(* ===================================================================== *)

Module Frame.
Import Pandas.

(** A row as [to_pandas] returns it: the view's timestamp column
    ([TXN_DATE] in the trends view, [TXN_TIME] in the dashboard view) and
    the view's other columns [P]. *)
Record Row (P : Type) := mkRow { stamp : tcell; cols : P }.
Arguments mkRow {P} stamp cols.
Arguments stamp {P} _.
Arguments cols {P} _.

(** A row after lines 55-57 (163-165): the timestamp column overwritten by
    its parsed form, and the two derived columns. *)
Record ARow (P : Type) := mkARow { when : tcell; YEAR : num; MONTH : num; base : P }.
Arguments mkARow {P} when YEAR MONTH base.
Arguments when {P} _.
Arguments YEAR {P} _.
Arguments MONTH {P} _.
Arguments base {P} _.

(** A DataFrame object, before or after the three column assignments. *)
Inductive DataFrame (P : Type) :=
| Fetched (rows : list (Row P))
| Decomposed (rows : list (ARow P)).
Arguments Fetched {P} rows.
Arguments Decomposed {P} rows.

(** [pd.DataFrame()]. *)
Definition empty_frame {P} : list (Row P) := [].

(** [df.empty]. *)
Definition is_empty {A} (df : list A) : bool :=
  match df with [] => true | _ => false end.

(** [df[mask]] for a row-wise mask. *)
Definition select {A} (mask : A -> bool) (df : list A) : list A := List.filter mask df.

Definition augment {P} (cols_of : P) (c : tcell) : ARow P :=
  {| when := c; YEAR := dt_year c; MONTH := dt_month c; base := cols_of |}.

(** Lines 55-57 and 163-165:
      df[T] = pd.to_datetime(df[T]); df[YEAR] = df[T].dt.year;
      df[MONTH] = df[T].dt.month
    The first assignment raises before anything is written when a cell does
    not parse. *)
Definition decompose {P} (strptime : string -> option Timestamp)
    (df : list (Row P)) : outcome (list (ARow P)) :=
  match to_datetime strptime (map stamp df) with
  | Raise e => Raise e
  | Ok parsed => Ok (zip_with (fun r c => augment (cols r) c) df parsed)
  end.

(** The same three assignments run on an object that already carries the
    derived columns: the parsed column parses to itself. *)
Definition redecompose {P} (strptime : string -> option Timestamp)
    (df : list (ARow P)) : outcome (list (ARow P)) :=
  match to_datetime strptime (map when df) with
  | Raise e => Raise e
  | Ok parsed => Ok (zip_with (fun r c => augment (base r) c) df parsed)
  end.

(** The shape shared by lines 53-57 and 161-165: nothing is drawn for an
    empty frame; otherwise the frame is decomposed and the rest of the
    section runs on the result.  An exception is not handled: it leaves the
    section, and with it the script run, unfinished. *)
Definition with_decomposed {P V} (strptime : string -> option Timestamp)
    (body : list (ARow P) -> V) (df : list (Row P)) : outcome (option V) :=
  if is_empty df then Ok None
  else
    match decompose strptime df with
    | Raise e => Raise e
    | Ok df' => Ok (Some (body df'))
    end.

(** [st.selectbox(label, options)]: the option at the position the user
    picked; a position past the end falls back to the first option; with no
    options the widget returns None. *)
Definition selectbox {A} (options : list A) (pick : nat) : option A :=
  match options !! pick with
  | Some v => Some v
  | None => head options
  end.

End Frame.

(* ===================================================================== *)
(** ** Warehouse *)
(* ===================================================================== *)

Module Warehouse.

(** The statements the script sends: SELECT * FROM view, with or without
    a LIMIT clause.  Two statements are the same query when their text is
    the same, that is when both components agree. *)
Record Query := mkQuery { from_view : string; limit : option nat }.

#[global] Instance Query_eq_dec : EqDecision Query.
Proof. solve_decision. Defined.

#[global] Instance Query_countable : Countable Query.
Proof.
  refine (inj_countable' (fun q => (from_view q, limit q))
                         (fun p => mkQuery p.1 p.2) _).
  intros []; reflexivity.
Defined.

Definition KPI_QUERY : Query := mkQuery "FIN_FRAUD_DB.GOLD.VW_FRAUD_KPI" None.
Definition TRENDS_QUERY : Query := mkQuery "FIN_FRAUD_DB.GOLD.VW_FRAUD_TRENDS" None.
Definition LOCATION_QUERY : Query := mkQuery "FIN_FRAUD_DB.GOLD.VW_LOCATION_RISK" None.
Definition DASHBOARD_QUERY : Query :=
  mkQuery "FIN_FRAUD_DB.GOLD.VW_FRAUD_DASHBOARD" (Some 2000%nat).

(** LIMIT n keeps at most n rows of the view. *)
Definition apply_limit {R} (lim : option nat) (rows : list R) : list R :=
  match lim with
  | None => rows
  | Some n => firstn n rows
  end.

Section Session.
Context {R : Type}.
(** The warehouse behind the session: reading a view either yields its rows
    or fails (network, authentication, missing object), and may change the
    warehouse's own state. *)
Variable World : Type.
Variable scan : World -> string -> outcome (list R) * World.

(** [session.sql(query).to_pandas()]. *)
Definition session_sql (q : Query) (w : World) : outcome (list R) * World :=
  match scan w (from_view q) with
  | (Ok rows, w') => (Ok (apply_limit (limit q) rows), w')
  | (Raise e, w') => (Raise e, w')
  end.
End Session.

End Warehouse.

(* ===================================================================== *)
(** ** run_query and its cache *)
(* ===================================================================== *)

Module Cache.
Import Pandas Frame Warehouse.

(** [@st.cache_data(ttl=60)], in seconds. *)
Definition TTL : Z := 60.

Section RunQuery.
Context {P : Type}.
Variable World : Type.
Variable scan : World -> string -> outcome (list (Row P)) * World.

(** What the decorator keeps for one query: the pickled return value, the
    [st.*] calls recorded while the body ran (replayed on a hit), and the
    clock reading at which the entry was written. *)
Record Entry := mkEntry {
  value : list (Row P);
  messages : list string;
  fetched_at : Z
}.

(** The process: the warehouse, the decorator's store, the DataFrame
    objects the script holds references to, what [st.error] has put on the
    page, and the statements handed to [session.sql] so far. *)
Record State := mkState {
  world : World;
  store : gmap Query Entry;
  heap : gmap nat (DataFrame P);
  screen : list string;
  sent : list Query
}.

(** Lines 19-24, the undecorated body: the frame returned, the messages
    passed to [st.error], the warehouse afterwards.  Both branches return;
    nothing is re-raised. *)
Definition run_query_body (q : Query) (w : World)
  : list (Row P) * list string * World :=
  match session_sql World scan q w with
  | (Ok df, w') => (df, [], w')
  | (Raise e, w') => (empty_frame, [String.append "Query Failed: " e], w')
  end.

(** An entry can be reused while [now - fetched_at < TTL]. *)
Definition within_ttl (now : Z) (e : Entry) : bool := now - fetched_at e <? TTL.

Definition cache_read (now : Z) (q : Query) (s : gmap Query Entry) : option Entry :=
  match s !! q with
  | Some e => if within_ttl now e then Some e else None
  | None => None
  end.

(** A new DataFrame object. *)
Definition alloc (df : DataFrame P) (h : gmap nat (DataFrame P))
  : nat * gmap nat (DataFrame P) :=
  let l := fresh (dom h) in (l, <[l := df]> h).

(** Line 18 around lines 19-24.  A hit unpickles the stored value into a
    new object and replays the recorded messages; a miss runs the body,
    pickles what it returned under the current clock reading, and hands the
    returned object to the caller. *)
Definition run_query (now : Z) (q : Query) (st : State) : nat * State :=
  match cache_read now q (store st) with
  | Some e =>
      let '(l, h) := alloc (Fetched (value e)) (heap st) in
      (l, {| world := world st; store := store st; heap := h;
             screen := screen st ++ messages e; sent := sent st |})
  | None =>
      let '(df, msgs, w') := run_query_body q (world st) in
      let '(l, h) := alloc (Fetched df) (heap st) in
      (l, {| world := w';
             store := <[q := mkEntry df msgs now]> (store st);
             heap := h;
             screen := screen st ++ msgs;
             sent := sent st ++ [q] |})
  end.

(** The frame behind a reference, as fetched. *)
Definition fetched_rows (st : State) (l : nat) : option (list (Row P)) :=
  match heap st !! l with
  | Some (Fetched rows) => Some rows
  | _ => None
  end.

(** Every stored frame respects the LIMIT of the statement it is stored
    under. *)
Definition capped (s : gmap Query Entry) : Prop :=
  forall q e n, s !! q = Some e -> limit q = Some n -> (length (value e) <= n)%nat.

Variable strptime : string -> option Timestamp.

(** Lines 55-57 (163-165) on the object behind [l]: the three assignments
    write into that object.  A reference the script holds always points
    into the heap. *)
Definition decompose_at (l : nat) (st : State) : outcome State :=
  let put rows :=
    {| world := world st; store := store st;
       heap := <[l := Decomposed rows]> (heap st);
       screen := screen st; sent := sent st |} in
  match heap st !! l with
  | Some (Fetched rows) =>
      match decompose strptime rows with
      | Raise e => Raise e
      | Ok rows' => Ok (put rows')
      end
  | Some (Decomposed rows) =>
      match redecompose strptime rows with
      | Raise e => Raise e
      | Ok rows' => Ok (put rows')
      end
  | None => Raise "unbound reference"
  end.

(** The states a process can be in: it starts with nothing stored and no
    object, and changes only by calls of [run_query] and by the column
    assignments after them. *)
Inductive reachable : State -> Prop :=
| reach_start (w : World) : reachable (mkState w ∅ ∅ [] [])
| reach_query (now : Z) (q : Query) (st : State) :
    reachable st -> reachable (run_query now q st).2
| reach_decompose (l : nat) (st st' : State) :
    reachable st -> decompose_at l st = Ok st' -> reachable st'.

End RunQuery.

Arguments Entry : clear implicits.
Arguments State : clear implicits.
Arguments mkEntry {P} value messages fetched_at.
Arguments value {P} _.
Arguments messages {P} _.
Arguments fetched_at {P} _.
Arguments mkState {P World} world store heap screen sent.
Arguments world {P World} _.
Arguments store {P World} _.
Arguments heap {P World} _.
Arguments screen {P World} _.
Arguments sent {P World} _.
Arguments run_query_body {P World} scan q w.
Arguments run_query {P World} scan now q st.
Arguments within_ttl {P} now e.
Arguments cache_read {P} now q s.
Arguments alloc {P} df h.
Arguments fetched_rows {P World} st l.
Arguments capped {P} s.
Arguments decompose_at {P World} strptime l st.
Arguments reachable {P World} scan strptime st.

End Cache.

(* ===================================================================== *)
(** ** Trend section (lines 53-125) *)
(* ===================================================================== *)

Module Trend.
Import Pandas Frame.

(** HIGH_RISK_TXNS is a count: a column of integers without missing cells,
    which pandas holds and sums as int64. *)
Record TrendCols := mkTrendCols { HIGH_RISK_TXNS : Z }.

Definition metric (r : ARow TrendCols) : Z := HIGH_RISK_TXNS (base r).

(** Positions picked in the three select boxes. *)
Record TrendUI := mkTrendUI {
  pick_month_year : nat;
  pick_daily_year : nat;
  pick_daily_month : nat
}.

Section Charts.
Variable trend_df : list (ARow TrendCols).

(** Line 64. *)
Definition yearly_df : list (Z * Z) := groupby_sum YEAR metric trend_df.

(** Lines 80 and 104. *)
Definition year_options : list num := sorted num_lt (unique (map YEAR trend_df)).

(** Lines 84-85. *)
Definition monthly_df (year_m : num) : list (Z * Z) :=
  groupby_sum MONTH metric (select (fun r => num_eq (YEAR r) year_m) trend_df).

(** Line 111. *)
Definition daily_month_options (year_d : num) : list num :=
  sorted num_lt
    (unique (map MONTH (select (fun r => num_eq (YEAR r) year_d) trend_df))).

(** Lines 115-118. *)
Definition daily_df (year_d month_d : num) : list (ARow TrendCols) :=
  select (fun r => num_eq (YEAR r) year_d && num_eq (MONTH r) month_d) trend_df.
End Charts.

Record TrendView := mkTrendView {
  v_yearly : list (Z * Z);
  v_year_m : num;
  v_monthly : list (Z * Z);
  v_year_d : num;
  v_month_options : list num;
  v_month_d : num;
  v_daily : list (ARow TrendCols)
}.

Definition charts (ui : TrendUI) (df : list (ARow TrendCols)) : TrendView :=
  let year_m := mjoin (selectbox (year_options df) (pick_month_year ui)) in
  let year_d := mjoin (selectbox (year_options df) (pick_daily_year ui)) in
  let months := daily_month_options df year_d in
  let month_d := mjoin (selectbox months (pick_daily_month ui)) in
  {| v_yearly := yearly_df df;
     v_year_m := year_m;
     v_monthly := monthly_df df year_m;
     v_year_d := year_d;
     v_month_options := months;
     v_month_d := month_d;
     v_daily := daily_df df year_d month_d |}.

(** Lines 53-125 on the frame [run_query] returned. *)
Definition trend_section (strptime : string -> option Timestamp) (ui : TrendUI)
    (trend_df : list (Row TrendCols)) : outcome (option TrendView) :=
  with_decomposed strptime (charts ui) trend_df.

End Trend.

(* ===================================================================== *)
(** ** Drill-down section (lines 161-200) *)
(* ===================================================================== *)

Module Drill.
Import Pandas Frame.

Record DashCols := mkDashCols {
  LOCATION : option string;
  FRAUD_RISK_LEVEL : option string
}.

Definition ALL : string := "ALL".

Definition location (r : ARow DashCols) : option string := LOCATION (base r).
Definition risk_level (r : ARow DashCols) : option string := FRAUD_RISK_LEVEL (base r).

(** Line 170. *)
Definition year_options (dash_df : list (ARow DashCols)) : list num :=
  sorted num_lt (unique (map YEAR dash_df)).

(** Line 173. *)
Definition month_options (dash_df : list (ARow DashCols)) : list num :=
  sorted num_lt (unique (map MONTH dash_df)).

(** Lines 176-179. *)
Definition city_options (dash_df : list (ARow DashCols)) : list string :=
  ALL :: sorted String.ltb (unique (dropna (map location dash_df))).

(** Lines 182-185. *)
Definition risk_options : list string :=
  [ALL; "HIGH_RISK"; "MEDIUM_RISK"; "LOW_RISK"]%string.

(** The four selections of one run. *)
Record FilterSpec := mkSpec {
  year : num;
  month : num;
  city : string;
  risk : string
}.

Definition by_year_month (year month : num) (df : list (ARow DashCols)) :=
  select (fun r => num_eq (YEAR r) year && num_eq (MONTH r) month) df.

Definition by_city (city : string) (df : list (ARow DashCols)) :=
  if negb (String.eqb city ALL)
  then select (fun r => str_eq (location r) city) df
  else df.

Definition by_risk (risk : string) (df : list (ARow DashCols)) :=
  if negb (String.eqb risk ALL)
  then select (fun r => str_eq (risk_level r) risk) df
  else df.

(** Lines 187-198. *)
Definition drill_filter (spec : FilterSpec) (dash_df : list (ARow DashCols))
  : list (ARow DashCols) :=
  let filtered_df := by_year_month (year spec) (month spec) dash_df in
  let filtered_df := by_city (city spec) filtered_df in
  let filtered_df := by_risk (risk spec) filtered_df in
  filtered_df.

Record DrillUI := mkDrillUI {
  pick_year : nat;
  pick_month : nat;
  pick_city : nat;
  pick_risk : nat
}.

(** Lines 169-185: the selections of a run. *)
Definition selections (ui : DrillUI) (dash_df : list (ARow DashCols)) : FilterSpec :=
  {| year := mjoin (selectbox (year_options dash_df) (pick_year ui));
     month := mjoin (selectbox (month_options dash_df) (pick_month ui));
     city := default ALL (selectbox (city_options dash_df) (pick_city ui));
     risk := default ALL (selectbox risk_options (pick_risk ui)) |}.

(** Lines 161-200 on the frame [run_query] returned. *)
Definition drill_section (strptime : string -> option Timestamp) (ui : DrillUI)
    (dash_df : list (Row DashCols)) : outcome (option (list (ARow DashCols))) :=
  with_decomposed strptime (fun df => drill_filter (selections ui df) df) dash_df.

(** The chain of lines 187-198 read as a list of row masks, one per
    constraint; a selection of ALL contributes the mask that keeps every
    row. *)
Definition city_mask (city : string) (r : ARow DashCols) : bool :=
  if negb (String.eqb city ALL) then str_eq (location r) city else true.
Definition risk_mask (risk : string) (r : ARow DashCols) : bool :=
  if negb (String.eqb risk ALL) then str_eq (risk_level r) risk else true.

Definition constraints (spec : FilterSpec) : list (ARow DashCols -> bool) :=
  [ (fun r => num_eq (YEAR r) (year spec));
    (fun r => num_eq (MONTH r) (month spec));
    city_mask (city spec);
    risk_mask (risk spec) ].

(** Masks applied one after the other, in the order given. *)
Definition apply_masks (masks : list (ARow DashCols -> bool))
    (df : list (ARow DashCols)) : list (ARow DashCols) :=
  fold_left (fun d m => select m d) masks df.

(** A row meets the four selections: YEAR and MONTH are present and equal
    to the selected ones; LOCATION and FRAUD_RISK_LEVEL equal the selected
    text unless that selection is ALL. *)
Definition satisfies (spec : FilterSpec) (r : ARow DashCols) : Prop :=
  (exists y, YEAR r = Some y /\ year spec = Some y)
  /\ (exists m, MONTH r = Some m /\ month spec = Some m)
  /\ (city spec <> ALL -> location r = Some (city spec))
  /\ (risk spec <> ALL -> risk_level r = Some (risk spec)).

(** A value one of the variables [year] and [month] may hold when the
    chain of lines 187-198 runs: a number, or a text such as ALL. *)
Inductive pyval :=
| PNum (n : num)
| PStr (s : string).

(** [column == value] on the YEAR or MONTH column: against a number it is
    [num_eq]; no cell of a numeric column is equal to a text. *)
Definition col_eq (cell : num) (sel : pyval) : bool :=
  match sel with
  | PNum n => num_eq cell n
  | PStr _ => false
  end.

(** Lines 187-198 for whatever the four variables hold. *)
Definition filter_chain (year month : pyval) (city risk : string)
    (dash_df : list (ARow DashCols)) : list (ARow DashCols) :=
  let filtered_df :=
    select (fun r => col_eq (YEAR r) year && col_eq (MONTH r) month) dash_df in
  let filtered_df := by_city city filtered_df in
  let filtered_df := by_risk risk filtered_df in
  filtered_df.

(** The cell is present and is the selected number. *)
Definition matches (cell : num) (sel : pyval) : Prop :=
  match sel with
  | PNum (Some v) => cell = Some v
  | _ => False
  end.

#[global] Instance matches_dec (cell : num) (sel : pyval) : Decision (matches cell sel).
Proof. destruct sel as [[v|]|s]; simpl; apply _. Defined.

End Drill.

(* ===================================================================== *)
(** ** The decomposition policy as the specification words it *)
(* ===================================================================== *)

Module Spec.
Import Pandas Frame.

(** Rows whose timestamp cell fails strict parsing are dropped; the others
    are decomposed. *)
Definition decompose_dropping {P} (strptime : string -> option Timestamp)
    (df : list (Row P)) : list (ARow P) :=
  omap (fun r =>
          match to_datetime_cell strptime (stamp r) with
          | Ok c => Some (augment (cols r) c)
          | Raise _ => None
          end) df.

End Spec.

(* ===================================================================== *)
(** ** Concrete data for the examples *)
(* ===================================================================== *)

Module Sample.
Import Pandas Frame Warehouse Cache.

Definition digit (a : Ascii.ascii) : option Z :=
  let n := Z.of_nat (Ascii.nat_of_ascii a) - 48 in
  if (0 <=? n) && (n <=? 9) then Some n else None.

Fixpoint digits (acc : Z) (l : list Ascii.ascii) : option Z :=
  match l with
  | [] => Some acc
  | a :: rest =>
      match digit a with
      | Some d => digits (10 * acc + d) rest
      | None => None
      end
  end.

Definition leap_year (y : Z) : bool :=
  (y mod 4 =? 0) && (negb (y mod 100 =? 0) || (y mod 400 =? 0)).

Definition days_in_month (y m : Z) : Z :=
  if m =? 2 then (if leap_year y then 29 else 28)
  else if (m =? 4) || (m =? 6) || (m =? 9) || (m =? 11) then 30
  else 31.

(** The days a nanosecond timestamp can hold: 1677-09-22 to 2262-04-11. *)
Definition in_bounds (y m d : Z) : bool :=
  ((1677 <? y) || (y =? 1677) && ((9 <? m) || (m =? 9) && (22 <=? d)))
  && ((y <? 2262) || (y =? 2262) && ((m <? 4) || (m =? 4) && (d <=? 11))).

(** The fields of a text, split at its dashes. *)
Fixpoint fields (cur l : list Ascii.ascii) : list (list Ascii.ascii) :=
  match l with
  | [] => [rev cur]
  | a :: rest =>
      if Ascii.eqb a "-"%char then rev cur :: fields [] rest
      else fields (a :: cur) rest
  end.

(** A month or a day: one or two digits. *)
Definition short_field (l : list Ascii.ascii) : option Z :=
  match l with
  | [_] | [_; _] => digits 0 l
  | _ => None
  end.

(** The reading of one text cell of a column of dates written year, month,
    day with dashes (the format %Y-%m-%d): a year of four digits, a month
    of the year, a day that month has, and a date a timestamp can hold.
    Texts of any other form have no reading here. *)
Definition iso_date (s : string) : option Timestamp :=
  match fields [] (String.list_ascii_of_string s) with
  | [[y1; y2; y3; y4]; month; day] =>
      match digits 0 [y1; y2; y3; y4], short_field month, short_field day with
      | Some y, Some m, Some d =>
          if (1 <=? m) && (m <=? 12) && (1 <=? d) && (d <=? days_in_month y m)
             && in_bounds y m d
          then Some (mkTs y m d) else None
      | _, _, _ => None
      end
  | _ => None
  end.

Definition trend_row (date : string) (n : Z) : Row Trend.TrendCols :=
  mkRow (TText date) (Trend.mkTrendCols n).

Definition atrend (y m d n : Z) : ARow Trend.TrendCols :=
  augment (Trend.mkTrendCols n) (TStamp (mkTs y m d)).

(** The TRENDS rows of the specification's worked example. *)
Definition trends_2024 : list (Row Trend.TrendCols) :=
  [trend_row "2024-01-05" 10; trend_row "2024-01-20" 5; trend_row "2024-02-01" 7].

Definition dash_row (time : string) (loc lvl : string) : Row Drill.DashCols :=
  mkRow (TText time) (Drill.mkDashCols (Some loc) (Some lvl)).

Definition adash (y m d : Z) (loc lvl : string) : ARow Drill.DashCols :=
  augment (Drill.mkDashCols (Some loc) (Some lvl)) (TStamp (mkTs y m d)).

(** A dashboard table whose two years have different months. *)
Definition dash_two_years : list (ARow Drill.DashCols) :=
  [adash 2023 1 15 "Pune" "HIGH_RISK"; adash 2024 2 3 "Delhi" "LOW_RISK"].

(** A warehouse that answers from a tape: each read of a view consumes the
    next prepared answer; an exhausted tape is a lost connection. *)
Definition Tape (R : Type) : Type := list (outcome (list R)).

Definition play {R} (w : Tape R) (view : string) : outcome (list R) * Tape R :=
  match w with
  | [] => (Raise "connection lost", [])
  | answer :: rest => (answer, rest)
  end.

Definition boot {P} (w : Tape (Row P)) : State P (Tape (Row P)) :=
  mkState w ∅ ∅ [] [].

(** A warehouse that answers with the example table and later with one
    row less. *)
Definition two_answers : Tape (Row Trend.TrendCols) :=
  [Ok trends_2024; Ok [trend_row "2024-01-05" 10]].

(** A dashboard view of 2500 rows. *)
Definition big_view : Tape (Row Drill.DashCols) :=
  [Ok (repeat (dash_row "2024-02-03" "Delhi" "LOW_RISK") 2500)].

End Sample.

(* ===================================================================== *)
(** ** Totals of a chart *)
(* ===================================================================== *)

Module Totals.
Import Pandas Frame.

(** The sum of the slices of a pie given as (key, value) rows. *)
Definition slices_total (slices : list (Z * Z)) : Z :=
  fold_right Z.add 0 (map snd slices).

(** The metric summed, as integers, over the rows of a frame. *)
Definition metric_total {R} (metric : R -> Z) (df : list R) : Z :=
  fold_right Z.add 0 (map metric df).

(** The magnitudes of the metric summed over the rows of a frame. *)
Definition magnitude_total {R} (metric : R -> Z) (df : list R) : Z :=
  fold_right Z.add 0 (map (fun r => Z.abs (metric r)) df).

(** A row that has a timestamp. *)
Definition dated {P} (r : ARow P) : bool :=
  match YEAR r with Some _ => true | None => false end.

End Totals.

(* ===================================================================== *)
(** ** KPI section (lines 34-41) *)
(* ===================================================================== *)

Module Kpi.
Import Pandas Frame.

(** The cells of the row [kpi_df.iloc[0]] under the columns the script
    reads, as [kpi_df.iloc[0][column]] hands them over.  pandas holds a row
    that mixes integer and decimal columns as one Series of floats, so a
    count is here the whole number that cell holds (past 2^53 the fetched
    count already rounded), or NaN.  TOTAL_AMOUNT is a decimal amount; its
    cells are of a type [A] of their own. *)
Record KpiCols (A : Type) := mkKpiCols {
  TOTAL_TXNS : num;
  TOTAL_AMOUNT : A;
  HIGH_RISK_TXNS : num;
  MEDIUM_RISK_TXNS : num;
  LOW_RISK_TXNS : num
}.
Arguments mkKpiCols {A} _ _ _ _ _.
Arguments TOTAL_TXNS {A} _.
Arguments TOTAL_AMOUNT {A} _.
Arguments HIGH_RISK_TXNS {A} _.
Arguments MEDIUM_RISK_TXNS {A} _.
Arguments LOW_RISK_TXNS {A} _.

(** The five tiles. *)
Record KpiTiles := mkKpiTiles {
  total_transactions : Z;
  total_amount : string;
  high_risk : Z;
  medium_risk : Z;
  low_risk : Z
}.

(** A tile as [metric(label, value)] draws it. *)
Inductive tile :=
| IntTile (label : string) (value : Z)
| TextTile (label : string) (value : string).

(** Lines run one after the other: each call draws its tile, and the first
    argument that raises stops the section with the earlier tiles drawn. *)
Fixpoint draw_each (calls : list (outcome tile)) : list tile * option string :=
  match calls with
  | [] => ([], None)
  | Raise e :: _ => ([], Some e)
  | Ok t :: rest =>
      let '(tiles, stop) := draw_each rest in (t :: tiles, stop)
  end.

(** [int(x)] on a cell: a missing value cannot be converted. *)
Definition to_int (x : num) : outcome Z :=
  match x with
  | Some z => Ok z
  | None => Raise "cannot convert float NaN to integer"
  end.

Section Tiles.
Context {A : Type}.
(** The rendering of an amount cell by the format [:,.0f]; it raises on a
    cell that has no such rendering. *)
Variable format_amount : A -> outcome string.

(** Lines 37-41, in the order the five arguments are evaluated. *)
Definition tiles (k : KpiCols A) : outcome KpiTiles :=
  match to_int (TOTAL_TXNS k) with
  | Raise e => Raise e
  | Ok total =>
      match format_amount (TOTAL_AMOUNT k) with
      | Raise e => Raise e
      | Ok amount =>
          match to_int (HIGH_RISK_TXNS k) with
          | Raise e => Raise e
          | Ok high =>
              match to_int (MEDIUM_RISK_TXNS k) with
              | Raise e => Raise e
              | Ok medium =>
                  match to_int (LOW_RISK_TXNS k) with
                  | Raise e => Raise e
                  | Ok low => Ok (mkKpiTiles total amount high medium low)
                  end
              end
          end
      end
  end.

(** Lines 34-41: [kpi_df.iloc[0]] is the first row. *)
Definition kpi_section (kpi_df : list (KpiCols A)) : outcome (option KpiTiles) :=
  match kpi_df with
  | [] => Ok None
  | first :: _ =>
      match tiles first with
      | Raise e => Raise e
      | Ok t => Ok (Some t)
      end
  end.

(** The five calls of [metric] of lines 37-41, each with the outcome of
    evaluating its argument. *)
Definition tile_calls (k : KpiCols A) : list (outcome tile) :=
  [ match to_int (TOTAL_TXNS k) with
    | Ok z => Ok (IntTile "Total Transactions" z) | Raise e => Raise e end;
    match format_amount (TOTAL_AMOUNT k) with
    | Ok text => Ok (TextTile "Total Amount" text) | Raise e => Raise e end;
    match to_int (HIGH_RISK_TXNS k) with
    | Ok z => Ok (IntTile "High Risk" z) | Raise e => Raise e end;
    match to_int (MEDIUM_RISK_TXNS k) with
    | Ok z => Ok (IntTile "Medium Risk" z) | Raise e => Raise e end;
    match to_int (LOW_RISK_TXNS k) with
    | Ok z => Ok (IntTile "Low Risk" z) | Raise e => Raise e end ].

(** What is on the page after lines 34-41: the tiles drawn, one line after
    the other, and the exception that stopped the section, if any. *)
Definition drawn (kpi_df : list (KpiCols A)) : list tile * option string :=
  match kpi_df with
  | [] => ([], None)
  | first :: _ => draw_each (tile_calls first)
  end.
End Tiles.

End Kpi.

(* ===================================================================== *)
(** ** The script, top to bottom *)
(* ===================================================================== *)

Module App.
Import Pandas Frame Warehouse Cache.

(** A view's columns read off a fetched row. *)
Definition row_map {P Q} (f : P -> Q) (r : Row P) : Row Q :=
  mkRow (stamp r) (f (cols r)).
Definition arow_map {P Q} (f : P -> Q) (a : ARow P) : ARow Q :=
  mkARow (when a) (YEAR a) (MONTH a) (f (base a)).

(** The clock readings at the four calls of [run_query] in one run. *)
Record Clock := mkClock {
  at_kpi : Z;
  at_trends : Z;
  at_location : Z;
  at_dashboard : Z
}.

Record UI := mkUI { trend_ui : Trend.TrendUI; drill_ui : Drill.DrillUI }.

(** What a run that reaches line 202 has drawn; a section skipped for an
    empty frame is [None]. *)
Record Page (P : Type) := mkPage {
  p_kpi : option Kpi.KpiTiles;
  p_trends : option Trend.TrendView;
  p_locations : option (list (Row P));
  p_drill : option (list (ARow Drill.DashCols))
}.
Arguments mkPage {P} _ _ _ _.
Arguments p_kpi {P} _.
Arguments p_trends {P} _.
Arguments p_locations {P} _.
Arguments p_drill {P} _.

Section Script.
Context {P A World : Type}.
Variable scan : World -> string -> outcome (list (Row P)) * World.
Variable strptime : string -> option Timestamp.
Variable format_amount : A -> outcome string.
(** The columns each section reads from the rows of its view. *)
Variable kpi_of : P -> Kpi.KpiCols A.
Variable trend_of : P -> Trend.TrendCols.
Variable dash_of : P -> Drill.DashCols.

(** The frame behind a reference the script holds. *)
Definition frame_at (l : nat) (st : State P World) : outcome (list (Row P)) :=
  match fetched_rows st l with
  | Some rows => Ok rows
  | None => Raise "unbound reference"
  end.

(** Lines 34-41 on the object [run_query] returned. *)
Definition kpi_block (l : nat) (st : State P World) : outcome (option Kpi.KpiTiles) :=
  match frame_at l st with
  | Raise e => Raise e
  | Ok rows => Kpi.kpi_section format_amount (map (fun r => kpi_of (cols r)) rows)
  end.

(** Lines 53-57 and 161-165 on the object [run_query] returned, followed by
    the rest of the section: the three assignments are made in place, and
    the section reads the object afterwards. *)
Definition decomposed_block {V} (body : list (ARow P) -> V)
    (l : nat) (st : State P World) : outcome (option V) * State P World :=
  match frame_at l st with
  | Raise e => (Raise e, st)
  | Ok rows =>
      if is_empty rows then (Ok None, st)
      else
        match decompose_at strptime l st with
        | Raise e => (Raise e, st)
        | Ok st' =>
            match heap st' !! l with
            | Some (Decomposed df) => (Ok (Some (body df)), st')
            | _ => (Raise "unbound reference", st')
            end
        end
  end.

Definition trend_block (ui : Trend.TrendUI) :=
  decomposed_block (fun df => Trend.charts ui (map (arow_map trend_of) df)).

Definition drill_block (ui : Drill.DrillUI) :=
  decomposed_block
    (fun df => Drill.drill_filter
                 (Drill.selections ui (map (arow_map dash_of) df))
                 (map (arow_map dash_of) df)).

(** Lines 139-146. *)
Definition location_block (l : nat) (st : State P World) : option (list (Row P)) :=
  match frame_at l st with
  | Ok rows => if is_empty rows then None else Some rows
  | Raise _ => None
  end.

(** One run of the script.  [Ok] is a run that reached line 202 and showed
    the success banner; [Raise] is a run stopped by an exception, with the
    state it left behind. *)
Definition app (clock : Clock) (ui : UI) (st : State P World)
  : outcome (Page P) * State P World :=
  let '(l1, st1) := run_query scan (at_kpi clock) KPI_QUERY st in
  match kpi_block l1 st1 with
  | Raise e => (Raise e, st1)
  | Ok kpi =>
      let '(l2, st2) := run_query scan (at_trends clock) TRENDS_QUERY st1 in
      match trend_block (trend_ui ui) l2 st2 with
      | (Raise e, st2') => (Raise e, st2')
      | (Ok trends, st2') =>
          let '(l3, st3) := run_query scan (at_location clock) LOCATION_QUERY st2' in
          let locations := location_block l3 st3 in
          let '(l4, st4) := run_query scan (at_dashboard clock) DASHBOARD_QUERY st3 in
          match drill_block (drill_ui ui) l4 st4 with
          | (Raise e, st4') => (Raise e, st4')
          | (Ok drill, st4') => (Ok (mkPage kpi trends locations drill), st4')
          end
      end
  end.

(** The rows stored under a query, none when nothing is stored. *)
Definition stored (s : gmap Query (Entry P)) (q : Query) : list (Row P) :=
  match s !! q with
  | Some e => value e
  | None => []
  end.

(** The page a store determines: the sections of the script run on the
    stored frames, in script order. *)
Definition page_of_store (ui : UI) (s : gmap Query (Entry P)) : outcome (Page P) :=
  match Kpi.kpi_section format_amount
          (map (fun r => kpi_of (cols r)) (stored s KPI_QUERY)) with
  | Raise e => Raise e
  | Ok kpi =>
      match Trend.trend_section strptime (trend_ui ui)
              (map (row_map trend_of) (stored s TRENDS_QUERY)) with
      | Raise e => Raise e
      | Ok trends =>
          match Drill.drill_section strptime (drill_ui ui)
                  (map (row_map dash_of) (stored s DASHBOARD_QUERY)) with
          | Raise e => Raise e
          | Ok drill =>
              Ok (mkPage kpi trends
                    (if is_empty (stored s LOCATION_QUERY) then None
                     else Some (stored s LOCATION_QUERY))
                    drill)
          end
      end
  end.

(** An entry as [run_query] writes it: no message, or the empty frame with
    the one message of the failure branch. *)
Definition entry_ok (e : Entry P) : Prop :=
  messages e = []
  \/ value e = [] /\ exists err, messages e = [String.append "Query Failed: " err].

End Script.

Arguments frame_at {P World} l st.
Arguments kpi_block {P A World} format_amount kpi_of l st.
Arguments decomposed_block {P World} strptime {V} body l st.
Arguments trend_block {P World} strptime trend_of ui l st.
Arguments drill_block {P World} strptime dash_of ui l st.
Arguments location_block {P World} l st.
Arguments app {P A World} scan strptime format_amount kpi_of trend_of dash_of clock ui st.
Arguments stored {P} s q.
Arguments page_of_store {P A} strptime format_amount kpi_of trend_of dash_of ui s.
Arguments entry_ok {P} e.

End App.

(* ===================================================================== *)
(** ** Concrete data for the script examples *)
(* ===================================================================== *)

Module Demo.
Import Pandas Frame Warehouse Cache Sample App.

(** Rows wide enough for the four views. *)
Record Cols := mkCols {
  c_kpi : Kpi.KpiCols Z;
  c_trend : Trend.TrendCols;
  c_dash : Drill.DashCols
}.

Definition no_kpi : Kpi.KpiCols Z := Kpi.mkKpiCols None 0 None None None.
Definition no_trend : Trend.TrendCols := Trend.mkTrendCols 0.
Definition no_dash : Drill.DashCols := Drill.mkDashCols None None.

Definition kpi_line (total amount high medium low : Z) : Row Cols :=
  mkRow TNull
    (mkCols (Kpi.mkKpiCols (Some total) amount (Some high) (Some medium) (Some low))
       no_trend no_dash).

Definition trend_line (date : string) (n : Z) : Row Cols :=
  mkRow (TText date) (mkCols no_kpi (Trend.mkTrendCols n) no_dash).

Definition dash_line (time loc lvl : string) : Row Cols :=
  mkRow (TText time) (mkCols no_kpi no_trend (Drill.mkDashCols (Some loc) (Some lvl))).

Definition location_line (loc : string) : Row Cols :=
  mkRow TNull (mkCols no_kpi no_trend (Drill.mkDashCols (Some loc) None)).

(** The digits of a number, last digit first, with a comma after every
    third one that has a digit after it. *)
Fixpoint group_thousands (n : nat) (l : list Ascii.ascii) : list Ascii.ascii :=
  match l with
  | [] => []
  | a :: rest =>
      if (n =? 3)%nat then ","%char :: a :: group_thousands 1 rest
      else a :: group_thousands (S n) rest
  end.

Definition with_commas (digits : string) : string :=
  String.string_of_list_ascii
    (rev (group_thousands 0 (rev (String.list_ascii_of_string digits)))).

(** Whole amounts under the format [:,.0f]: the digits in groups of three. *)
Definition plain_amount (z : Z) : outcome string :=
  Ok (if z <? 0 then String.append "-" (with_commas (pretty (Z.abs z)))
      else with_commas (pretty z)).

(** A warehouse that answers the four statements of one run. *)
Definition healthy : Tape (Row Cols) :=
  [ Ok [kpi_line 3 900 1 1 1];
    Ok [trend_line "2024-01-05" 10; trend_line "2024-01-20" 5; trend_line "2024-02-01" 7];
    Ok [location_line "Pune"];
    Ok [dash_line "2023-01-15" "Pune" "HIGH_RISK";
        dash_line "2024-02-03" "Delhi" "LOW_RISK"] ].

Definition noon : Clock := mkClock 0 1 2 3.
Definition first_load : UI := mkUI (Trend.mkTrendUI 0 0 0) (Drill.mkDrillUI 0 0 0 0).

Definition run (clock : Clock) (ui : UI) (st : State Cols (Tape (Row Cols))) :=
  app play iso_date plain_amount c_kpi c_trend c_dash clock ui st.

(** A warehouse whose trends view holds a text that is no date. *)
Definition spoiled : Tape (Row Cols) :=
  [ Ok [kpi_line 3 900 1 1 1]; Ok [trend_line "soon" 4] ].

(** A warehouse that fails every statement. *)
Definition unplugged (w : unit) (view : string) : outcome (list (Row Cols)) * unit :=
  (Raise "connection lost", w).

Definition cold : State Cols unit := mkState tt ∅ ∅ [] [].

End Demo.

(* ===================================================================== *)
(** * Facts about the library operations *)
(* ===================================================================== *)

Section PandasFacts.
Import Pandas.

Lemma unique_from_In {A} `{EqDecision A} (seen col : list A) (x : A) :
  In x (unique_from seen col) <-> In x col /\ ~ In x seen.
Proof.
  revert seen; induction col as [|y col IH]; intros seen; simpl.
  - tauto.
  - case_bool_decide as Hy; rewrite list_elem_of_In in Hy.
    + rewrite IH. split.
      * intros [Hc Hs]; auto.
      * intros [[->|Hc] Hs]; [contradiction | auto].
    + simpl. rewrite IH. simpl. split.
      * intros [->|[Hc Hs]]; [auto | split; [auto | tauto]].
      * intros [[->|Hc] Hs]; [auto |].
        destruct (decide (y = x)) as [->|Hne]; [auto | right; split; [auto | tauto]].
Qed.

Lemma unique_In {A} `{EqDecision A} (col : list A) (x : A) :
  In x (unique col) <-> In x col.
Proof. unfold unique. rewrite unique_from_In. simpl. tauto. Qed.

Lemma unique_from_NoDup {A} `{EqDecision A} (seen col : list A) :
  NoDup (unique_from seen col).
Proof.
  revert seen; induction col as [|y col IH]; intros seen; simpl.
  - constructor.
  - case_bool_decide as Hy; [apply IH |].
    apply NoDup_cons_2; [| apply IH].
    rewrite list_elem_of_In, unique_from_In. simpl. tauto.
Qed.

Lemma unique_NoDup {A} `{EqDecision A} (col : list A) : NoDup (unique col).
Proof. apply unique_from_NoDup. Qed.

Lemma insort_perm {A} (lt : A -> A -> bool) (x : A) (l : list A) :
  Permutation (insort lt x l) (x :: l).
Proof.
  induction l as [|y l IH]; simpl; [reflexivity |].
  destruct (lt x y); [reflexivity |].
  rewrite IH. apply perm_swap.
Qed.

Lemma sorted_from_perm {A} (lt : A -> A -> bool) (l acc : list A) :
  Permutation (fold_left (fun a x => insort lt x a) l acc) (l ++ acc).
Proof.
  revert acc; induction l as [|x l IH]; intros acc; simpl; [reflexivity |].
  rewrite IH, insort_perm. symmetry. apply Permutation_middle.
Qed.

Lemma sorted_perm {A} (lt : A -> A -> bool) (l : list A) :
  Permutation (sorted lt l) l.
Proof. unfold sorted. rewrite sorted_from_perm, app_nil_r. reflexivity. Qed.

Lemma sorted_In {A} (lt : A -> A -> bool) (l : list A) (x : A) :
  In x (sorted lt l) <-> In x l.
Proof.
  split; apply Permutation_in; [| symmetry]; apply sorted_perm.
Qed.

(** The result of [sorted] never has an element strictly below its
    predecessor; on NaN-free input that is ascending order. *)
Lemma insort_ordered (x : num) (l : list num) :
  Sorted (fun a b => num_lt b a = false) l ->
  Sorted (fun a b => num_lt b a = false) (insort num_lt x l).
Proof.
  induction l as [|y l IH]; simpl; intros Hs.
  - repeat constructor.
  - apply Sorted_inv in Hs as [Hs Hhd].
    destruct (num_lt x y) eqn:Hxy.
    + constructor; [constructor; assumption |]. constructor.
      destruct x as [a|], y as [b|]; simpl in *; try discriminate.
      apply Z.ltb_lt in Hxy. apply Z.ltb_ge. lia.
    + constructor; [apply IH, Hs |].
      destruct l as [|z l]; simpl; [constructor; exact Hxy |].
      apply HdRel_inv in Hhd.
      destruct (num_lt x z); constructor; assumption.
Qed.

Lemma sorted_ordered (l : list num) :
  Sorted (fun a b => num_lt b a = false) (sorted num_lt l).
Proof.
  unfold sorted.
  assert (H : forall acc, Sorted (fun a b => num_lt b a = false) acc ->
            Sorted (fun a b => num_lt b a = false)
              (fold_left (fun a x => insort num_lt x a) l acc)).
  { induction l as [|x l IH]; intros acc Hacc; simpl; [exact Hacc |].
    apply IH, insort_ordered, Hacc. }
  apply H. constructor.
Qed.

Lemma dropna_In {A} (col : list (option A)) (x : A) :
  In x (dropna col) <-> In (Some x) col.
Proof.
  unfold dropna. rewrite <- !list_elem_of_In, list_elem_of_omap. split.
  - intros (o & Ho & Hx). simpl in Hx. subst o. exact Ho.
  - intros Ho. exists (Some x). split; [exact Ho | reflexivity].
Qed.

Lemma num_eq_Some (c : num) (k : Z) : num_eq c (Some k) = true <-> c = Some k.
Proof.
  destruct c as [a|]; simpl; [| split; discriminate].
  rewrite Z.eqb_eq. split; congruence.
Qed.

Lemma num_eq_true (c sel : num) :
  num_eq c sel = true <-> exists v, c = Some v /\ sel = Some v.
Proof.
  destruct c as [a|], sel as [b|]; simpl;
    try (split; [discriminate | intros (v & ? & ?); discriminate]).
  rewrite Z.eqb_eq. split.
  - intros ->. eauto.
  - intros (v & ? & ?). congruence.
Qed.

Lemma str_eq_true (c : option string) (sel : string) :
  str_eq c sel = true <-> c = Some sel.
Proof.
  destruct c as [s|]; simpl; [| split; discriminate].
  rewrite String.eqb_eq. split; congruence.
Qed.

End PandasFacts.

(* ===================================================================== *)
(** * Group-sum *)
(* ===================================================================== *)

Section GroupSum.
Import Pandas Frame.

Lemma exact_add_keys (k v : Z) (acc : list (Z * Z)) (x : Z) :
  In x (map fst (exact_add k v acc)) <-> x = k \/ In x (map fst acc).
Proof.
  induction acc as [|[k' s] acc IH]; simpl.
  - intuition.
  - destruct (k <? k') eqn:Hlt; simpl; [intuition |].
    destruct (k =? k') eqn:Heq; simpl.
    + apply Z.eqb_eq in Heq. subst k'. intuition.
    + rewrite IH. intuition.
Qed.

Lemma exact_add_sorted (k v : Z) (acc : list (Z * Z)) :
  StronglySorted Z.lt (map fst acc) ->
  StronglySorted Z.lt (map fst (exact_add k v acc)).
Proof.
  induction acc as [|[k' s] acc IH]; simpl; intros Hs.
  - repeat constructor.
  - apply StronglySorted_inv in Hs as [Hrest Hall].
    destruct (k <? k') eqn:Hlt; simpl.
    + apply Z.ltb_lt in Hlt. constructor.
      * constructor; assumption.
      * constructor; [assumption |].
        eapply List.Forall_impl; [| exact Hall]. intros; simpl in *; lia.
    + destruct (k =? k') eqn:Heq; simpl.
      * constructor; assumption.
      * apply Z.ltb_ge in Hlt. apply Z.eqb_neq in Heq.
        constructor; [apply IH; assumption |].
        apply List.Forall_forall. intros x Hx.
        apply exact_add_keys in Hx as [->|Hx]; [lia |].
        rewrite List.Forall_forall in Hall. apply Hall, Hx.
Qed.

Lemma exact_add_total (k v : Z) (acc : list (Z * Z)) (x : Z) :
  group_total x (exact_add k v acc)
  = group_total x acc + (if k =? x then v else 0).
Proof.
  induction acc as [|[k' s] acc IH]; simpl.
  - destruct (k =? x); lia.
  - destruct (k <? k') eqn:Hlt; simpl.
    + destruct (k =? x), (k' =? x); lia.
    + destruct (k =? k') eqn:Heq; simpl.
      * apply Z.eqb_eq in Heq. subst k'. destruct (k =? x); lia.
      * rewrite IH. destruct (k' =? x); lia.
Qed.

Lemma sorted_total (acc : list (Z * Z)) (k s : Z) :
  StronglySorted Z.lt (map fst acc) -> In (k, s) acc -> group_total k acc = s.
Proof.
  induction acc as [|[k' s'] acc IH]; simpl; intros Hs Hin; [contradiction |].
  apply StronglySorted_inv in Hs as [Hrest Hall].
  assert (Hfresh : forall t, In (k', t) acc -> False).
  { intros t Ht. rewrite List.Forall_forall in Hall.
    specialize (Hall k' (in_map fst _ _ Ht)). simpl in Hall. lia. }
  assert (Hzero : forall l, (forall t, In (k', t) l -> False) -> group_total k' l = 0).
  { induction l as [|[a b] l IHl]; simpl; intros Hl; [reflexivity |].
    destruct (a =? k') eqn:Ha.
    - apply Z.eqb_eq in Ha. subst a. exfalso. apply (Hl b). left; reflexivity.
    - apply IHl. intros t Ht. apply (Hl t). right; exact Ht. }
  destruct Hin as [Heq|Hin].
  - inversion Heq; subst k' s'. rewrite Z.eqb_refl, Hzero by exact Hfresh. lia.
  - destruct (k' =? k) eqn:Hk.
    + apply Z.eqb_eq in Hk. subst k'. exfalso. apply (Hfresh s), Hin.
    + apply IH; assumption.
Qed.

Context {R : Type}.
Variable key : R -> num.
Variable metric : R -> Z.

Lemma sum_where_cons (k : Z) (r : R) (df : list R) :
  sum_where key metric k (r :: df)
  = (if num_eq (key r) (Some k) then metric r else 0)
    + sum_where key metric k df.
Proof.
  unfold sum_where. simpl. destruct (num_eq (key r) (Some k)); simpl; lia.
Qed.

Lemma groupby_from_keys (df : list R) (acc : list (Z * Z)) (x : Z) :
  In x (map fst (fold_left (exact_step key metric) df acc))
  <-> In x (map fst acc) \/ exists r, In r df /\ key r = Some x.
Proof.
  revert acc; induction df as [|r df IH]; intros acc; simpl.
  - split; [auto | intros [?|(r & [] & _)]; assumption].
  - rewrite IH. unfold exact_step. destruct (key r) as [k|] eqn:Hk.
    + rewrite exact_add_keys. split.
      * intros [[->|Hin]|(r' & Hr' & Hx)]; eauto 6.
      * intros [Hin|(r' & [<-|Hr'] & Hx)]; eauto 6.
        left; left. congruence.
    + split.
      * intros [Hin|(r' & Hr' & Hx)]; eauto 6.
      * intros [Hin|(r' & [<-|Hr'] & Hx)]; eauto 6. congruence.
Qed.

Lemma groupby_from_sorted (df : list R) (acc : list (Z * Z)) :
  StronglySorted Z.lt (map fst acc) ->
  StronglySorted Z.lt (map fst (fold_left (exact_step key metric) df acc)).
Proof.
  revert acc; induction df as [|r df IH]; intros acc Hs; simpl; [exact Hs |].
  apply IH. unfold exact_step. destruct (key r); [| exact Hs].
  apply exact_add_sorted, Hs.
Qed.

Lemma groupby_from_total (df : list R) (acc : list (Z * Z)) (x : Z) :
  group_total x (fold_left (exact_step key metric) df acc)
  = group_total x acc + sum_where key metric x df.
Proof.
  revert acc; induction df as [|r df IH]; intros acc; simpl.
  - unfold sum_where; simpl; lia.
  - rewrite IH, sum_where_cons. unfold exact_step.
    destruct (key r) as [k|]; simpl; [| lia].
    rewrite exact_add_total. destruct (k =? x); lia.
Qed.

(** The group-sum against its specification: ascending distinct keys, the
    keys are the non-missing key values of the table, each sum is the sum
    over the rows of that key. *)
Lemma exact_groupby_spec (df : list R) :
  StronglySorted Z.lt (map fst (exact_groupby key metric df))
  /\ (forall k, In k (map fst (exact_groupby key metric df))
                <-> exists r, In r df /\ key r = Some k)
  /\ (forall k s, In (k, s) (exact_groupby key metric df)
                  -> s = sum_where key metric k df).
Proof.
  unfold exact_groupby. split; [| split].
  - apply groupby_from_sorted. constructor.
  - intros k. rewrite groupby_from_keys. simpl. tauto.
  - intros k s Hin.
    rewrite <- (sorted_total _ k s (groupby_from_sorted df [] (SSorted_nil _)) Hin).
    rewrite groupby_from_total. simpl. lia.
Qed.

Lemma wrap64_range (z : Z) : - 2 ^ 63 <= wrap64 z < 2 ^ 63.
Proof.
  unfold wrap64. pose proof (Z.mod_pos_bound (z + 2 ^ 63) (2 ^ 64)). lia.
Qed.

Lemma wrap64_small (z : Z) : - 2 ^ 63 <= z < 2 ^ 63 -> wrap64 z = z.
Proof.
  intros Hz. unfold wrap64. rewrite Z.mod_small by lia. lia.
Qed.

Lemma wrap64_add_l (a b : Z) : wrap64 (wrap64 a + b) = wrap64 (a + b).
Proof.
  unfold wrap64. f_equal.
  replace ((a + 2 ^ 63) mod 2 ^ 64 - 2 ^ 63 + b + 2 ^ 63)
    with ((a + 2 ^ 63) mod 2 ^ 64 + b) by lia.
  rewrite Z.add_mod_idemp_l by lia. f_equal. lia.
Qed.

Lemma wrap64_idem (z : Z) : wrap64 (wrap64 z) = wrap64 z.
Proof. apply wrap64_small, wrap64_range. Qed.

(** The int64 accumulator is the exact one with every sum wrapped. *)
Lemma group_add_wraps (k v : Z) (acc : list (Z * Z)) :
  group_add k v (map (fun p => (fst p, wrap64 (snd p))) acc)
  = map (fun p => (fst p, wrap64 (snd p))) (exact_add k v acc).
Proof.
  induction acc as [|[k' s] acc IH]; simpl; [reflexivity |].
  destruct (k <? k'); simpl; [reflexivity |].
  destruct (k =? k'); simpl.
  - rewrite wrap64_add_l. reflexivity.
  - rewrite IH. reflexivity.
Qed.

Lemma groupby_from_wraps (df : list R) (acc : list (Z * Z)) :
  fold_left (groupby_step key metric) df (map (fun p => (fst p, wrap64 (snd p))) acc)
  = map (fun p => (fst p, wrap64 (snd p))) (fold_left (exact_step key metric) df acc).
Proof.
  revert acc; induction df as [|r df IH]; intros acc; simpl; [reflexivity |].
  rewrite <- IH. f_equal. unfold groupby_step, exact_step.
  destruct (key r); [apply group_add_wraps | reflexivity].
Qed.

Lemma groupby_sum_wraps (df : list R) :
  groupby_sum key metric df
  = map (fun p => (fst p, wrap64 (snd p))) (exact_groupby key metric df).
Proof. unfold groupby_sum, exact_groupby. apply (groupby_from_wraps df []). Qed.

Lemma groupby_sum_keys (df : list R) :
  map fst (groupby_sum key metric df) = map fst (exact_groupby key metric df).
Proof. rewrite groupby_sum_wraps, map_map. reflexivity. Qed.

(** The group-sum against its specification: ascending distinct keys, the
    keys are the non-missing key values of the table, each sum is the
    int64 value of the sum over the rows of that key. *)
Lemma groupby_sum_spec (df : list R) :
  StronglySorted Z.lt (map fst (groupby_sum key metric df))
  /\ (forall k, In k (map fst (groupby_sum key metric df))
                <-> exists r, In r df /\ key r = Some k)
  /\ (forall k s, In (k, s) (groupby_sum key metric df)
                  -> s = wrap64 (sum_where key metric k df)).
Proof.
  destruct (exact_groupby_spec df) as (Hs & Hk & Hv).
  rewrite groupby_sum_keys. split; [exact Hs |]. split; [exact Hk |].
  intros k s Hin. rewrite groupby_sum_wraps in Hin.
  apply in_map_iff in Hin as ([k' s'] & Heq & Hin). simpl in Heq.
  injection Heq as -> <-. f_equal. apply Hv, Hin.
Qed.

Lemma ascending_NoDup (l : list Z) : StronglySorted Z.lt l -> NoDup l.
Proof.
  induction 1 as [|x l Hs IH Hall]; [constructor |].
  apply NoDup_cons_2; [| exact IH].
  rewrite list_elem_of_In. intros Hin. rewrite List.Forall_forall in Hall.
  specialize (Hall x Hin). lia.
Qed.

Lemma groupby_sum_length (df : list R) :
  length (groupby_sum key metric df) = length (unique (dropna (map key df))).
Proof.
  rewrite <- (length_map fst).
  apply Permutation_length, NoDup_Permutation.
  - apply ascending_NoDup, groupby_sum_spec.
  - apply unique_NoDup.
  - intros k. rewrite !list_elem_of_In.
    rewrite (proj1 (proj2 (groupby_sum_spec df))), unique_In, dropna_In, in_map_iff.
    split; intros (r & H1 & H2); exists r; tauto.
Qed.

End GroupSum.

Section YearlyAggregate.
Import Pandas Frame Sample.

(** C5, as the code has it.  Line 64,
    [trend_df.groupby(YEAR)[HIGH_RISK_TXNS].sum()]: the output lists the
    YEAR values present in the table in strictly ascending order, hence
    each exactly once; a year is listed exactly when some row carries it,
    so a year without rows is never filled in; the number of output rows is
    the number of distinct years present.  The value next to a year is the
    sum of the metric over the rows of that year as int64 arithmetic gives
    it: the sum wrapped around modulo 2^64, which is the sum itself
    whenever that lies between -2^63 and 2^63 - 1. *)
Theorem yearly_groupby_one_row_per_year (trend_df : list (ARow Trend.TrendCols)) :
  StronglySorted Z.lt (map fst (Trend.yearly_df trend_df))
  /\ NoDup (map fst (Trend.yearly_df trend_df))
  /\ (forall y, In y (map fst (Trend.yearly_df trend_df))
                <-> exists r, In r trend_df /\ YEAR r = Some y)
  /\ (forall y s, In (y, s) (Trend.yearly_df trend_df) ->
        s = wrap64 (sum_where YEAR Trend.metric y trend_df)
        /\ (- 2 ^ 63 <= sum_where YEAR Trend.metric y trend_df < 2 ^ 63 ->
            s = sum_where YEAR Trend.metric y trend_df))
  /\ length (Trend.yearly_df trend_df)
     = length (unique (dropna (map YEAR trend_df))).
Proof.
  unfold Trend.yearly_df.
  destruct (groupby_sum_spec YEAR Trend.metric trend_df) as (Hs & Hk & Hv).
  split; [exact Hs |].
  split; [apply ascending_NoDup, Hs |].
  split; [exact Hk |].
  split; [| apply groupby_sum_length].
  intros y s Hin. split; [apply Hv, Hin |].
  intros Hrange. rewrite (Hv y s Hin). apply wrap64_small, Hrange.
Qed.

(** The same holds month by month inside one year (lines 84-85). *)
Lemma monthly_groupby_one_row_per_month
    (trend_df : list (ARow Trend.TrendCols)) (year_m : num) :
  StronglySorted Z.lt (map fst (Trend.monthly_df trend_df year_m))
  /\ (forall m, In m (map fst (Trend.monthly_df trend_df year_m))
                <-> exists r, In r trend_df
                              /\ num_eq (YEAR r) year_m = true /\ MONTH r = Some m)
  /\ (forall m s, In (m, s) (Trend.monthly_df trend_df year_m)
                  -> s = wrap64 (sum_where MONTH Trend.metric m
                                   (select (fun r => num_eq (YEAR r) year_m) trend_df))).
Proof.
  unfold Trend.monthly_df.
  destruct (groupby_sum_spec MONTH Trend.metric
              (select (fun r => num_eq (YEAR r) year_m) trend_df)) as (Hs & Hk & Hv).
  split; [exact Hs |]. split; [| exact Hv].
  intros m. rewrite Hk. unfold select. split.
  - intros (r & Hr & Hm). apply filter_In in Hr as [Hr Hy]. eauto.
  - intros (r & Hr & Hy & Hm). exists r. split; [| exact Hm].
    apply filter_In. auto.
Qed.

(** The worked example of the specification. *)
Example yearly_2024 :
  Trend.yearly_df [atrend 2024 1 5 10; atrend 2024 1 20 5; atrend 2024 2 1 7]
  = [(2024, 22)].
Proof. reflexivity. Qed.

Example monthly_2024 :
  Trend.monthly_df [atrend 2024 1 5 10; atrend 2024 1 20 5; atrend 2024 2 1 7]
    (Some 2024)
  = [(1, 15); (2, 7)].
Proof. reflexivity. Qed.

Lemma yearly_groupby_witness :
  22 = sum_where YEAR Trend.metric 2024
         [atrend 2024 1 5 10; atrend 2024 1 20 5; atrend 2024 2 1 7].
Proof.
  apply (proj2 (proj1 (proj2 (proj2 (proj2
           (yearly_groupby_one_row_per_year
              [atrend 2024 1 5 10; atrend 2024 1 20 5; atrend 2024 2 1 7]))))
           2024 22 (or_introl eq_refl))).
  split; [discriminate | reflexivity].
Defined.

(** C5 as worded fails: two rows of one year holding 2^63 - 1 and 1 add up
    to 2^63, and the value the group-by gives is -2^63. *)
Lemma yearly_sum_wraps_around :
  Trend.yearly_df [atrend 2024 1 5 (2 ^ 63 - 1); atrend 2024 1 20 1]
  = [(2024, - 2 ^ 63)]
  /\ sum_where YEAR Trend.metric 2024
       [atrend 2024 1 5 (2 ^ 63 - 1); atrend 2024 1 20 1] = 2 ^ 63
  /\ ~ (forall y s,
          In (y, s) (Trend.yearly_df
                       [atrend 2024 1 5 (2 ^ 63 - 1); atrend 2024 1 20 1]) ->
          s = sum_where YEAR Trend.metric y
                [atrend 2024 1 5 (2 ^ 63 - 1); atrend 2024 1 20 1]).
Proof.
  split; [vm_compute; reflexivity |]. split; [vm_compute; reflexivity |].
  intros H. specialize (H 2024 (- 2 ^ 63)).
  assert (Hin : In (2024, - 2 ^ 63)
                  (Trend.yearly_df
                     [atrend 2024 1 5 (2 ^ 63 - 1); atrend 2024 1 20 1]))
    by (vm_compute; left; reflexivity).
  apply H in Hin. vm_compute in Hin. discriminate Hin.
Qed.

End YearlyAggregate.

(* ===================================================================== *)
(** * Date decomposition *)
(* ===================================================================== *)

Section Decomposition.
Import Pandas Frame Sample Totals.
Variable strptime : string -> option Timestamp.

Lemma malformedb_spec (c : tcell) :
  malformedb strptime c = true <-> malformed strptime c.
Proof.
  unfold malformed. destruct c as [|t|s]; simpl.
  - split; [discriminate | intros (s & ? & _); discriminate].
  - split; [discriminate | intros (s & ? & _); discriminate].
  - destruct (nat_text s) eqn:Hn; simpl.
    + split; [discriminate | intros (s' & [= <-] & Hn' & _)]. congruence.
    + destruct (strptime s) eqn:Hs.
      * split; [discriminate | intros (s' & [= <-] & _ & Hs')]. congruence.
      * split; [eauto | reflexivity].
Qed.

Lemma to_datetime_cell_raise (c : tcell) (e : string) :
  to_datetime_cell strptime c = Raise e -> malformed strptime c.
Proof.
  destruct c as [|t|s]; simpl; try discriminate.
  destruct (nat_text s) eqn:Hn; [discriminate |].
  destruct (strptime s) eqn:Hs; [discriminate |]. intros _. exists s. auto.
Qed.

Lemma to_datetime_cell_ok (c : tcell) :
  ~ malformed strptime c -> exists c', to_datetime_cell strptime c = Ok c'.
Proof.
  destruct c as [|t|s]; simpl; eauto.
  destruct (nat_text s) eqn:Hn; eauto.
  destruct (strptime s) eqn:Hs; eauto.
  intros Hno. exfalso. apply Hno. exists s. auto.
Qed.

Lemma to_datetime_cell_malformed (c : tcell) :
  malformed strptime c -> exists e, to_datetime_cell strptime c = Raise e.
Proof. intros (s & -> & Hn & Hs). simpl. rewrite Hn, Hs. eauto. Qed.

(** What a cell becomes: a cell without timestamp becomes NaT, a cell that
    holds a timestamp becomes that timestamp, and nothing else parses. *)
Lemma to_datetime_cell_cases (c c' : tcell) :
  to_datetime_cell strptime c = Ok c' ->
  (missing c /\ c' = TNull) \/ (exists t, reads strptime c t /\ c' = TStamp t).
Proof.
  unfold missing, reads. destruct c as [|t|s]; simpl.
  - intros [= <-]. left. split; [left |]; reflexivity.
  - intros [= <-]. right. exists t. split; [left |]; reflexivity.
  - destruct (nat_text s) eqn:Hn.
    + intros [= <-]. left. split; [right; exists s; auto | reflexivity].
    + destruct (strptime s) as [t|] eqn:Hs; [| discriminate].
      intros [= <-]. right. exists t. split; [right; exists s; auto | reflexivity].
Qed.

Lemma missing_not_reads (c : tcell) (t : Timestamp) :
  missing c -> reads strptime c t -> False.
Proof.
  intros [->|(s & -> & Hn)] [H|(s' & H & Hn' & _)]; try discriminate.
  injection H as <-. congruence.
Qed.

Lemma reads_functional (c : tcell) (t t' : Timestamp) :
  reads strptime c t -> reads strptime c t' -> t = t'.
Proof.
  intros [->|(s & -> & _ & Hs)] [H|(s' & H & _ & Hs')]; try discriminate.
  - congruence.
  - injection H as <-. congruence.
Qed.

Lemma to_datetime_raises (col : list tcell) :
  List.Exists (malformed strptime) col -> exists e, to_datetime strptime col = Raise e.
Proof.
  induction col as [|c col IH]; intros Hex; [inversion Hex |].
  simpl. destruct (to_datetime_cell strptime c) as [c'|e] eqn:Hc; [| eauto].
  inversion Hex as [? ? Hm|? ? Hrest]; subst.
  - apply to_datetime_cell_malformed in Hm as (e & He). congruence.
  - destruct (IH Hrest) as (e & ->). eauto.
Qed.

Lemma to_datetime_ok (col out : list tcell) :
  to_datetime strptime col = Ok out
  <-> Forall2 (fun c c' => to_datetime_cell strptime c = Ok c') col out.
Proof.
  revert out; induction col as [|c col IH]; intros out; simpl.
  - split.
    + intros [= <-]. constructor.
    + intros H; inversion H. reflexivity.
  - destruct (to_datetime_cell strptime c) as [c'|e] eqn:Hc.
    + destruct (to_datetime strptime col) as [rest|e] eqn:Hr.
      * split.
        -- intros [= <-]. constructor; [exact Hc | apply IH; reflexivity].
        -- intros H; inversion H as [|? c2 ? rest2 Hc2 Hrest2]; subst.
           apply IH in Hrest2. congruence.
      * split; [discriminate |].
        intros H; inversion H as [|? c2 ? rest2 Hc2 Hrest2]; subst.
        apply IH in Hrest2. discriminate.
    + split; [discriminate |].
      intros H; inversion H; subst. congruence.
Qed.

Lemma to_datetime_total (col : list tcell) :
  List.Forall (fun c => ~ malformed strptime c) col ->
  exists out, to_datetime strptime col = Ok out.
Proof.
  induction 1 as [|c col Hc _ (out & IH)]; simpl; [eauto |].
  destruct (to_datetime_cell_ok c Hc) as (c' & ->). rewrite IH. eauto.
Qed.

(** Without a malformed cell the code and the dropping policy agree: there
    is nothing to drop. *)
Lemma decompose_well_formed {P} (df : list (Row P)) :
  List.Forall (fun c => ~ malformed strptime c) (map stamp df) ->
  decompose strptime df = Ok (Spec.decompose_dropping strptime df).
Proof.
  unfold decompose, Spec.decompose_dropping.
  induction df as [|r df IH]; simpl; intros Hall; [reflexivity |].
  apply List.Forall_cons_iff in Hall as [Hr Hall].
  destruct (to_datetime_cell_ok _ Hr) as (c' & Hc). rewrite Hc.
  specialize (IH Hall).
  destruct (to_datetime strptime (map stamp df)) as [parsed|e]; [| discriminate].
  injection IH as IH. simpl. rewrite IH. reflexivity.
Qed.

Lemma decompose_rows {P} (df : list (Row P)) (out : list (ARow P)) :
  decompose strptime df = Ok out ->
  Forall2 (fun r a => base a = cols r
                      /\ to_datetime_cell strptime (stamp r) = Ok (when a)
                      /\ YEAR a = dt_year (when a)
                      /\ MONTH a = dt_month (when a)) df out.
Proof.
  unfold decompose.
  destruct (to_datetime strptime (map stamp df)) as [parsed|e] eqn:Hp; [| discriminate].
  intros [= <-]. apply to_datetime_ok in Hp.
  revert parsed Hp; induction df as [|r df IH]; intros parsed Hp; simpl in *.
  - inversion Hp. constructor.
  - inversion Hp as [|? c ? rest Hc Hrest]; subst. simpl.
    constructor; [auto | apply IH, Hrest].
Qed.

Lemma Forall2_pick_r {A B} (Q : A -> B -> Prop) (l : list A) (k : list B) (y : B) :
  Forall2 Q l k -> In y k -> exists x, In x l /\ Q x y.
Proof.
  induction 1 as [|x y' l k Hxy _ IH]; simpl; [contradiction |].
  intros [<-|Hin]; [eauto |].
  destruct (IH Hin) as (x' & Hx' & HQ). eauto.
Qed.

Lemma decompose_length {P} (df : list (Row P)) (out : list (ARow P)) :
  decompose strptime df = Ok out -> length out = length df.
Proof. intros H. symmetry. eapply Forall2_length, decompose_rows, H. Qed.

Lemma groupby_from_dated {R} (key : R -> num) (metric : R -> Z) (df : list R)
    (acc : list (Z * Z)) :
  fold_left (groupby_step key metric) df acc
  = fold_left (groupby_step key metric)
      (select (fun r => match key r with Some _ => true | None => false end) df) acc.
Proof.
  revert acc; induction df as [|r df IH]; intros acc; simpl; [reflexivity |].
  destruct (key r) as [k|] eqn:Hk; simpl.
  - rewrite IH. reflexivity.
  - rewrite IH. unfold groupby_step at 2. rewrite Hk. reflexivity.
Qed.

Lemma decompose_cells {P} (df : list (Row P)) (out : list (ARow P)) :
  decompose strptime df = Ok out ->
  Forall2 (fun r a =>
             base a = cols r
             /\ (missing (stamp r) ->
                 when a = TNull /\ YEAR a = None /\ MONTH a = None)
             /\ (forall t, reads strptime (stamp r) t ->
                   when a = TStamp t
                   /\ YEAR a = Some (ts_year t) /\ MONTH a = Some (ts_month t))
             /\ (missing (stamp r) \/ exists t, reads strptime (stamp r) t))
          df out.
Proof.
  intros Hd. eapply Forall2_impl; [apply decompose_rows, Hd |].
  intros r a (Hb & Hc & Hy & Hm). split; [exact Hb |].
  destruct (to_datetime_cell_cases _ _ Hc) as [[Hmiss Hw]|(t & Hreads & Hw)].
  - split; [| split].
    + intros _. rewrite Hy, Hm, Hw. auto.
    + intros t Ht. exfalso. eapply missing_not_reads; eassumption.
    + left. exact Hmiss.
  - split; [| split].
    + intros Hmiss. exfalso. eapply missing_not_reads; eassumption.
    + intros t' Ht'. rewrite (reads_functional _ _ _ Ht' Hreads).
      rewrite Hy, Hm, Hw. auto.
    + right. eauto.
Qed.

Lemma decomposed_when {P} (df : list (Row P)) (out : list (ARow P)) (a : ARow P) :
  decompose strptime df = Ok out -> In a out ->
  (when a = TNull /\ YEAR a = None /\ MONTH a = None)
  \/ exists t, when a = TStamp t
               /\ YEAR a = Some (ts_year t) /\ MONTH a = Some (ts_month t).
Proof.
  intros Hd Ha.
  destruct (Forall2_pick_r _ _ _ a (decompose_cells df out Hd) Ha)
    as (r & _ & _ & Hmiss & Hreads & [Hm|(t & Ht)]).
  - left. apply Hmiss, Hm.
  - right. exists t. apply Hreads, Ht.
Qed.

(** C2, as the code has it.  A timestamp cell that fails strict parsing
    makes [pd.to_datetime] raise; no handler surrounds lines 55 and 163, so
    decomposition yields no rows at all and the section is left unrendered.
    Decomposition never drops a row: when no cell is malformed it returns
    one row per input row.  A row whose cell holds a timestamp gets that
    timestamp with its year and month as YEAR and MONTH, and a later
    group-by by YEAR counts it in the group of that year; a row without
    timestamp (a missing cell, an empty text or a NaT spelling) becomes NaT
    with YEAR and MONTH missing, and exactly these rows are the ones the
    group-by leaves out. *)
Theorem malformed_timestamp_raises {P V} (render : list (ARow P) -> V)
    (df : list (Row P)) :
  (List.Exists (malformed strptime) (map stamp df) ->
   exists e, decompose strptime df = Raise e
             /\ with_decomposed strptime render df = Raise e)
  /\ (List.Forall (fun c => ~ malformed strptime c) (map stamp df) ->
      exists out, decompose strptime df = Ok out
        /\ Forall2 (fun r a =>
                      base a = cols r
                      /\ (missing (stamp r) ->
                          when a = TNull /\ YEAR a = None /\ MONTH a = None)
                      /\ (forall t, reads strptime (stamp r) t ->
                            when a = TStamp t
                            /\ YEAR a = Some (ts_year t)
                            /\ MONTH a = Some (ts_month t))
                      /\ (missing (stamp r) \/ exists t, reads strptime (stamp r) t))
                   df out
        /\ (forall a, In a out -> (dated a = true <-> when a <> TNull))
        /\ forall (metric : ARow P -> Z),
             groupby_sum YEAR metric out = groupby_sum YEAR metric (select dated out)
             /\ (forall a t, In a out -> when a = TStamp t ->
                   In (ts_year t) (map fst (groupby_sum YEAR metric out)))
             /\ (forall y s, In (y, s) (groupby_sum YEAR metric out) ->
                   (exists a t, In a out /\ when a = TStamp t /\ ts_year t = y)
                   /\ s = wrap64 (sum_where YEAR metric y out))).
Proof.
  split.
  - intros Hex. destruct (to_datetime_raises _ Hex) as (e & He).
    exists e. unfold with_decomposed, decompose. rewrite He.
    split; [reflexivity |].
    destruct df; [inversion Hex | reflexivity].
  - intros Hall. exists (Spec.decompose_dropping strptime df).
    pose proof (decompose_well_formed df Hall) as Hd.
    split; [exact Hd |]. split; [apply decompose_cells, Hd |]. split.
    + intros a Ha. unfold dated.
      destruct (decomposed_when _ _ a Hd Ha) as [(Hw & Hy & _)|(t & Hw & Hy & _)];
        rewrite Hy, Hw; split; congruence.
    + intros metric. split; [apply (groupby_from_dated YEAR metric _ []) |].
      destruct (groupby_sum_spec YEAR metric (Spec.decompose_dropping strptime df))
        as (_ & Hk & Hv).
      split.
      * intros a t Ha Hw. apply Hk. exists a. split; [exact Ha |].
        destruct (decomposed_when _ _ a Hd Ha) as [(Hw' & _)|(t' & Hw' & Hy & _)];
          congruence.
      * intros y s Hin. split; [| apply Hv, Hin].
        assert (Hkey : In y (map fst (groupby_sum YEAR metric
                                        (Spec.decompose_dropping strptime df))))
          by (apply in_map_iff; exists (y, s); auto).
        apply Hk in Hkey as (a & Ha & Hy).
        destruct (decomposed_when _ _ a Hd Ha) as [(_ & Hy' & _)|(t & Hw & Hy' & _)];
          [congruence |].
        exists a, t. split; [exact Ha |]. split; [exact Hw | congruence].
Qed.

End Decomposition.

Section DecompositionExamples.
Import Pandas Frame Sample.

Lemma malformed_timestamp_witness :
  (exists e, decompose iso_date [trend_row "2024-01-05" 10; trend_row "soon" 4] = Raise e
             /\ Trend.trend_section iso_date (Trend.mkTrendUI 0 0 0)
                  [trend_row "2024-01-05" 10; trend_row "soon" 4] = Raise e)
  /\ (exists out, decompose iso_date trends_2024 = Ok out /\ length out = 3%nat).
Proof.
  split.
  - apply (proj1 (malformed_timestamp_raises iso_date
                    (Trend.charts (Trend.mkTrendUI 0 0 0))
                    [trend_row "2024-01-05" 10; trend_row "soon" 4])).
    apply Exists_cons_tl, Exists_cons_hd. exists "soon"%string.
    repeat split; reflexivity.
  - destruct (proj2 (malformed_timestamp_raises iso_date
                       (Trend.charts (Trend.mkTrendUI 0 0 0)) trends_2024))
      as (out & Hout & Hrows & _).
    + repeat constructor; intros (s & Hs & _ & Hn); inversion Hs; subst;
        vm_compute in Hn; discriminate.
    + exists out. split; [exact Hout |].
      symmetry. apply (Forall2_length _ _ _ Hrows).
Defined.

(** C2 as worded fails: with one unparseable cell among parseable ones the
    render does not complete, and decomposition does not return the table
    with that row dropped. *)
Lemma malformed_cell_not_dropped :
  List.Exists (malformed iso_date)
    (map stamp [trend_row "2024-01-05" 10; trend_row "soon" 4])
  /\ Spec.decompose_dropping iso_date [trend_row "2024-01-05" 10; trend_row "soon" 4]
     = [atrend 2024 1 5 10]
  /\ decompose iso_date [trend_row "2024-01-05" 10; trend_row "soon" 4]
     <> Ok (Spec.decompose_dropping iso_date
              [trend_row "2024-01-05" 10; trend_row "soon" 4])
  /\ ~ (exists ui view,
          Trend.trend_section iso_date ui
            [trend_row "2024-01-05" 10; trend_row "soon" 4] = Ok view).
Proof.
  split; [| split; [| split]].
  - apply Exists_cons_tl, Exists_cons_hd. exists "soon"%string.
    repeat split; reflexivity.
  - reflexivity.
  - discriminate.
  - intros (ui & view & H). discriminate H.
Qed.

End DecompositionExamples.

(* ===================================================================== *)
(** * Selector domains *)
(* ===================================================================== *)

Section Selectors.
Import Pandas Frame Sample.

Lemma select_In {A} (mask : A -> bool) (df : list A) (r : A) :
  In r (select mask df) <-> In r df /\ mask r = true.
Proof. apply filter_In. Qed.

Lemma options_In (col : list num) (x : num) :
  In x (sorted num_lt (unique col)) <-> In x col.
Proof. rewrite sorted_In, unique_In. reflexivity. Qed.

Lemma options_NoDup (col : list num) : NoDup (sorted num_lt (unique col)).
Proof.
  rewrite sorted_perm. apply unique_NoDup.
Qed.

Lemma selectbox_In {A} (options : list A) (pick : nat) (v : A) :
  selectbox options pick = Some v -> In v options.
Proof.
  unfold selectbox. destruct (options !! pick) as [o|] eqn:Hp.
  - intros [= <-]. apply list_elem_of_In. eapply list_elem_of_lookup_2, Hp.
  - destruct options; simpl; [discriminate | intros [= <-]; left; reflexivity].
Qed.

Lemma selectbox_nonempty {A} (options : list A) (pick : nat) :
  options <> [] -> exists v, selectbox options pick = Some v.
Proof.
  unfold selectbox. intros Hne. destruct (options !! pick); [eauto |].
  destruct options; [contradiction | simpl; eauto].
Qed.

(** The daily-trend month selector (line 111) offers exactly the MONTH
    values of the rows of the selected year, each once. *)
Lemma daily_month_options_exact
    (trend_df : list (ARow Trend.TrendCols)) (year_d m : num) :
  In m (Trend.daily_month_options trend_df year_d)
  <-> exists r, In r trend_df /\ num_eq (YEAR r) year_d = true /\ MONTH r = m.
Proof.
  unfold Trend.daily_month_options. rewrite options_In, in_map_iff. split.
  - intros (r & Hm & Hr). apply select_In in Hr as [Hr Hy]. eauto.
  - intros (r & Hr & Hy & Hm). exists r. split; [exact Hm |].
    apply select_In. auto.
Qed.

Lemma daily_month_options_NoDup
    (trend_df : list (ARow Trend.TrendCols)) (year_d : num) :
  NoDup (Trend.daily_month_options trend_df year_d).
Proof. apply options_NoDup. Qed.

(** The drill-down month selector (line 173) offers the MONTH values of the
    whole table. *)
Lemma drill_month_options_exact (dash_df : list (ARow Drill.DashCols)) (m : num) :
  In m (Drill.month_options dash_df) <-> exists r, In r dash_df /\ MONTH r = m.
Proof.
  unfold Drill.month_options. rewrite options_In, in_map_iff.
  split; intros (r & H1 & H2); eauto.
Qed.

Lemma drill_year_options_exact (dash_df : list (ARow Drill.DashCols)) (y : num) :
  In y (Drill.year_options dash_df) <-> exists r, In r dash_df /\ YEAR r = y.
Proof.
  unfold Drill.year_options. rewrite options_In, in_map_iff.
  split; intros (r & H1 & H2); eauto.
Qed.

(** C1, drill-down selector.  With a table holding January 2023 and
    February 2024, the year selector offers 2023 and the month selector
    still offers February, a month no row of 2023 has; picking both shows an
    empty table.  Line 173 reads the MONTH column of the whole table, where
    line 111 reads it from the rows of the selected year. *)
Theorem drill_month_selector_ignores_year :
  Drill.year_options dash_two_years = [Some 2023; Some 2024]
  /\ Drill.month_options dash_two_years = [Some 1; Some 2]
  /\ Drill.selections (Drill.mkDrillUI 0 1 0 0) dash_two_years
     = Drill.mkSpec (Some 2023) (Some 2) Drill.ALL Drill.ALL
  /\ ~ (exists r, In r dash_two_years /\ YEAR r = Some 2023 /\ MONTH r = Some 2)
  /\ Drill.drill_filter (Drill.selections (Drill.mkDrillUI 0 1 0 0) dash_two_years)
       dash_two_years = [].
Proof.
  split; [reflexivity |]. split; [reflexivity |]. split; [reflexivity |].
  split; [| reflexivity].
  intros (r & [<-|[<-|[]]] & Hy & Hm); simpl in *; discriminate.
Qed.

End Selectors.

(* ===================================================================== *)
(** * Drill-down filter *)
(* ===================================================================== *)

Section DrillFilter.
Import Pandas Frame Sample.

Lemma select_select {A} (p q : A -> bool) (df : list A) :
  select p (select q df) = select (fun r => q r && p r) df.
Proof.
  unfold select. induction df as [|r df IH]; simpl; [reflexivity |].
  destruct (q r); simpl; [destruct (p r) |]; rewrite IH; reflexivity.
Qed.

Lemma select_all {A} (df : list A) : select (fun _ => true) df = df.
Proof. unfold select. induction df as [|r df IH]; simpl; congruence. Qed.

Lemma select_ext {A} (p q : A -> bool) (df : list A) :
  (forall r, p r = q r) -> select p df = select q df.
Proof. intros H. unfold select. apply filter_ext, H. Qed.

Lemma select_length {A} (p : A -> bool) (df : list A) :
  (length (select p df) <= length df)%nat.
Proof. apply filter_length_le. Qed.

Lemma select_sublist {A} (p : A -> bool) (df : list A) : sublist (select p df) df.
Proof.
  unfold select. induction df as [|r df IH]; simpl; [constructor |].
  destruct (p r); [apply sublist_skip | apply sublist_cons]; exact IH.
Qed.

Lemma select_id_iff {A} (p : A -> bool) (df : list A) :
  select p df = df <-> forall r, In r df -> p r = true.
Proof.
  unfold select. induction df as [|r df IH]; simpl; [intuition |].
  destruct (p r) eqn:Hp.
  - split.
    + intros [= Heq] r' [<-|Hin]; [exact Hp | apply IH; assumption].
    + intros Hall. f_equal. apply IH. auto.
  - split.
    + intros Heq. pose proof (filter_length_le p df) as Hlen.
      rewrite Heq in Hlen. simpl in Hlen. lia.
    + intros Hall. specialize (Hall r (or_introl eq_refl)). congruence.
Qed.

Lemma by_city_mask (city : string) (df : list (ARow Drill.DashCols)) :
  Drill.by_city city df = select (Drill.city_mask city) df.
Proof.
  unfold Drill.by_city, Drill.city_mask.
  destruct (negb (String.eqb city Drill.ALL)); [reflexivity |].
  symmetry. apply select_all.
Qed.

Lemma by_risk_mask (risk : string) (df : list (ARow Drill.DashCols)) :
  Drill.by_risk risk df = select (Drill.risk_mask risk) df.
Proof.
  unfold Drill.by_risk, Drill.risk_mask.
  destruct (negb (String.eqb risk Drill.ALL)); [reflexivity |].
  symmetry. apply select_all.
Qed.

Lemma apply_masks_select (masks : list (ARow Drill.DashCols -> bool))
    (df : list (ARow Drill.DashCols)) :
  Drill.apply_masks masks df = select (fun r => forallb (fun m => m r) masks) df.
Proof.
  unfold Drill.apply_masks.
  revert df; induction masks as [|m masks IH]; intros df; simpl.
  - symmetry. apply select_all.
  - rewrite IH, select_select. reflexivity.
Qed.

Lemma forallb_perm {A} (f : A -> bool) (l l' : list A) :
  Permutation l l' -> forallb f l = forallb f l'.
Proof.
  induction 1 as [|x l l' _ IH|x y l|l l' l'' _ IH1 _ IH2]; simpl.
  - reflexivity.
  - rewrite IH. reflexivity.
  - destruct (f x), (f y); reflexivity.
  - congruence.
Qed.

Lemma drill_filter_masks (spec : Drill.FilterSpec) (df : list (ARow Drill.DashCols)) :
  Drill.drill_filter spec df
  = select (fun r => forallb (fun m => m r) (Drill.constraints spec)) df.
Proof.
  unfold Drill.drill_filter, Drill.by_year_month.
  rewrite by_risk_mask, by_city_mask, !select_select.
  apply select_ext. intros r. simpl.
  rewrite andb_true_r, !andb_assoc. reflexivity.
Qed.

Lemma city_mask_true (city : string) (r : ARow Drill.DashCols) :
  Drill.city_mask city r = true
  <-> (city <> Drill.ALL -> Drill.location r = Some city).
Proof.
  unfold Drill.city_mask. destruct (String.eqb_spec city Drill.ALL) as [->|Hne]; simpl.
  - split; [intros _ Hn; contradiction | reflexivity].
  - rewrite str_eq_true. tauto.
Qed.

Lemma risk_mask_true (risk : string) (r : ARow Drill.DashCols) :
  Drill.risk_mask risk r = true
  <-> (risk <> Drill.ALL -> Drill.risk_level r = Some risk).
Proof.
  unfold Drill.risk_mask. destruct (String.eqb_spec risk Drill.ALL) as [->|Hne]; simpl.
  - split; [intros _ Hn; contradiction | reflexivity].
  - rewrite str_eq_true. tauto.
Qed.

Lemma constraints_satisfies (spec : Drill.FilterSpec) (r : ARow Drill.DashCols) :
  forallb (fun m => m r) (Drill.constraints spec) = true <-> Drill.satisfies spec r.
Proof.
  unfold Drill.satisfies. simpl.
  rewrite !andb_true_iff, !num_eq_true, city_mask_true, risk_mask_true.
  tauto.
Qed.

Lemma drill_filter_In (spec : Drill.FilterSpec)
    (df : list (ARow Drill.DashCols)) (r : ARow Drill.DashCols) :
  In r (Drill.drill_filter spec df) <-> In r df /\ Drill.satisfies spec r.
Proof. rewrite drill_filter_masks, select_In, constraints_satisfies. reflexivity. Qed.

Lemma drill_filter_sublist (spec : Drill.FilterSpec)
    (df : list (ARow Drill.DashCols)) :
  sublist (Drill.drill_filter spec df) df.
Proof. rewrite drill_filter_masks. apply select_sublist. Qed.

(** C6.  Lines 187-198 return the rows of the table, in table order, that
    meet every selection other than ALL: YEAR and MONTH equal to the
    selected numbers, LOCATION and FRAUD_RISK_LEVEL equal, character for
    character, to the selected text when that is not ALL.  A row is
    returned exactly when it is in the table and meets all of them, and
    applying the four constraints in any other order gives the same
    result. *)
Theorem drill_filter_conjunction
    (spec : Drill.FilterSpec) (dash_df : list (ARow Drill.DashCols)) :
  sublist (Drill.drill_filter spec dash_df) dash_df
  /\ (forall r, In r (Drill.drill_filter spec dash_df)
                <-> In r dash_df /\ Drill.satisfies spec r)
  /\ (forall masks, Permutation masks (Drill.constraints spec) ->
                    Drill.apply_masks masks dash_df = Drill.drill_filter spec dash_df).
Proof.
  rewrite drill_filter_masks. split; [apply select_sublist |]. split.
  - intros r. rewrite select_In, constraints_satisfies. reflexivity.
  - intros masks Hperm. rewrite apply_masks_select.
    apply select_ext. intros r. apply forallb_perm, Hperm.
Qed.

Lemma drill_filter_conjunction_witness :
  Drill.apply_masks
    (rev (Drill.constraints (Drill.mkSpec (Some 2024) (Some 2) "Delhi" "LOW_RISK")))
    dash_two_years
  = Drill.drill_filter (Drill.mkSpec (Some 2024) (Some 2) "Delhi" "LOW_RISK")
      dash_two_years.
Proof.
  apply (proj2 (proj2 (drill_filter_conjunction
                         (Drill.mkSpec (Some 2024) (Some 2) "Delhi" "LOW_RISK")
                         dash_two_years))).
  symmetry. apply Permutation_rev.
Defined.

Example drill_filter_example :
  Drill.drill_filter (Drill.mkSpec (Some 2024) (Some 2) "Delhi" "LOW_RISK")
    dash_two_years
  = [adash 2024 2 3 "Delhi" "LOW_RISK"].
Proof. reflexivity. Qed.

(** Case matters: delhi is not Delhi. *)
Example drill_filter_case_sensitive :
  Drill.drill_filter (Drill.mkSpec (Some 2024) (Some 2) "delhi" "ALL")
    dash_two_years = [].
Proof. reflexivity. Qed.


(** The chain of lines 187-198 on the selections of a run is the filter of
    the drill-down section. *)
Lemma drill_filter_chain (spec : Drill.FilterSpec) (dash_df : list (ARow Drill.DashCols)) :
  Drill.filter_chain (Drill.PNum (Drill.year spec)) (Drill.PNum (Drill.month spec))
    (Drill.city spec) (Drill.risk spec) dash_df
  = Drill.drill_filter spec dash_df.
Proof. reflexivity. Qed.




(** On first load every select box shows its first entry: City and Risk are
    ALL, Year and Month are the first year and month of the table, and the
    table shown is not the table fetched. *)
Example first_load_not_identity :
  Drill.selections (Drill.mkDrillUI 0 0 0 0) dash_two_years
  = Drill.mkSpec (Some 2023) (Some 1) Drill.ALL Drill.ALL
  /\ Drill.drill_filter (Drill.selections (Drill.mkDrillUI 0 0 0 0) dash_two_years)
       dash_two_years
     = [adash 2023 1 15 "Pune" "HIGH_RISK"].
Proof. split; reflexivity. Qed.

End DrillFilter.

Section DrillView.
Import Pandas Frame.
Variable strptime : string -> option Timestamp.

Lemma drill_filter_year_month (spec : Drill.FilterSpec)
    (df : list (ARow Drill.DashCols)) (r : ARow Drill.DashCols) :
  In r (Drill.drill_filter spec df) ->
  YEAR r = Drill.year spec /\ MONTH r = Drill.month spec
  /\ is_Some (YEAR r) /\ is_Some (MONTH r).
Proof.
  intros Hr.
  apply drill_filter_In in Hr
    as (_ & (y & Hy & Hsy) & (m & Hm & Hsm) & _).
  rewrite Hy, Hm, Hsy, Hsm. eauto.
Qed.

(** C10.  Whenever the drill-down section shows a table, the Year and
    Month select boxes list only values of the YEAR and MONTH columns of
    the fetched table (numbers, so no ALL entry), the selected year and
    month are among them, and every row shown carries exactly the selected
    year and the selected month.  The table shown can therefore coincide
    with the table fetched only when all fetched rows share that one year
    and month: there is no selection that lifts the two constraints. *)
Theorem drill_view_single_year_month (ui : Drill.DrillUI)
    (dash_df : list (Row Drill.DashCols)) (view : list (ARow Drill.DashCols)) :
  Drill.drill_section strptime ui dash_df = Ok (Some view) ->
  exists df,
    decompose strptime dash_df = Ok df
    /\ view = Drill.drill_filter (Drill.selections ui df) df
    /\ (forall y, In y (Drill.year_options df) -> In y (map YEAR df))
    /\ (forall m, In m (Drill.month_options df) -> In m (map MONTH df))
    /\ In (Drill.year (Drill.selections ui df)) (map YEAR df)
    /\ In (Drill.month (Drill.selections ui df)) (map MONTH df)
    /\ (forall r, In r view ->
          YEAR r = Drill.year (Drill.selections ui df)
          /\ MONTH r = Drill.month (Drill.selections ui df))
    /\ (view = df ->
        forall r, In r df ->
          YEAR r = Drill.year (Drill.selections ui df)
          /\ MONTH r = Drill.month (Drill.selections ui df)).
Proof.
  unfold Drill.drill_section, with_decomposed.
  destruct dash_df as [|r0 rest] eqn:Hdf; simpl is_empty; [discriminate |].
  destruct (decompose strptime (r0 :: rest)) as [df|e] eqn:Hd; [| discriminate].
  intros [= <-]. exists df.
  assert (Hne : df <> []).
  { apply decompose_length in Hd. destruct df; [discriminate | discriminate]. }
  assert (Hopts : forall col : list num, col <> [] -> forall pick,
            In (mjoin (selectbox (sorted num_lt (unique col)) pick)) col).
  { intros col Hcol pick.
    destruct (selectbox_nonempty (sorted num_lt (unique col)) pick) as (v & Hv).
    - intros Hnil. destruct col as [|c col]; [contradiction |].
      assert (Hin : In c (sorted num_lt (unique (c :: col))))
        by (apply options_In; left; reflexivity).
      rewrite Hnil in Hin. exact Hin.
    - rewrite Hv. simpl. apply options_In. eapply selectbox_In, Hv. }
  assert (Hmap : forall f : ARow Drill.DashCols -> num, map f df <> []).
  { intros f Hnil. apply Hne. destruct df; [reflexivity | discriminate]. }
  split; [reflexivity |]. split; [reflexivity |].
  split; [intros y Hy; exact (proj1 (options_In _ _) Hy) |].
  split; [intros m Hm; exact (proj1 (options_In _ _) Hm) |].
  split; [apply Hopts, Hmap |].
  split; [apply Hopts, Hmap |].
  split.
  - intros r Hr. apply drill_filter_year_month in Hr. tauto.
  - intros Heq r Hr. rewrite <- Heq in Hr.
    apply drill_filter_year_month in Hr. tauto.
Qed.

End DrillView.

Section DrillViewExample.
Import Pandas Frame Sample.

Lemma drill_view_witness :
  exists df,
    decompose iso_date [dash_row "2023-01-15" "Pune" "HIGH_RISK";
                        dash_row "2024-02-03" "Delhi" "LOW_RISK"] = Ok df
    /\ forall r, In r [adash 2024 2 3 "Delhi" "LOW_RISK"] ->
         YEAR r = Drill.year (Drill.selections (Drill.mkDrillUI 1 1 0 0) df)
         /\ MONTH r = Drill.month (Drill.selections (Drill.mkDrillUI 1 1 0 0) df).
Proof.
  destruct (drill_view_single_year_month iso_date (Drill.mkDrillUI 1 1 0 0)
              [dash_row "2023-01-15" "Pune" "HIGH_RISK";
               dash_row "2024-02-03" "Delhi" "LOW_RISK"]
              [adash 2024 2 3 "Delhi" "LOW_RISK"] eq_refl)
    as (df & Hd & _ & _ & _ & _ & _ & Hrows & _).
  exists df. split; [exact Hd | exact Hrows].
Defined.

End DrillViewExample.

(* ===================================================================== *)
(** * run_query and the cache *)
(* ===================================================================== *)

Section CacheFacts.
Import Pandas Frame Warehouse Cache.
Context {P World : Type}.
Variable scan : World -> string -> outcome (list (Row P)) * World.

Lemma cache_read_Some (now : Z) (q : Query) (s : gmap Query (Entry P)) (e : Entry P) :
  cache_read now q s = Some e <-> s !! q = Some e /\ now - fetched_at e < TTL.
Proof.
  unfold cache_read, within_ttl. destruct (s !! q) as [e'|].
  - destruct (Z.ltb_spec (now - fetched_at e') TTL).
    + split; [intros [= <-]; auto | intros [[= <-] _]; reflexivity].
    + split; [discriminate | intros [[= <-] ?]; lia].
  - split; [discriminate | intros [? _]; discriminate].
Qed.

Lemma cache_read_None (now : Z) (q : Query) (s : gmap Query (Entry P)) :
  cache_read now q s = None
  <-> s !! q = None \/ exists e, s !! q = Some e /\ TTL <= now - fetched_at e.
Proof.
  unfold cache_read, within_ttl. destruct (s !! q) as [e'|].
  - destruct (Z.ltb_spec (now - fetched_at e') TTL).
    + split; [discriminate | intros [?|(e & [= <-] & ?)]; [discriminate | lia]].
    + split; [eauto | reflexivity].
  - split; [auto | reflexivity].
Qed.

Lemma alloc_fresh (df : DataFrame P) (h : gmap nat (DataFrame P)) :
  h !! (alloc df h).1 = None
  /\ (alloc df h).2 !! (alloc df h).1 = Some df
  /\ forall l, l <> (alloc df h).1 -> (alloc df h).2 !! l = h !! l.
Proof.
  unfold alloc. simpl. split; [| split].
  - apply not_elem_of_dom, is_fresh.
  - apply lookup_insert_eq.
  - intros l Hl. apply lookup_insert_ne. congruence.
Qed.

(** A hit, spelled out. *)
Lemma run_query_hit (now : Z) (q : Query) (st : State P World) (e : Entry P) :
  cache_read now q (store st) = Some e ->
  run_query scan now q st
  = ((alloc (Fetched (value e)) (heap st)).1,
     mkState (world st) (store st) (alloc (Fetched (value e)) (heap st)).2
       (screen st ++ messages e) (sent st)).
Proof. unfold run_query. intros ->. reflexivity. Qed.

(** A miss, spelled out. *)
Lemma run_query_miss (now : Z) (q : Query) (st : State P World)
    (df : list (Row P)) (msgs : list string) (w' : World) :
  cache_read now q (store st) = None ->
  run_query_body scan q (world st) = (df, msgs, w') ->
  run_query scan now q st
  = ((alloc (Fetched df) (heap st)).1,
     mkState w' (<[q := mkEntry df msgs now]> (store st))
       (alloc (Fetched df) (heap st)).2 (screen st ++ msgs) (sent st ++ [q])).
Proof. unfold run_query. intros -> ->. reflexivity. Qed.

(** Whatever happened, the caller holds a reference to a new frame object
    whose rows are those of the entry now stored under the query, and that
    entry can be reused at the same clock reading. *)
Lemma run_query_returns (now : Z) (q : Query) (st : State P World) :
  exists e,
    cache_read now q (store (run_query scan now q st).2) = Some e
    /\ fetched_rows (run_query scan now q st).2 (run_query scan now q st).1
       = Some (value e)
    /\ heap st !! (run_query scan now q st).1 = None
    /\ forall l, l <> (run_query scan now q st).1 ->
         heap (run_query scan now q st).2 !! l = heap st !! l.
Proof.
  destruct (cache_read now q (store st)) as [e|] eqn:Hread.
  - rewrite (run_query_hit _ _ _ _ Hread). exists e.
    destruct (alloc_fresh (Fetched (value e)) (heap st)) as (Hf & Hl & Ho).
    unfold fetched_rows. cbn [fst snd heap store]. rewrite Hl. auto.
  - destruct (run_query_body scan q (world st)) as [[df msgs] w'] eqn:Hbody.
    rewrite (run_query_miss _ _ _ _ _ _ Hread Hbody).
    exists (mkEntry df msgs now).
    destruct (alloc_fresh (Fetched df) (heap st)) as (Hf & Hl & Ho).
    unfold fetched_rows. cbn [fst snd heap store]. rewrite Hl. split; [| auto].
    apply cache_read_Some. rewrite lookup_insert_eq. simpl.
    split; [reflexivity | unfold TTL; lia].
Qed.

(** C3.  A call that fetches at [t1], a second call less than 60 seconds
    away from it, and a third call 60 seconds or more after [t1]: the first
    two return frames with the same rows and the adapter has been invoked
    once, by the first; the second leaves the store as it was; the third
    invokes the adapter again and stores what it returned under the clock
    reading [t3]. *)
Theorem run_query_ttl (q : Query) (t1 t2 t3 : Z) (st : State P World) :
  cache_read t1 q (store st) = None ->
  Z.abs (t2 - t1) < TTL ->
  TTL <= t3 - t1 ->
  let r1 := run_query scan t1 q st in
  let r2 := run_query scan t2 q r1.2 in
  let r3 := run_query scan t3 q r2.2 in
  (exists df, fetched_rows r1.2 r1.1 = Some df /\ fetched_rows r2.2 r2.1 = Some df)
  /\ sent r1.2 = sent st ++ [q]
  /\ sent r2.2 = sent st ++ [q]
  /\ store r2.2 = store r1.2
  /\ world r2.2 = world r1.2
  /\ sent r3.2 = sent st ++ [q; q]
  /\ exists df' msgs w',
       run_query_body scan q (world r2.2) = (df', msgs, w')
       /\ store r3.2 !! q = Some (mkEntry df' msgs t3)
       /\ fetched_rows r3.2 r3.1 = Some df'.
Proof.
  intros Hmiss Hnear Hlate r1 r2 r3.
  destruct (run_query_body scan q (world st)) as [[df msgs] w1] eqn:Hbody.
  pose proof (run_query_miss _ _ _ _ _ _ Hmiss Hbody) as H1. fold r1 in H1.
  assert (Hhit : cache_read t2 q (store r1.2) = Some (mkEntry df msgs t1)).
  { rewrite H1. simpl. apply cache_read_Some. rewrite lookup_insert_eq. simpl.
    split; [reflexivity | lia]. }
  pose proof (run_query_hit _ _ _ _ Hhit) as H2. fold r2 in H2.
  assert (Hexp : cache_read t3 q (store r2.2) = None).
  { rewrite H2, H1. simpl. apply cache_read_None. right.
    exists (mkEntry df msgs t1). rewrite lookup_insert_eq. simpl. auto. }
  destruct (run_query_body scan q (world r2.2)) as [[df' msgs'] w3] eqn:Hbody3.
  pose proof (run_query_miss _ _ _ _ _ _ Hexp Hbody3) as H3. fold r3 in H3.
  split.
  { exists df. rewrite H2. simpl. unfold fetched_rows. simpl.
    rewrite H1 at 1 2. simpl. unfold alloc. simpl. rewrite !lookup_insert_eq. auto. }
  rewrite H3. simpl. rewrite H2. simpl. rewrite H1. simpl.
  repeat (split; [reflexivity |]).
  split; [rewrite <- app_assoc; reflexivity |].
  exists df', msgs', w3. split; [reflexivity |].
  split; [apply lookup_insert_eq |].
  unfold fetched_rows, alloc. simpl. rewrite lookup_insert_eq. reflexivity.
Qed.

(** Two calls that both fall within the TTL of a stored entry are both
    served from it and the adapter is not invoked at all. *)
Lemma run_query_two_hits (q : Query) (t1 t2 : Z) (st : State P World) (e : Entry P) :
  cache_read t1 q (store st) = Some e ->
  cache_read t2 q (store st) = Some e ->
  fetched_rows (run_query scan t1 q st).2 (run_query scan t1 q st).1 = Some (value e)
  /\ fetched_rows
       (run_query scan t2 q (run_query scan t1 q st).2).2
       (run_query scan t2 q (run_query scan t1 q st).2).1 = Some (value e)
  /\ sent (run_query scan t2 q (run_query scan t1 q st).2).2 = sent st.
Proof.
  intros H1 H2. rewrite (run_query_hit _ _ _ _ H1). simpl.
  rewrite (run_query_hit t2 q _ e) by exact H2. simpl.
  unfold fetched_rows, alloc. simpl. rewrite !lookup_insert_eq. auto.
Qed.

End CacheFacts.

Section AdapterFailure.
Import Pandas Frame Warehouse Cache.
Context {P World : Type}.
Variable scan : World -> string -> outcome (list (Row P)) * World.

(** C4.  [run_query] always hands its caller a frame, whatever the
    warehouse did.  When the statement fails with message [e] on a call that
    has to fetch, the frame is the empty frame, one message naming the
    failure is put on the page, and the empty frame is stored under the
    query with the current clock reading like any other result: a call
    within the TTL gets the empty frame back without the adapter being
    invoked again. *)
Theorem run_query_failure_is_empty_frame
    (now : Z) (q : Query) (st : State P World) :
  (exists df, fetched_rows (run_query scan now q st).2 (run_query scan now q st).1
              = Some df)
  /\ forall e w',
       cache_read now q (store st) = None ->
       session_sql World scan q (world st) = (Raise e, w') ->
       fetched_rows (run_query scan now q st).2 (run_query scan now q st).1
       = Some empty_frame
       /\ screen (run_query scan now q st).2
          = screen st ++ [String.append "Query Failed: " e]
       /\ store (run_query scan now q st).2 !! q
          = Some (mkEntry empty_frame [String.append "Query Failed: " e] now)
       /\ sent (run_query scan now q st).2 = sent st ++ [q]
       /\ forall later, later - now < TTL ->
            fetched_rows
              (run_query scan later q (run_query scan now q st).2).2
              (run_query scan later q (run_query scan now q st).2).1
            = Some empty_frame
            /\ sent (run_query scan later q (run_query scan now q st).2).2
               = sent st ++ [q].
Proof.
  split.
  { destruct (run_query_returns scan now q st) as (e & _ & Hrows & _). eauto. }
  intros e w' Hmiss Hfail.
  assert (Hbody : run_query_body scan q (world st)
                  = (empty_frame, [String.append "Query Failed: " e], w')).
  { unfold run_query_body. rewrite Hfail. reflexivity. }
  rewrite (run_query_miss scan _ _ _ _ _ _ Hmiss Hbody).
  cbn [fst snd heap store screen sent].
  split; [unfold fetched_rows, alloc; simpl; rewrite lookup_insert_eq; reflexivity |].
  split; [reflexivity |].
  split; [apply lookup_insert_eq |].
  split; [reflexivity |].
  intros later Hlater.
  rewrite (run_query_hit scan later q _
             (mkEntry empty_frame [String.append "Query Failed: " e] now)).
  - cbn [fst snd heap sent value].
    split; [unfold fetched_rows, alloc; simpl; rewrite lookup_insert_eq |]; reflexivity.
  - apply cache_read_Some. cbn [store]. rewrite lookup_insert_eq.
    split; [reflexivity | exact Hlater].
Qed.

End AdapterFailure.

Section RowCap.
Import Pandas Frame Warehouse Cache.
Context {World : Type}.
Variable scan : World -> string -> outcome (list (Row Drill.DashCols)) * World.

Lemma apply_limit_length {R} (n : nat) (rows : list R) :
  (length (apply_limit (Some n) rows) <= n)%nat.
Proof. simpl. rewrite length_firstn. lia. Qed.

Lemma run_query_body_capped (q : Query) (w : World) (n : nat) :
  limit q = Some n -> (length (run_query_body scan q w).1.1 <= n)%nat.
Proof.
  intros Hq. unfold run_query_body, session_sql.
  destruct (scan w (from_view q)) as [[rows|e] w']; simpl; [| lia].
  rewrite Hq. apply apply_limit_length.
Qed.

Lemma run_query_capped (now : Z) (q : Query)
    (st : State Drill.DashCols World) :
  capped (store st) -> capped (store (run_query scan now q st).2).
Proof.
  intros Hcap. destruct (cache_read now q (store st)) as [e|] eqn:Hread.
  - rewrite (run_query_hit scan _ _ _ _ Hread). exact Hcap.
  - destruct (run_query_body scan q (world st)) as [[df msgs] w'] eqn:Hbody.
    rewrite (run_query_miss scan _ _ _ _ _ _ Hread Hbody). cbn [snd store].
    intros q' e' n Hq' Hlim.
    destruct (decide (q = q')) as [<-|Hne].
    + rewrite lookup_insert_eq in Hq'. injection Hq' as <-. simpl.
      pose proof (run_query_body_capped q (world st) n Hlim) as Hlen.
      rewrite Hbody in Hlen. exact Hlen.
    + rewrite lookup_insert_ne in Hq' by exact Hne. eapply Hcap; eassumption.
Qed.

Lemma reachable_capped (strptime : string -> option Timestamp)
    (st : State Drill.DashCols World) :
  reachable scan strptime st -> capped (store st).
Proof.
  induction 1 as [w|now q st _ IH|l st st' _ IH Hdec].
  - intros q e n Hq. simpl in Hq. rewrite lookup_empty in Hq. discriminate Hq.
  - apply run_query_capped, IH.
  - unfold decompose_at in Hdec.
    destruct (heap st !! l) as [[rows|rows]|]; [| | discriminate].
    + destruct (decompose strptime rows); [| discriminate].
      injection Hdec as <-. exact IH.
    + destruct (redecompose strptime rows); [| discriminate].
      injection Hdec as <-. exact IH.
Qed.

(** C8.  Frames enter the store only through [run_query], so in every state
    the process can reach each stored frame respects the LIMIT of its
    statement.  The dashboard fetch (lines 155-159) therefore returns at
    most 2000 rows whatever the view holds, on a hit as on a miss; the cut
    is made by the statement, before line 163, so decomposition sees at
    most 2000 rows and the filtered view has at most 2000. *)
Theorem dashboard_fetch_capped (strptime : string -> option Timestamp)
    (now : Z) (st : State Drill.DashCols World) :
  reachable scan strptime st ->
  exists rows,
    fetched_rows (run_query scan now DASHBOARD_QUERY st).2
                 (run_query scan now DASHBOARD_QUERY st).1 = Some rows
    /\ (length rows <= 2000)%nat
    /\ forall df spec,
         decompose strptime rows = Ok df ->
         (length df <= 2000)%nat
         /\ (length (Drill.drill_filter spec df) <= 2000)%nat.
Proof.
  intros Hreach. pose proof (reachable_capped strptime st Hreach) as Hcap.
  destruct (run_query_returns scan now DASHBOARD_QUERY st) as (e & He & Hrows & _).
  exists (value e). split; [exact Hrows |].
  assert (Hlen : (length (value e) <= 2000)%nat).
  { apply cache_read_Some in He as [He _].
    exact (run_query_capped now DASHBOARD_QUERY st Hcap _ _ _ He eq_refl). }
  split; [exact Hlen |].
  intros df spec Hd. apply (decompose_length strptime) in Hd.
  split; [lia |].
  pose proof (drill_filter_sublist spec df) as Hsub.
  apply sublist_length in Hsub. lia.
Qed.

End RowCap.

Section CacheIsolation.
Import Pandas Frame Warehouse Cache.
Context {P World : Type}.
Variable scan : World -> string -> outcome (list (Row P)) * World.
Variable strptime : string -> option Timestamp.

Lemma decompose_at_frame (l : nat) (st st' : State P World) :
  decompose_at strptime l st = Ok st' ->
  store st' = store st /\ world st' = world st /\ sent st' = sent st
  /\ screen st' = screen st
  /\ (forall l', l' <> l -> heap st' !! l' = heap st !! l')
  /\ forall rows, fetched_rows st l = Some rows ->
       exists df, decompose strptime rows = Ok df
                  /\ heap st' !! l = Some (Decomposed df).
Proof.
  unfold decompose_at, fetched_rows.
  destruct (heap st !! l) as [[rows|rows]|] eqn:Hl; [| | discriminate].
  - destruct (decompose strptime rows) as [df|e] eqn:Hd; [| discriminate].
    intros [= <-]. simpl. repeat (split; [reflexivity |]). split.
    + intros l' Hne. apply lookup_insert_ne. congruence.
    + intros rows' [= <-]. exists df. split; [exact Hd | apply lookup_insert_eq].
  - destruct (redecompose strptime rows) as [df|e] eqn:Hd; [| discriminate].
    intros [= <-]. simpl. repeat (split; [reflexivity |]). split.
    + intros l' Hne. apply lookup_insert_ne. congruence.
    + intros rows' Hrows. discriminate.
Qed.

(** C9.  Lines 55-57 write into the frame object [run_query] returned; the
    store holds the pickled rows, not that object.  After a successful
    decomposition the store is what it was, the entry of the query still
    holds the rows as fetched, and a later call served from that entry
    returns a new object with those rows, without YEAR or MONTH, leaving
    the decomposed object alone and the adapter uninvoked. *)
Theorem decomposition_leaves_store
    (now : Z) (q : Query) (st st2 : State P World) :
  decompose_at strptime (run_query scan now q st).1 (run_query scan now q st).2
  = Ok st2 ->
  store st2 = store (run_query scan now q st).2
  /\ exists rows df,
       fetched_rows (run_query scan now q st).2 (run_query scan now q st).1
       = Some rows
       /\ decompose strptime rows = Ok df
       /\ heap st2 !! (run_query scan now q st).1 = Some (Decomposed df)
       /\ (exists e, store st2 !! q = Some e /\ value e = rows)
       /\ forall later e,
            cache_read later q (store st2) = Some e ->
            fetched_rows (run_query scan later q st2).2
                         (run_query scan later q st2).1 = Some rows
            /\ (run_query scan later q st2).1 <> (run_query scan now q st).1
            /\ heap (run_query scan later q st2).2 !! (run_query scan now q st).1
               = Some (Decomposed df)
            /\ store (run_query scan later q st2).2 = store st2
            /\ sent (run_query scan later q st2).2
               = sent (run_query scan now q st).2.
Proof.
  intros Hdec.
  destruct (run_query_returns scan now q st) as (e1 & He1 & Hrows & _ & _).
  destruct (decompose_at_frame _ _ _ Hdec) as (Hstore & _ & Hsent & _ & _ & Hobj).
  destruct (Hobj _ Hrows) as (df & Hd & Hl).
  split; [exact Hstore |].
  exists (value e1), df.
  split; [exact Hrows |]. split; [exact Hd |]. split; [exact Hl |].
  apply cache_read_Some in He1 as [He1 _].
  split; [exists e1; rewrite Hstore; auto |].
  intros later e Hhit.
  assert (e = e1) as ->.
  { apply cache_read_Some in Hhit as [Hhit _]. rewrite Hstore in Hhit. congruence. }
  destruct (run_query_returns scan later q st2) as (e2 & _ & _ & Hnew & Hold).
  assert (Hne : (run_query scan later q st2).1 <> (run_query scan now q st).1).
  { intros Heq. rewrite Heq in Hnew. congruence. }
  rewrite (run_query_hit scan _ _ _ _ Hhit) in *. cbn [fst snd heap store sent] in *.
  split; [unfold fetched_rows, alloc; simpl; rewrite lookup_insert_eq; reflexivity |].
  split; [exact Hne |].
  split; [rewrite Hold by congruence; exact Hl |].
  split; [reflexivity | exact Hsent].
Qed.

End CacheIsolation.

(* ===================================================================== *)
(** * The cache on a concrete warehouse *)
(* ===================================================================== *)

Section CacheExamples.
Import Pandas Frame Warehouse Cache Sample.

Lemma run_query_ttl_witness :
  cache_read 0 TRENDS_QUERY (store (boot two_answers)) = None
  /\ Z.abs (59 - 0) < TTL
  /\ TTL <= 60 - 0
  /\ sent (run_query play 59 TRENDS_QUERY
             (run_query play 0 TRENDS_QUERY (boot two_answers)).2).2
     = sent (boot two_answers) ++ [TRENDS_QUERY].
Proof.
  split; [reflexivity |]. split; [reflexivity |]. split; [discriminate |].
  exact (proj1 (proj2 (proj2
           (run_query_ttl play TRENDS_QUERY 0 59 60 (boot two_answers)
              eq_refl eq_refl ltac:(discriminate))))).
Defined.

(** C3 as worded fails: the 60 seconds run from the fetch, not from the
    previous call.  An entry fetched at 0 serves a call at 50; a call at 70,
    only 20 seconds later, finds it expired and fetches again, and the
    warehouse has changed in between. *)
Lemma calls_straddling_expiry :
  Z.abs (70 - 50) < TTL
  /\ fetched_rows
       (run_query play 50 TRENDS_QUERY
          (run_query play 0 TRENDS_QUERY (boot two_answers)).2).2
       (run_query play 50 TRENDS_QUERY
          (run_query play 0 TRENDS_QUERY (boot two_answers)).2).1
     = Some trends_2024
  /\ fetched_rows
       (run_query play 70 TRENDS_QUERY
          (run_query play 50 TRENDS_QUERY
             (run_query play 0 TRENDS_QUERY (boot two_answers)).2).2).2
       (run_query play 70 TRENDS_QUERY
          (run_query play 50 TRENDS_QUERY
             (run_query play 0 TRENDS_QUERY (boot two_answers)).2).2).1
     = Some [trend_row "2024-01-05" 10]
  /\ trends_2024 <> [trend_row "2024-01-05" 10].
Proof.
  split; [reflexivity |]. split; [vm_compute; reflexivity |].
  split; [vm_compute; reflexivity | discriminate].
Qed.

(** A warehouse whose connection is gone. *)
Lemma run_query_failure_witness :
  fetched_rows
    (run_query play 0 KPI_QUERY (boot (P := Trend.TrendCols) [])).2
    (run_query play 0 KPI_QUERY (boot (P := Trend.TrendCols) [])).1
  = Some empty_frame
  /\ screen (run_query play 0 KPI_QUERY (boot (P := Trend.TrendCols) [])).2
     = ["Query Failed: connection lost"%string].
Proof.
  destruct (proj2 (run_query_failure_is_empty_frame play 0 KPI_QUERY
                     (boot (P := Trend.TrendCols) []))
              "connection lost"%string [] eq_refl eq_refl)
    as (Hframe & Hscreen & _).
  split; [exact Hframe | exact Hscreen].
Defined.

Lemma dashboard_fetch_witness :
  reachable play iso_date (boot big_view)
  /\ exists rows,
       fetched_rows (run_query play 0 DASHBOARD_QUERY (boot big_view)).2
                    (run_query play 0 DASHBOARD_QUERY (boot big_view)).1
       = Some rows
       /\ (length rows <= 2000)%nat.
Proof.
  split; [apply reach_start |].
  destruct (dashboard_fetch_capped play iso_date 0 (boot big_view)
              (reach_start _ _ _ big_view))
    as (rows & Hrows & Hlen & _).
  exists rows. split; [exact Hrows | exact Hlen].
Defined.

Example dashboard_fetch_2000 :
  option_map (@length _)
    (fetched_rows (run_query play 0 DASHBOARD_QUERY (boot big_view)).2
                  (run_query play 0 DASHBOARD_QUERY (boot big_view)).1)
  = Some 2000%nat.
Proof. vm_compute. reflexivity. Qed.

Lemma decomposition_leaves_store_witness :
  exists st2,
    decompose_at iso_date
      (run_query play 0 TRENDS_QUERY (boot two_answers)).1
      (run_query play 0 TRENDS_QUERY (boot two_answers)).2 = Ok st2
    /\ store st2 = store (run_query play 0 TRENDS_QUERY (boot two_answers)).2.
Proof.
  destruct (decompose_at iso_date
              (run_query play 0 TRENDS_QUERY (boot two_answers)).1
              (run_query play 0 TRENDS_QUERY (boot two_answers)).2)
    as [st2|e] eqn:Hdec.
  - exists st2. split; [reflexivity |].
    exact (proj1 (decomposition_leaves_store play iso_date 0 TRENDS_QUERY
                    (boot two_answers) st2 Hdec)).
  - vm_compute in Hdec. discriminate Hdec.
Defined.

End CacheExamples.

(* ===================================================================== *)
(** * Further properties of the trend section *)
(* ===================================================================== *)

Section DecomposedFrames.
Import Pandas Frame Totals.
Variable strptime : string -> option Timestamp.

Lemma decompose_shape {P} (df : list (Row P)) (out : list (ARow P)) :
  decompose strptime df = Ok out ->
  length out = length df
  /\ map base out = map cols df
  /\ Forall2 (fun r a => missing (stamp r) <-> when a = TNull) df out
  /\ List.Forall (fun a => (forall s, when a <> TText s)
                           /\ (YEAR a = None <-> when a = TNull)
                           /\ (MONTH a = None <-> when a = TNull)) out.
Proof.
  intros Hd. pose proof (decompose_cells strptime df out Hd) as Hcells.
  split; [symmetry; eapply Forall2_length, Hcells |].
  split; [| split].
  - clear Hd. induction Hcells as [|r a df out (Hb & _) _ IH]; simpl;
      [reflexivity | congruence].
  - eapply Forall2_impl; [exact Hcells |].
    intros r a (_ & Hmiss & Hreads & Hcase). split; [apply Hmiss |].
    intros Hw. destruct Hcase as [Hm|(t & Ht)]; [exact Hm |].
    destruct (Hreads t Ht) as (Hw' & _). congruence.
  - apply List.Forall_forall. intros a Ha.
    destruct (decomposed_when strptime df out a Hd Ha)
      as [(Hw & Hy & Hm)|(t & Hw & Hy & Hm)]; rewrite Hw, Hy, Hm;
      (split; [discriminate |]); split; split; congruence.
Qed.

(** X1.  Lines 55-57 and 163-165 keep the table's shape: one output row per
    input row, in the same order, with the other columns untouched; the
    timestamp column no longer holds text; a row comes out as NaT exactly
    when its cell had no timestamp (a missing cell, an empty text or a NaT
    spelling); and YEAR and MONTH are missing together, exactly on the NaT
    rows. *)
Theorem decompose_keeps_rows {P} (df : list (Row P)) (out : list (ARow P)) :
  decompose strptime df = Ok out ->
  length out = length df
  /\ map base out = map cols df
  /\ Forall2 (fun r a => missing (stamp r) <-> when a = TNull) df out
  /\ List.Forall (fun a => (forall s, when a <> TText s)
                           /\ (YEAR a = None <-> when a = TNull)
                           /\ (MONTH a = None <-> when a = TNull)) out.
Proof. apply decompose_shape. Qed.

Lemma decomposed_dated {P} (df : list (Row P)) (out : list (ARow P)) (a : ARow P) :
  decompose strptime df = Ok out -> In a out ->
  (is_Some (YEAR a) <-> is_Some (MONTH a)).
Proof.
  intros Hd Ha.
  destruct (decompose_shape df out Hd) as (_ & _ & _ & Hall).
  rewrite List.Forall_forall in Hall. destruct (Hall a Ha) as (_ & Hy & Hm).
  rewrite <- !not_eq_None_Some. rewrite Hy, Hm. reflexivity.
Qed.

End DecomposedFrames.

Section SliceTotals.
Import Pandas Frame Totals.

Lemma exact_add_slices (k v : Z) (acc : list (Z * Z)) :
  slices_total (exact_add k v acc) = slices_total acc + v.
Proof.
  unfold slices_total. induction acc as [|[k' s] acc IH]; simpl; [lia |].
  destruct (k <? k'); simpl; [lia |].
  destruct (k =? k'); simpl; lia.
Qed.

Lemma exact_from_slices {R} (key : R -> num) (metric : R -> Z) (df : list R)
    (acc : list (Z * Z)) :
  slices_total (fold_left (exact_step key metric) df acc)
  = slices_total acc
    + metric_total metric
        (select (fun r => match key r with Some _ => true | None => false end) df).
Proof.
  revert acc; induction df as [|r df IH]; intros acc; simpl.
  - unfold metric_total; simpl; lia.
  - rewrite IH. unfold exact_step. destruct (key r) as [k|]; simpl.
    + rewrite exact_add_slices. unfold metric_total. simpl. lia.
    + reflexivity.
Qed.

Lemma exact_slices {R} (key : R -> num) (metric : R -> Z) (df : list R) :
  slices_total (exact_groupby key metric df)
  = metric_total metric
      (select (fun r => match key r with Some _ => true | None => false end) df).
Proof.
  unfold exact_groupby. rewrite exact_from_slices. unfold slices_total. simpl. lia.
Qed.

Lemma sum_where_total {R} (key : R -> num) (metric : R -> Z) (k : Z) (df : list R) :
  sum_where key metric k df
  = metric_total metric (select (fun r => num_eq (key r) (Some k)) df).
Proof. reflexivity. Qed.

Lemma select_keep_all {A} (p : A -> bool) (df : list A) :
  (forall r, In r df -> p r = true) -> select p df = df.
Proof. apply select_id_iff. Qed.

Lemma wrap64_add_r (a b : Z) : wrap64 (a + wrap64 b) = wrap64 (a + b).
Proof. rewrite (Z.add_comm a), wrap64_add_l, Z.add_comm. reflexivity. Qed.

(** Adding up wrapped slices agrees, modulo 2^64, with adding up the exact
    ones. *)
Lemma wrapped_slices (l : list (Z * Z)) :
  wrap64 (slices_total (map (fun p => (fst p, wrap64 (snd p))) l))
  = wrap64 (slices_total l).
Proof.
  unfold slices_total. induction l as [|[k v] l IH]; simpl; [reflexivity |].
  rewrite wrap64_add_l, <- wrap64_add_r, IH, wrap64_add_r. reflexivity.
Qed.

Lemma in_range_slices (l : list (Z * Z)) :
  (forall k v, In (k, v) l -> - 2 ^ 63 <= v < 2 ^ 63) ->
  map (fun p => (fst p, wrap64 (snd p))) l = l.
Proof.
  induction l as [|[k v] l IH]; simpl; intros Hall; [reflexivity |].
  rewrite (wrap64_small v) by (apply (Hall k); left; reflexivity).
  rewrite IH; [reflexivity |]. intros k' v' Hin. apply (Hall k'). right; exact Hin.
Qed.

Lemma magnitude_nonneg {R} (metric : R -> Z) (df : list R) :
  0 <= magnitude_total metric df.
Proof.
  unfold magnitude_total. induction df as [|r df IH]; simpl; lia.
Qed.

Lemma metric_total_bound {R} (metric : R -> Z) (p : R -> bool) (df : list R) :
  Z.abs (metric_total metric (select p df)) <= magnitude_total metric df.
Proof.
  unfold metric_total, magnitude_total, select.
  induction df as [|r df IH]; simpl; [lia |].
  destruct (p r); simpl; lia.
Qed.

(** The slices of a group-by add up, modulo 2^64, to the metric summed
    over the rows that have a key, and exactly so when the magnitudes of
    the metric stay below 2^63 in total. *)
Lemma groupby_slices {R} (key : R -> num) (metric : R -> Z) (df : list R) :
  wrap64 (slices_total (groupby_sum key metric df))
  = wrap64 (metric_total metric
              (select (fun r => match key r with Some _ => true | None => false end) df))
  /\ (magnitude_total metric df < 2 ^ 63 ->
      slices_total (groupby_sum key metric df)
      = metric_total metric
          (select (fun r => match key r with Some _ => true | None => false end) df)).
Proof.
  rewrite groupby_sum_wraps. split.
  - rewrite wrapped_slices, exact_slices. reflexivity.
  - intros Hbound. rewrite in_range_slices; [apply exact_slices |].
    intros k v Hin.
    apply (proj2 (proj2 (exact_groupby_spec key metric df))) in Hin.
    rewrite Hin, sum_where_total.
    pose proof (metric_total_bound metric (fun r => num_eq (key r) (Some k)) df).
    lia.
Qed.

(** X3.  Lines 84-85 against lines 115-118: the value the monthly pie shows
    for month m of a year is the int64 sum of the metric over the rows the
    daily chart draws for that year and month: that sum modulo 2^64, and
    the sum itself whenever it lies between -2^63 and 2^63 - 1. *)
Theorem monthly_slice_is_daily_total
    (trend_df : list (ARow Trend.TrendCols)) (year : num) (m s : Z) :
  In (m, s) (Trend.monthly_df trend_df year) ->
  s = wrap64 (metric_total Trend.metric (Trend.daily_df trend_df year (Some m)))
  /\ (- 2 ^ 63 <= metric_total Trend.metric (Trend.daily_df trend_df year (Some m))
      < 2 ^ 63 ->
      s = metric_total Trend.metric (Trend.daily_df trend_df year (Some m))).
Proof.
  intros Hin. unfold Trend.monthly_df in Hin.
  apply (proj2 (proj2 (groupby_sum_spec MONTH Trend.metric _))) in Hin.
  rewrite sum_where_total, select_select in Hin.
  split; [exact Hin |].
  intros Hrange. rewrite Hin. apply wrap64_small, Hrange.
Qed.

End SliceTotals.

Section TrendCharts.
Import Pandas Frame Totals.
Variable strptime : string -> option Timestamp.

(** X2.  Lines 64 and 84-85 on a decomposed frame: the slices of the
    monthly pie of a year add up to that year's slice of the yearly pie,
    always modulo 2^64 and exactly when the magnitudes of the metric over
    the rows of that year stay below 2^63 in total, so that no int64 sum
    wraps around. *)
Theorem monthly_slices_add_up_to_year
    (raw : list (Row Trend.TrendCols)) (trend_df : list (ARow Trend.TrendCols)) :
  decompose strptime raw = Ok trend_df ->
  forall y s, In (y, s) (Trend.yearly_df trend_df) ->
    wrap64 (slices_total (Trend.monthly_df trend_df (Some y))) = s
    /\ (magnitude_total Trend.metric
          (select (fun r => num_eq (YEAR r) (Some y)) trend_df) < 2 ^ 63 ->
        slices_total (Trend.monthly_df trend_df (Some y)) = s).
Proof.
  intros Hd y s Hin. unfold Trend.yearly_df in Hin.
  apply (proj2 (proj2 (groupby_sum_spec YEAR Trend.metric _))) in Hin.
  rewrite sum_where_total in Hin.
  assert (Hall : select (fun r => match MONTH r with Some _ => true | None => false end)
                   (select (fun r => num_eq (YEAR r) (Some y)) trend_df)
                 = select (fun r => num_eq (YEAR r) (Some y)) trend_df).
  { apply select_keep_all. intros r Hr.
    apply select_In in Hr as [Hr Hy]. apply num_eq_Some in Hy.
    assert (Hm : is_Some (MONTH r)).
    { apply (decomposed_dated strptime raw trend_df r Hd Hr). rewrite Hy. eauto. }
    destruct Hm as [m ->]. reflexivity. }
  unfold Trend.monthly_df.
  destruct (groupby_slices MONTH Trend.metric
              (select (fun r => num_eq (YEAR r) (Some y)) trend_df)) as (Hmod & Hexact).
  rewrite Hall in Hmod, Hexact. split.
  - rewrite Hmod, Hin. reflexivity.
  - intros Hbound. rewrite (Hexact Hbound), Hin. symmetry. apply wrap64_small.
    pose proof (metric_total_bound Trend.metric (fun _ => true)
                  (select (fun r => num_eq (YEAR r) (Some y)) trend_df)) as Hb.
    rewrite select_all in Hb. lia.
Qed.

(** X4.  Lines 102-118: whenever the Year box of the daily trend holds a
    year, the Month box offers at least one month, the selected month is one
    of the offered ones, and the daily chart has at least one row, all of
    that year and month. *)
Theorem daily_chart_never_empty (ui : Trend.TrendUI)
    (raw : list (Row Trend.TrendCols)) (view : Trend.TrendView) (y : Z) :
  Trend.trend_section strptime ui raw = Ok (Some view) ->
  Trend.v_year_d view = Some y ->
  exists m,
    Trend.v_month_d view = Some m
    /\ In (Some m) (Trend.v_month_options view)
    /\ Trend.v_daily view <> []
    /\ forall r, In r (Trend.v_daily view) -> YEAR r = Some y /\ MONTH r = Some m.
Proof.
  unfold Trend.trend_section, with_decomposed.
  destruct (is_empty raw); [discriminate |].
  destruct (decompose strptime raw) as [df|e] eqn:Hd; [| discriminate].
  intros [= <-]. unfold Trend.charts. cbn [Trend.v_year_d Trend.v_month_d
    Trend.v_month_options Trend.v_daily].
  intros Hyear. rewrite Hyear.
  destruct (selectbox (Trend.year_options df) (Trend.pick_daily_year ui))
    as [o|] eqn:Hsel; [| discriminate]. simpl in Hyear. subst o.
  apply selectbox_In in Hsel. unfold Trend.year_options in Hsel.
  apply options_In, in_map_iff in Hsel as (r0 & Hy0 & Hr0).
  assert (Hm0 : is_Some (MONTH r0)).
  { apply (decomposed_dated strptime raw df r0 Hd Hr0). rewrite Hy0. eauto. }
  assert (Hne : Trend.daily_month_options df (Some y) <> []).
  { intros Hnil.
    assert (Hin : In (MONTH r0) (Trend.daily_month_options df (Some y))).
    { apply daily_month_options_exact. exists r0.
      split; [exact Hr0 |]. split; [apply num_eq_Some, Hy0 | reflexivity]. }
    rewrite Hnil in Hin. exact Hin. }
  destruct (selectbox_nonempty _ (Trend.pick_daily_month ui) Hne) as (o & Ho).
  rewrite Ho. simpl.
  pose proof (selectbox_In _ _ _ Ho) as Hin.
  pose proof Hin as Hin'.
  apply daily_month_options_exact in Hin' as (r1 & Hr1 & Hy1 & Hm1).
  apply num_eq_Some in Hy1.
  assert (Hsome : is_Some (MONTH r1)).
  { apply (decomposed_dated strptime raw df r1 Hd Hr1). rewrite Hy1. eauto. }
  destruct Hsome as [m Hm]. rewrite Hm in Hm1. subst o.
  exists m. split; [reflexivity |]. split; [exact Hin |]. split.
  - intros Hnil.
    assert (Hr : In r1 (Trend.daily_df df (Some y) (Some m))).
    { unfold Trend.daily_df. apply select_In. split; [exact Hr1 |].
      apply andb_true_iff. split; apply num_eq_Some; assumption. }
    rewrite Hnil in Hr. exact Hr.
  - intros r Hr. unfold Trend.daily_df in Hr.
    apply select_In in Hr as [_ Hr]. apply andb_true_iff in Hr as [H1 H2].
    split; apply num_eq_Some; assumption.
Qed.

End TrendCharts.

Section YearOptions.
Import Pandas Frame.

Lemma num_lt_trans (a b c : num) :
  num_lt a b = true -> num_lt b c = true -> num_lt a c = true.
Proof.
  destruct a, b, c; simpl; try discriminate.
  rewrite !Z.ltb_lt. lia.
Qed.

Lemma ordered_strict (l : list num) :
  NoDup l -> List.Forall is_Some l ->
  Sorted (fun a b => num_lt b a = false) l ->
  StronglySorted (fun a b => num_lt a b = true) l.
Proof.
  intros Hnd Hsome Hs. apply Sorted_StronglySorted.
  { intros a b c. apply num_lt_trans. }
  induction Hs as [|a l Hs IH Hhd]; [constructor |].
  apply NoDup_cons in Hnd as [Hnotin Hnd].
  apply List.Forall_cons_iff in Hsome as [[x ->] Hsome].
  constructor; [apply IH; assumption |].
  destruct Hhd as [|b l Hba]; constructor.
  apply List.Forall_cons_iff in Hsome as [[z ->] _].
  simpl in *. apply Z.ltb_ge in Hba. apply Z.ltb_lt.
  assert (x <> z); [| lia].
  intros ->. apply Hnotin. left.
Qed.

Lemma options_ascending (col : list num) :
  List.Forall is_Some col ->
  StronglySorted (fun a b => num_lt a b = true) (sorted num_lt (unique col)).
Proof.
  intros Hsome. apply ordered_strict.
  - apply options_NoDup.
  - apply List.Forall_forall. intros x Hx.
    rewrite List.Forall_forall in Hsome.
    apply Hsome, (proj1 (options_In col x) Hx).
  - apply sorted_ordered.
Qed.

(** X5.  Lines 80, 104 and 170: a Year select box lists exactly the YEAR
    values of its table, each once; on a table without missing timestamps
    the years are listed in strictly ascending order. *)
Theorem year_options_ascending
    (trend_df : list (ARow Trend.TrendCols)) (dash_df : list (ARow Drill.DashCols)) :
  (NoDup (Trend.year_options trend_df)
   /\ (forall y, In y (Trend.year_options trend_df) <-> In y (map YEAR trend_df))
   /\ (List.Forall is_Some (map YEAR trend_df) ->
       StronglySorted (fun a b => num_lt a b = true) (Trend.year_options trend_df)))
  /\ (NoDup (Drill.year_options dash_df)
      /\ (forall y, In y (Drill.year_options dash_df) <-> In y (map YEAR dash_df))
      /\ (List.Forall is_Some (map YEAR dash_df) ->
          StronglySorted (fun a b => num_lt a b = true) (Drill.year_options dash_df))).
Proof.
  unfold Trend.year_options, Drill.year_options.
  split; (split; [apply options_NoDup |]; split;
          [intros y; apply options_In | apply options_ascending]).
Qed.

End YearOptions.

(* ===================================================================== *)
(** * Further properties of the drill-down section *)
(* ===================================================================== *)

Section DrillSelections.
Import Pandas Frame.

Lemma select_weaker {A} (p q : A -> bool) (df : list A) :
  (forall r, p r = true -> q r = true) -> sublist (select p df) (select q df).
Proof.
  intros Himp. unfold select. induction df as [|r df IH]; simpl; [constructor |].
  destruct (p r) eqn:Hp.
  - rewrite (Himp r Hp). apply sublist_skip, IH.
  - destruct (q r); [apply sublist_cons |]; exact IH.
Qed.

Lemma city_options_shape (dash_df : list (ARow Drill.DashCols)) :
  head (Drill.city_options dash_df) = Some Drill.ALL
  /\ NoDup (tail (Drill.city_options dash_df))
  /\ forall c, In c (Drill.city_options dash_df)
               <-> c = Drill.ALL
                   \/ exists r, In r dash_df /\ Drill.location r = Some c.
Proof.
  unfold Drill.city_options. simpl.
  split; [reflexivity |].
  split; [rewrite sorted_perm; apply unique_NoDup |].
  intros c. rewrite sorted_In, unique_In, dropna_In, in_map_iff. split.
  - intros [<-|(r & Hl & Hr)]; [left; reflexivity | right; eauto].
  - intros [->|(r & Hr & Hl)]; [left; reflexivity | right; eauto].
Qed.

(** X6.  Lines 176-179: the City box starts with ALL, then lists each
    non-missing LOCATION of the table exactly once; a city is offered
    exactly when it is ALL or the location of some row. *)
Theorem city_options_exact (dash_df : list (ARow Drill.DashCols)) :
  head (Drill.city_options dash_df) = Some Drill.ALL
  /\ NoDup (tail (Drill.city_options dash_df))
  /\ forall c, In c (Drill.city_options dash_df)
               <-> c = Drill.ALL
                   \/ exists r, In r dash_df /\ Drill.location r = Some c.
Proof. apply city_options_shape. Qed.

(** X7.  Lines 176-198: the selected city and risk level are always among
    the offered ones.  Under a selected risk level the rows shown all carry
    that level, which is one of HIGH_RISK, MEDIUM_RISK and LOW_RISK: a row
    whose level is missing or has another name is shown only under ALL.
    Under a selected city the rows shown all have that location, so a row
    without location is shown only under ALL. *)
Theorem selected_city_and_risk_only
    (ui : Drill.DrillUI) (dash_df : list (ARow Drill.DashCols)) :
  In (Drill.city (Drill.selections ui dash_df)) (Drill.city_options dash_df)
  /\ In (Drill.risk (Drill.selections ui dash_df)) Drill.risk_options
  /\ (Drill.risk (Drill.selections ui dash_df) <> Drill.ALL ->
      In (Drill.risk (Drill.selections ui dash_df))
         ["HIGH_RISK"; "MEDIUM_RISK"; "LOW_RISK"]%string
      /\ forall r, In r (Drill.drill_filter (Drill.selections ui dash_df) dash_df) ->
           Drill.risk_level r = Some (Drill.risk (Drill.selections ui dash_df)))
  /\ (Drill.city (Drill.selections ui dash_df) <> Drill.ALL ->
      (exists r, In r dash_df
                 /\ Drill.location r = Some (Drill.city (Drill.selections ui dash_df)))
      /\ forall r, In r (Drill.drill_filter (Drill.selections ui dash_df) dash_df) ->
           Drill.location r = Some (Drill.city (Drill.selections ui dash_df))).
Proof.
  assert (Hcity : In (Drill.city (Drill.selections ui dash_df))
                     (Drill.city_options dash_df)).
  { cbn [Drill.selections Drill.city].
    destruct (selectbox_nonempty (Drill.city_options dash_df)
                (Drill.pick_city ui)) as (c & Hc); [discriminate |].
    rewrite Hc. cbn [default]. eapply selectbox_In, Hc. }
  assert (Hrisk : In (Drill.risk (Drill.selections ui dash_df)) Drill.risk_options).
  { cbn [Drill.selections Drill.risk].
    destruct (selectbox_nonempty Drill.risk_options (Drill.pick_risk ui))
      as (k & Hk); [discriminate |].
    rewrite Hk. cbn [default]. eapply selectbox_In, Hk. }
  split; [exact Hcity |]. split; [exact Hrisk |]. split.
  - intros Hne. split.
    + destruct Hrisk as [Heq|Hrest]; [congruence | exact Hrest].
    + intros r Hr.
      apply drill_filter_In in Hr as (_ & _ & _ & _ & Hk). apply Hk, Hne.
  - intros Hne. split.
    + apply city_options_shape in Hcity as [Heq|Hex]; [contradiction | exact Hex].
    + intros r Hr.
      apply drill_filter_In in Hr as (_ & _ & _ & Hc & _). apply Hc, Hne.
Qed.

End DrillSelections.

Section DrillNarrowing.
Import Pandas Frame.

(** X8.  Lines 187-198: choosing a city or a risk level only takes rows
    away from what ALL and ALL show for the same year and month, keeping
    their order; and filtering an already filtered table by the same
    selections changes nothing. *)
Theorem drill_filter_narrows
    (spec : Drill.FilterSpec) (dash_df : list (ARow Drill.DashCols)) :
  sublist (Drill.drill_filter spec dash_df)
    (Drill.drill_filter
       (Drill.mkSpec (Drill.year spec) (Drill.month spec) Drill.ALL Drill.ALL)
       dash_df)
  /\ Drill.drill_filter spec (Drill.drill_filter spec dash_df)
     = Drill.drill_filter spec dash_df.
Proof.
  rewrite !drill_filter_masks. split.
  - apply select_weaker. intros r. simpl.
    rewrite !andb_true_iff. tauto.
  - rewrite select_select. apply select_ext. intros r.
    destruct (forallb (fun m => m r) (Drill.constraints spec)); reflexivity.
Qed.

End DrillNarrowing.

(* ===================================================================== *)
(** * KPI tiles *)
(* ===================================================================== *)

Section KpiTiles.
Import Pandas Frame.
Context {A : Type}.
Variable format_amount : A -> outcome string.

Lemma to_int_ok (x : num) (z : Z) : Kpi.to_int x = Ok z <-> x = Some z.
Proof. destruct x; simpl; split; congruence. Qed.

Lemma to_int_raise (x : num) : (exists e, Kpi.to_int x = Raise e) <-> x = None.
Proof.
  destruct x; simpl; split; try discriminate; eauto.
  intros (e & He). discriminate.
Qed.

Lemma tiles_ok (k : Kpi.KpiCols A) (t : Kpi.KpiTiles) :
  Kpi.tiles format_amount k = Ok t
  <-> Kpi.TOTAL_TXNS k = Some (Kpi.total_transactions t)
      /\ format_amount (Kpi.TOTAL_AMOUNT k) = Ok (Kpi.total_amount t)
      /\ Kpi.HIGH_RISK_TXNS k = Some (Kpi.high_risk t)
      /\ Kpi.MEDIUM_RISK_TXNS k = Some (Kpi.medium_risk t)
      /\ Kpi.LOW_RISK_TXNS k = Some (Kpi.low_risk t).
Proof.
  destruct k as [total amount high medium low], t as [t1 t2 t3 t4 t5].
  unfold Kpi.tiles. simpl.
  destruct total as [total|]; simpl;
    [| split; [discriminate | intros (H & _); discriminate]].
  destruct (format_amount amount) as [text|err]; simpl;
    [| split; [discriminate | intros (_ & H & _); discriminate]].
  destruct high as [high|]; simpl;
    [| split; [discriminate | intros (_ & _ & H & _); discriminate]].
  destruct medium as [medium|]; simpl;
    [| split; [discriminate | intros (_ & _ & _ & H & _); discriminate]].
  destruct low as [low|]; simpl;
    [| split; [discriminate | intros (_ & _ & _ & _ & H); discriminate]].
  split.
  - intros [= -> -> -> -> ->]. auto.
  - intros (H1 & H2 & H3 & H4 & H5). congruence.
Qed.

Lemma tiles_raise (k : Kpi.KpiCols A) :
  (exists e, Kpi.tiles format_amount k = Raise e)
  <-> Kpi.TOTAL_TXNS k = None
      \/ (exists e, format_amount (Kpi.TOTAL_AMOUNT k) = Raise e)
      \/ Kpi.HIGH_RISK_TXNS k = None
      \/ Kpi.MEDIUM_RISK_TXNS k = None
      \/ Kpi.LOW_RISK_TXNS k = None.
Proof.
  destruct k as [total amount high medium low].
  unfold Kpi.tiles. simpl.
  destruct total as [total|]; simpl; [| split; eauto].
  destruct (format_amount amount) as [text|err]; simpl; [| split; eauto 6].
  destruct high as [high|]; simpl; [| split; eauto 6].
  destruct medium as [medium|]; simpl; [| split; eauto 6].
  destruct low as [low|]; simpl; [| split; eauto 6].
  split.
  - intros (e & He). discriminate.
  - intros [H|[(e & H)|[H|[H|H]]]]; discriminate.
Qed.

Lemma draw_each_prefix (calls : list (outcome Kpi.tile)) :
  exists later,
    calls = map Ok (Kpi.draw_each calls).1
            ++ match (Kpi.draw_each calls).2 with
               | Some e => Raise e :: later
               | None => []
               end.
Proof.
  induction calls as [|[t|e] calls (later & IH)].
  - exists []. reflexivity.
  - exists later. simpl. destruct (Kpi.draw_each calls) as [drawn stop].
    simpl in *. f_equal. exact IH.
  - exists calls. reflexivity.
Qed.

Lemma drawn_tiles (k : Kpi.KpiCols A) :
  (forall t, Kpi.tiles format_amount k = Ok t
     <-> Kpi.draw_each (Kpi.tile_calls format_amount k)
         = ([Kpi.IntTile "Total Transactions" (Kpi.total_transactions t);
             Kpi.TextTile "Total Amount" (Kpi.total_amount t);
             Kpi.IntTile "High Risk" (Kpi.high_risk t);
             Kpi.IntTile "Medium Risk" (Kpi.medium_risk t);
             Kpi.IntTile "Low Risk" (Kpi.low_risk t)], None))
  /\ (forall e, Kpi.tiles format_amount k = Raise e
        <-> (Kpi.draw_each (Kpi.tile_calls format_amount k)).2 = Some e).
Proof.
  destruct k as [total amount high medium low].
  unfold Kpi.tiles, Kpi.tile_calls. simpl.
  destruct total as [total|]; simpl;
    [| split; [intros []|intros e]; simpl; split; congruence].
  destruct (format_amount amount) as [text|err]; simpl;
    [| split; [intros []|intros e]; simpl; split; congruence].
  destruct high as [high|]; simpl;
    [| split; [intros []|intros e]; simpl; split; congruence].
  destruct medium as [medium|]; simpl;
    [| split; [intros []|intros e]; simpl; split; congruence].
  destruct low as [low|]; simpl;
    [| split; [intros []|intros e]; simpl; split; congruence].
  split; [intros []|intros e]; simpl; split; congruence.
Qed.

(** X9.  Lines 34-41: the tiles are read from the first row of the KPI
    frame alone and drawn one after the other, in the order Total
    Transactions, Total Amount, High Risk, Medium Risk, Low Risk.  Each
    shows the value the row holds in its column.  The first count that is
    missing, or the amount if it cannot be rendered, stops the section with
    an exception: the tiles before it are on the page, that tile and the
    later ones are not.  All five are drawn exactly when the row has its
    four counts and its amount can be rendered. *)
Theorem kpi_tiles_from_first_row (first : Kpi.KpiCols A) (rest : list (Kpi.KpiCols A)) :
  Kpi.drawn format_amount (first :: rest) = Kpi.drawn format_amount [first]
  /\ (exists later,
        Kpi.tile_calls format_amount first
        = map Ok (Kpi.drawn format_amount (first :: rest)).1
          ++ match (Kpi.drawn format_amount (first :: rest)).2 with
             | Some e => Raise e :: later
             | None => []
             end)
  /\ (forall t,
        Kpi.drawn format_amount (first :: rest)
        = ([Kpi.IntTile "Total Transactions" (Kpi.total_transactions t);
            Kpi.TextTile "Total Amount" (Kpi.total_amount t);
            Kpi.IntTile "High Risk" (Kpi.high_risk t);
            Kpi.IntTile "Medium Risk" (Kpi.medium_risk t);
            Kpi.IntTile "Low Risk" (Kpi.low_risk t)], None)
        <-> Kpi.TOTAL_TXNS first = Some (Kpi.total_transactions t)
            /\ format_amount (Kpi.TOTAL_AMOUNT first) = Ok (Kpi.total_amount t)
            /\ Kpi.HIGH_RISK_TXNS first = Some (Kpi.high_risk t)
            /\ Kpi.MEDIUM_RISK_TXNS first = Some (Kpi.medium_risk t)
            /\ Kpi.LOW_RISK_TXNS first = Some (Kpi.low_risk t))
  /\ ((exists e, (Kpi.drawn format_amount (first :: rest)).2 = Some e)
      <-> Kpi.TOTAL_TXNS first = None
          \/ (exists e, format_amount (Kpi.TOTAL_AMOUNT first) = Raise e)
          \/ Kpi.HIGH_RISK_TXNS first = None
          \/ Kpi.MEDIUM_RISK_TXNS first = None
          \/ Kpi.LOW_RISK_TXNS first = None)
  /\ (forall e, Kpi.kpi_section format_amount (first :: rest) = Raise e
                <-> (Kpi.drawn format_amount (first :: rest)).2 = Some e).
Proof.
  destruct (drawn_tiles first) as [Hok Hraise].
  split; [reflexivity |]. simpl.
  split; [apply draw_each_prefix |]. split; [| split].
  - intros t. rewrite <- Hok. apply tiles_ok.
  - rewrite <- tiles_raise. split; intros (e & He); exists e; apply Hraise, He.
  - intros e. rewrite <- Hraise.
    destruct (Kpi.tiles format_amount first); split; congruence.
Qed.

End KpiTiles.

(* ===================================================================== *)
(** * Further properties of the cache *)
(* ===================================================================== *)

Section CacheFrame.
Import Pandas Frame Warehouse Cache App.
Context {P World : Type}.
Variable scan : World -> string -> outcome (list (Row P)) * World.
Variable strptime : string -> option Timestamp.

Lemma run_query_others (now : Z) (q q' : Query) (st : State P World) :
  q' <> q -> store (run_query scan now q st).2 !! q' = store st !! q'.
Proof.
  intros Hne. destruct (cache_read now q (store st)) as [e|] eqn:Hread.
  - rewrite (run_query_hit scan _ _ _ _ Hread). reflexivity.
  - destruct (run_query_body scan q (world st)) as [[df msgs] w'] eqn:Hbody.
    rewrite (run_query_miss scan _ _ _ _ _ _ Hread Hbody). cbn [snd store].
    apply lookup_insert_ne. congruence.
Qed.

Lemma run_query_hit_backend (now : Z) (q : Query) (st : State P World) (e : Entry P) :
  cache_read now q (store st) = Some e ->
  store (run_query scan now q st).2 = store st
  /\ world (run_query scan now q st).2 = world st
  /\ sent (run_query scan now q st).2 = sent st
  /\ screen (run_query scan now q st).2 = screen st ++ messages e.
Proof. intros Hread. rewrite (run_query_hit scan _ _ _ _ Hread). auto. Qed.

Lemma run_query_body_entry (q : Query) (w : World) :
  (run_query_body scan q w).1.2 = []
  \/ (run_query_body scan q w).1.1 = []
     /\ exists err, (run_query_body scan q w).1.2 = [String.append "Query Failed: " err].
Proof.
  unfold run_query_body. destruct (session_sql World scan q w) as [[df|e] w']; simpl.
  - left. reflexivity.
  - right. split; [reflexivity | eauto].
Qed.

(** X11.  In every state the process can reach, each stored entry is one
    [run_query] wrote after sending its statement: the statement is among
    those sent, and the entry either carries no message or carries the
    empty frame together with exactly one message, which starts with
    Query Failed. *)
Theorem stored_entries_well_formed (st : State P World) :
  reachable scan strptime st ->
  forall q e, store st !! q = Some e -> entry_ok e /\ In q (sent st).
Proof.
  induction 1 as [w|now q0 st _ IH|l st st' _ IH Hdec]; intros q e Hq.
  - simpl in Hq. rewrite lookup_empty in Hq. discriminate Hq.
  - destruct (cache_read now q0 (store st)) as [e0|] eqn:Hread.
    + rewrite (run_query_hit scan _ _ _ _ Hread) in *. exact (IH q e Hq).
    + destruct (run_query_body scan q0 (world st)) as [[df msgs] w'] eqn:Hbody.
      rewrite (run_query_miss scan _ _ _ _ _ _ Hread Hbody) in *.
      cbn [snd store sent] in *.
      destruct (decide (q0 = q)) as [->|Hne].
      * rewrite lookup_insert_eq in Hq. injection Hq as <-.
        split; [| apply in_or_app; right; left; reflexivity].
        pose proof (run_query_body_entry q (world st)) as Hentry.
        rewrite Hbody in Hentry. exact Hentry.
      * rewrite lookup_insert_ne in Hq by exact Hne.
        destruct (IH q e Hq) as [Hok Hin].
        split; [exact Hok | apply in_or_app; left; exact Hin].
  - destruct (decompose_at_frame strptime _ _ _ Hdec) as (Hstore & _ & Hsent & _).
    rewrite Hstore in Hq. rewrite Hsent. exact (IH q e Hq).
Qed.

End CacheFrame.

(* ===================================================================== *)
(** * The script as a whole *)
(* ===================================================================== *)

Section ScriptFacts.
Import Pandas Frame Warehouse Cache App.
Context {P A World : Type}.
Variable scan : World -> string -> outcome (list (Row P)) * World.
Variable strptime : string -> option Timestamp.
Variable format_amount : A -> outcome string.
Variable kpi_of : P -> Kpi.KpiCols A.
Variable trend_of : P -> Trend.TrendCols.
Variable dash_of : P -> Drill.DashCols.

Lemma run_query_frame_at (now : Z) (q : Query) (st : State P World) :
  frame_at (run_query scan now q st).1 (run_query scan now q st).2
  = Ok (stored (store (run_query scan now q st).2) q).
Proof.
  destruct (run_query_returns scan now q st) as (e & He & Hrows & _).
  apply cache_read_Some in He as [He _].
  unfold frame_at, stored. rewrite Hrows, He. reflexivity.
Qed.

Lemma run_query_stored_others (now : Z) (q q' : Query) (st : State P World) :
  q' <> q ->
  stored (store (run_query scan now q st).2) q' = stored (store st) q'.
Proof. intros Hne. unfold stored. rewrite run_query_others by exact Hne. reflexivity. Qed.

Lemma decompose_row_map {Q R} (f : Q -> R) (rows : list (Row Q)) :
  decompose strptime (map (row_map f) rows)
  = match decompose strptime rows with
    | Ok df => Ok (map (arow_map f) df)
    | Raise e => Raise e
    end.
Proof.
  unfold decompose. rewrite map_map. simpl.
  destruct (to_datetime strptime (map stamp rows)) as [parsed|e]; [| reflexivity].
  f_equal. revert parsed. induction rows as [|r rows IH]; intros parsed; simpl.
  - reflexivity.
  - destruct parsed as [|c parsed]; simpl; [reflexivity |].
    rewrite IH. reflexivity.
Qed.

Lemma with_decomposed_row_map {Q R V} (f : Q -> R) (body : list (ARow R) -> V)
    (rows : list (Row Q)) :
  with_decomposed strptime (fun df => body (map (arow_map f) df)) rows
  = with_decomposed strptime body (map (row_map f) rows).
Proof.
  unfold with_decomposed. rewrite decompose_row_map.
  destruct rows; simpl; [reflexivity |].
  destruct (decompose strptime (r :: rows)); reflexivity.
Qed.

(** The in-place section agrees with the section run on a copy of the rows,
    and touches nothing but the object. *)
Lemma decomposed_block_pure {V} (body : list (ARow P) -> V) (l : nat)
    (st : State P World) (rows : list (Row P)) :
  frame_at l st = Ok rows ->
  (decomposed_block strptime body l st).1 = with_decomposed strptime body rows
  /\ store (decomposed_block strptime body l st).2 = store st
  /\ world (decomposed_block strptime body l st).2 = world st
  /\ sent (decomposed_block strptime body l st).2 = sent st
  /\ screen (decomposed_block strptime body l st).2 = screen st.
Proof.
  intros Hframe. unfold decomposed_block, with_decomposed. rewrite Hframe.
  destruct (is_empty rows); [auto |].
  assert (Hl : heap st !! l = Some (Fetched rows)).
  { unfold frame_at, fetched_rows in Hframe.
    destruct (heap st !! l) as [[rows'|rows']|]; try discriminate.
    injection Hframe as <-. reflexivity. }
  unfold decompose_at. rewrite Hl.
  destruct (decompose strptime rows) as [df|e]; [| auto].
  cbn [heap]. rewrite lookup_insert_eq. auto.
Qed.

Lemma queries_distinct :
  KPI_QUERY <> TRENDS_QUERY /\ KPI_QUERY <> LOCATION_QUERY
  /\ KPI_QUERY <> DASHBOARD_QUERY /\ TRENDS_QUERY <> LOCATION_QUERY
  /\ TRENDS_QUERY <> DASHBOARD_QUERY /\ LOCATION_QUERY <> DASHBOARD_QUERY.
Proof. repeat split; discriminate. Qed.

End ScriptFacts.

Section ScriptRun.
Import Pandas Frame Warehouse Cache App.
Context {P A World : Type}.
Variable scan : World -> string -> outcome (list (Row P)) * World.
Variable strptime : string -> option Timestamp.
Variable format_amount : A -> outcome string.
Variable kpi_of : P -> Kpi.KpiCols A.
Variable trend_of : P -> Trend.TrendCols.
Variable dash_of : P -> Drill.DashCols.

Lemma app_page_of_store (clock : Clock) (ui : UI) (st : State P World) :
  (app scan strptime format_amount kpi_of trend_of dash_of clock ui st).1
  = page_of_store strptime format_amount kpi_of trend_of dash_of ui
      (store (app scan strptime format_amount kpi_of trend_of dash_of clock ui st).2).
Proof.
  destruct queries_distinct as (N12 & N13 & N14 & N23 & N24 & N34).
  unfold app, page_of_store.
  pose proof (run_query_frame_at scan (at_kpi clock) KPI_QUERY st) as F1.
  destruct (run_query scan (at_kpi clock) KPI_QUERY st) as [l1 st1].
  cbn [fst snd] in F1. unfold kpi_block. rewrite F1.
  destruct (Kpi.kpi_section format_amount
              (map (fun r => kpi_of (cols r)) (stored (store st1) KPI_QUERY)))
    as [kpi|e] eqn:K1; [| cbn [fst snd]; rewrite K1; reflexivity].
  pose proof (run_query_frame_at scan (at_trends clock) TRENDS_QUERY st1) as F2.
  pose proof (run_query_stored_others scan (at_trends clock) TRENDS_QUERY
                KPI_QUERY st1 N12) as O21.
  destruct (run_query scan (at_trends clock) TRENDS_QUERY st1) as [l2 st2].
  cbn [fst snd] in F2, O21. unfold trend_block.
  destruct (decomposed_block_pure strptime
              (fun df => Trend.charts (trend_ui ui) (map (arow_map trend_of) df))
              l2 st2 _ F2) as (B2 & S2 & _).
  destruct (decomposed_block strptime
              (fun df => Trend.charts (trend_ui ui) (map (arow_map trend_of) df))
              l2 st2) as [out2 st2'].
  cbn [fst snd] in B2, S2. subst out2.
  rewrite with_decomposed_row_map.
  fold (Trend.trend_section strptime (trend_ui ui)
          (map (row_map trend_of) (stored (store st2) TRENDS_QUERY))).
  destruct (Trend.trend_section strptime (trend_ui ui)
              (map (row_map trend_of) (stored (store st2) TRENDS_QUERY)))
    as [trends|e] eqn:K2.
  2: { cbn [fst snd]. rewrite S2, O21, K1, K2. reflexivity. }
  pose proof (run_query_stored_others scan (at_location clock) LOCATION_QUERY
                KPI_QUERY st2' N13) as O31.
  pose proof (run_query_stored_others scan (at_location clock) LOCATION_QUERY
                TRENDS_QUERY st2' N23) as O32.
  pose proof (run_query_frame_at scan (at_location clock) LOCATION_QUERY st2') as F3.
  destruct (run_query scan (at_location clock) LOCATION_QUERY st2') as [l3 st3].
  cbn [fst snd] in F3, O31, O32.
  pose proof (run_query_stored_others scan (at_dashboard clock) DASHBOARD_QUERY
                KPI_QUERY st3 N14) as O41.
  pose proof (run_query_stored_others scan (at_dashboard clock) DASHBOARD_QUERY
                TRENDS_QUERY st3 N24) as O42.
  pose proof (run_query_stored_others scan (at_dashboard clock) DASHBOARD_QUERY
                LOCATION_QUERY st3 N34) as O43.
  pose proof (run_query_frame_at scan (at_dashboard clock) DASHBOARD_QUERY st3) as F4.
  destruct (run_query scan (at_dashboard clock) DASHBOARD_QUERY st3) as [l4 st4].
  cbn [fst snd] in F4, O41, O42, O43. unfold drill_block.
  destruct (decomposed_block_pure strptime
              (fun df => Drill.drill_filter
                           (Drill.selections (drill_ui ui) (map (arow_map dash_of) df))
                           (map (arow_map dash_of) df))
              l4 st4 _ F4) as (B4 & S4 & _).
  destruct (decomposed_block strptime
              (fun df => Drill.drill_filter
                           (Drill.selections (drill_ui ui) (map (arow_map dash_of) df))
                           (map (arow_map dash_of) df))
              l4 st4) as [out4 st4'].
  cbn [fst snd] in B4, S4. subst out4.
  rewrite (with_decomposed_row_map strptime dash_of
             (fun df => Drill.drill_filter (Drill.selections (drill_ui ui) df) df)).
  fold (Drill.drill_section strptime (drill_ui ui)
          (map (row_map dash_of) (stored (store st4) DASHBOARD_QUERY))).
  assert (E1 : stored (store st4') KPI_QUERY = stored (store st1) KPI_QUERY)
    by (rewrite S4, O41, O31, S2, O21; reflexivity).
  assert (E2 : stored (store st4') TRENDS_QUERY = stored (store st2) TRENDS_QUERY)
    by (rewrite S4, O42, O32, S2; reflexivity).
  assert (E3 : stored (store st4') LOCATION_QUERY = stored (store st3) LOCATION_QUERY)
    by (rewrite S4, O43; reflexivity).
  assert (E4 : stored (store st4') DASHBOARD_QUERY = stored (store st4) DASHBOARD_QUERY)
    by (rewrite S4; reflexivity).
  destruct (Drill.drill_section strptime (drill_ui ui)
              (map (row_map dash_of) (stored (store st4) DASHBOARD_QUERY)))
    as [drill|e] eqn:K4; cbn [fst snd]; rewrite E1, E2, E4, K1, K2, K4.
  - rewrite E3. unfold location_block. rewrite F3. reflexivity.
  - reflexivity.
Qed.

End ScriptRun.

Section ScriptBackend.
Import Pandas Frame Warehouse Cache App.
Context {P A World : Type}.
Variable scan : World -> string -> outcome (list (Row P)) * World.
Variable strptime : string -> option Timestamp.
Variable format_amount : A -> outcome string.
Variable kpi_of : P -> Kpi.KpiCols A.
Variable trend_of : P -> Trend.TrendCols.
Variable dash_of : P -> Drill.DashCols.

(** A section run on the object a call just returned leaves store,
    warehouse, statements sent and messages as the call left them. *)
Lemma block_after_query {V} (body : list (ARow P) -> V)
    (now : Z) (q : Query) (st : State P World) :
  store (decomposed_block strptime body
           (run_query scan now q st).1 (run_query scan now q st).2).2
  = store (run_query scan now q st).2
  /\ world (decomposed_block strptime body
              (run_query scan now q st).1 (run_query scan now q st).2).2
     = world (run_query scan now q st).2
  /\ sent (decomposed_block strptime body
             (run_query scan now q st).1 (run_query scan now q st).2).2
     = sent (run_query scan now q st).2
  /\ screen (decomposed_block strptime body
               (run_query scan now q st).1 (run_query scan now q st).2).2
     = screen (run_query scan now q st).2.
Proof.
  destruct (decomposed_block_pure strptime body _ _ _
              (run_query_frame_at scan now q st)) as (_ & H). exact H.
Qed.

(** The state a run ends in: that of the last section it entered. *)
Lemma app_state (clock : Clock) (ui : UI) (st : State P World) :
  let r1 := run_query scan (at_kpi clock) KPI_QUERY st in
  let r2 := run_query scan (at_trends clock) TRENDS_QUERY r1.2 in
  let b2 := trend_block strptime trend_of (trend_ui ui) r2.1 r2.2 in
  let r3 := run_query scan (at_location clock) LOCATION_QUERY b2.2 in
  let r4 := run_query scan (at_dashboard clock) DASHBOARD_QUERY r3.2 in
  let b4 := drill_block strptime dash_of (drill_ui ui) r4.1 r4.2 in
  (app scan strptime format_amount kpi_of trend_of dash_of clock ui st).2 = r1.2
  \/ (app scan strptime format_amount kpi_of trend_of dash_of clock ui st).2 = b2.2
  \/ (app scan strptime format_amount kpi_of trend_of dash_of clock ui st).2 = b4.2.
Proof.
  intros r1 r2 b2 r3 r4 b4. unfold app. fold r1.
  destruct r1 as [l1 st1] eqn:E1.
  destruct (kpi_block format_amount kpi_of l1 st1); [| left; reflexivity].
  cbn [snd] in r2. fold r2. destruct r2 as [l2 st2] eqn:E2.
  cbn [fst snd] in b2. fold b2. destruct b2 as [[trends|e] st2'] eqn:E3;
    [| right; left; reflexivity].
  cbn [snd] in r3. fold r3. destruct r3 as [l3 st3] eqn:E4.
  cbn [snd] in r4. fold r4. destruct r4 as [l4 st4] eqn:E5.
  cbn [fst snd] in b4. fold b4. destruct b4 as [[drill|e] st4'];
    right; right; reflexivity.
Qed.

Lemma run_query_sent (now : Z) (q : Query) (st : State P World) :
  exists l, sublist l [q] /\ sent (run_query scan now q st).2 = sent st ++ l.
Proof.
  destruct (cache_read now q (store st)) as [e|] eqn:Hread.
  - exists []. rewrite (run_query_hit scan _ _ _ _ Hread). cbn [snd sent].
    split; [apply sublist_nil_l | rewrite app_nil_r; reflexivity].
  - destruct (run_query_body scan q (world st)) as [[df msgs] w'] eqn:Hbody.
    exists [q]. rewrite (run_query_miss scan _ _ _ _ _ _ Hread Hbody).
    split; reflexivity.
Qed.

Lemma app_sends_in_order (clock : Clock) (ui : UI) (st : State P World) :
  exists l,
    sublist l [KPI_QUERY; TRENDS_QUERY; LOCATION_QUERY; DASHBOARD_QUERY]
    /\ sent (app scan strptime format_amount kpi_of trend_of dash_of clock ui st).2
       = sent st ++ l.
Proof.
  pose proof (app_state clock ui st) as Hstate. cbv zeta in Hstate.
  set (r1 := run_query scan (at_kpi clock) KPI_QUERY st) in *.
  set (r2 := run_query scan (at_trends clock) TRENDS_QUERY r1.2) in *.
  set (b2 := trend_block strptime trend_of (trend_ui ui) r2.1 r2.2) in *.
  set (r3 := run_query scan (at_location clock) LOCATION_QUERY b2.2) in *.
  set (r4 := run_query scan (at_dashboard clock) DASHBOARD_QUERY r3.2) in *.
  set (b4 := drill_block strptime dash_of (drill_ui ui) r4.1 r4.2) in *.
  destruct (run_query_sent (at_kpi clock) KPI_QUERY st) as (l1 & L1 & S1).
  destruct (run_query_sent (at_trends clock) TRENDS_QUERY r1.2) as (l2 & L2 & S2).
  destruct (run_query_sent (at_location clock) LOCATION_QUERY b2.2) as (l3 & L3 & S3).
  destruct (run_query_sent (at_dashboard clock) DASHBOARD_QUERY r3.2) as (l4 & L4 & S4).
  fold r1 in S1. fold r2 in S2. fold r3 in S3. fold r4 in S4.
  assert (B2 : sent b2.2 = sent r2.2).
  { unfold b2, trend_block, r2. apply block_after_query. }
  assert (B4 : sent b4.2 = sent r4.2).
  { unfold b4, drill_block, r4. apply block_after_query. }
  destruct Hstate as [->|[->| ->]].
  - exists l1. split; [| exact S1].
    apply (sublist_app l1 [KPI_QUERY] []
             [TRENDS_QUERY; LOCATION_QUERY; DASHBOARD_QUERY]) in L1;
      [rewrite app_nil_r in L1; exact L1 | apply sublist_nil_l].
  - exists (l1 ++ l2). split; [| rewrite B2, S2, S1, app_assoc; reflexivity].
    apply (sublist_app l1 [KPI_QUERY] l2
             [TRENDS_QUERY; LOCATION_QUERY; DASHBOARD_QUERY]); [exact L1 |].
    apply (sublist_app l2 [TRENDS_QUERY] []
             [LOCATION_QUERY; DASHBOARD_QUERY]) in L2;
      [rewrite app_nil_r in L2; exact L2 | apply sublist_nil_l].
  - exists (l1 ++ l2 ++ l3 ++ l4). split.
    + apply (sublist_app l1 [KPI_QUERY]); [exact L1 |].
      apply (sublist_app l2 [TRENDS_QUERY]); [exact L2 |].
      apply (sublist_app l3 [LOCATION_QUERY] l4 [DASHBOARD_QUERY]); assumption.
    + rewrite B4, S4, S3, B2, S2, S1, <- !app_assoc. reflexivity.
Qed.

Lemma app_warm (clock : Clock) (ui : UI) (st : State P World) :
  is_Some (cache_read (at_kpi clock) KPI_QUERY (store st)) ->
  is_Some (cache_read (at_trends clock) TRENDS_QUERY (store st)) ->
  is_Some (cache_read (at_location clock) LOCATION_QUERY (store st)) ->
  is_Some (cache_read (at_dashboard clock) DASHBOARD_QUERY (store st)) ->
  store (app scan strptime format_amount kpi_of trend_of dash_of clock ui st).2
  = store st
  /\ world (app scan strptime format_amount kpi_of trend_of dash_of clock ui st).2
     = world st
  /\ sent (app scan strptime format_amount kpi_of trend_of dash_of clock ui st).2
     = sent st.
Proof.
  intros [e1 H1] [e2 H2] [e3 H3] [e4 H4].
  pose proof (app_state clock ui st) as Hstate. cbv zeta in Hstate.
  set (r1 := run_query scan (at_kpi clock) KPI_QUERY st) in *.
  set (r2 := run_query scan (at_trends clock) TRENDS_QUERY r1.2) in *.
  set (b2 := trend_block strptime trend_of (trend_ui ui) r2.1 r2.2) in *.
  set (r3 := run_query scan (at_location clock) LOCATION_QUERY b2.2) in *.
  set (r4 := run_query scan (at_dashboard clock) DASHBOARD_QUERY r3.2) in *.
  set (b4 := drill_block strptime dash_of (drill_ui ui) r4.1 r4.2) in *.
  destruct (run_query_hit_backend scan _ _ _ _ H1) as (S1 & W1 & T1 & _).
  fold r1 in S1, W1, T1.
  rewrite <- S1 in H2.
  destruct (run_query_hit_backend scan _ _ _ _ H2) as (S2 & W2 & T2 & _).
  fold r2 in S2, W2, T2.
  assert (B2 : store b2.2 = store r2.2 /\ world b2.2 = world r2.2
               /\ sent b2.2 = sent r2.2).
  { unfold b2, trend_block, r2.
    pose proof (block_after_query
                  (fun df => Trend.charts (trend_ui ui) (map (arow_map trend_of) df))
                  (at_trends clock) TRENDS_QUERY r1.2) as H. tauto. }
  destruct B2 as (SB2 & WB2 & TB2).
  rewrite <- S1, <- S2, <- SB2 in H3.
  destruct (run_query_hit_backend scan _ _ _ _ H3) as (S3 & W3 & T3 & _).
  fold r3 in S3, W3, T3.
  rewrite <- S1, <- S2, <- SB2, <- S3 in H4.
  destruct (run_query_hit_backend scan _ _ _ _ H4) as (S4 & W4 & T4 & _).
  fold r4 in S4, W4, T4.
  assert (B4 : store b4.2 = store r4.2 /\ world b4.2 = world r4.2
               /\ sent b4.2 = sent r4.2).
  { unfold b4, drill_block, r4.
    pose proof (block_after_query
                  (fun df => Drill.drill_filter
                               (Drill.selections (drill_ui ui)
                                  (map (arow_map dash_of) df))
                               (map (arow_map dash_of) df))
                  (at_dashboard clock) DASHBOARD_QUERY r3.2) as H. tauto. }
  destruct B4 as (SB4 & WB4 & TB4).
  destruct Hstate as [->|[->| ->]].
  - auto.
  - rewrite SB2, WB2, TB2, S2, W2, T2. auto.
  - rewrite SB4, WB4, TB4, S4, W4, T4, S3, W3, T3, SB2, WB2, TB2, S2, W2, T2. auto.
Qed.

End ScriptBackend.

Section ScriptProperties.
Import Pandas Frame Warehouse Cache App.
Context {P A World : Type}.
Variable scan : World -> string -> outcome (list (Row P)) * World.
Variable strptime : string -> option Timestamp.
Variable format_amount : A -> outcome string.
Variable kpi_of : P -> Kpi.KpiCols A.
Variable trend_of : P -> Trend.TrendCols.
Variable dash_of : P -> Drill.DashCols.


(** X13.  A second run whose four calls are all served from the entries the
    first run left behind ends exactly as the first run did, with the same
    page or the same exception, for the same selections; it sends nothing
    to the warehouse and leaves the store as it was. *)
Theorem rerun_within_ttl (clock1 clock2 : Clock) (ui : UI) (st : State P World) :
  let st1 := (app scan strptime format_amount kpi_of trend_of dash_of clock1 ui st).2 in
  is_Some (cache_read (at_kpi clock2) KPI_QUERY (store st1)) ->
  is_Some (cache_read (at_trends clock2) TRENDS_QUERY (store st1)) ->
  is_Some (cache_read (at_location clock2) LOCATION_QUERY (store st1)) ->
  is_Some (cache_read (at_dashboard clock2) DASHBOARD_QUERY (store st1)) ->
  (app scan strptime format_amount kpi_of trend_of dash_of clock2 ui st1).1
  = (app scan strptime format_amount kpi_of trend_of dash_of clock1 ui st).1
  /\ store (app scan strptime format_amount kpi_of trend_of dash_of clock2 ui st1).2
     = store st1
  /\ world (app scan strptime format_amount kpi_of trend_of dash_of clock2 ui st1).2
     = world st1
  /\ sent (app scan strptime format_amount kpi_of trend_of dash_of clock2 ui st1).2
     = sent st1.
Proof.
  intros st1 H1 H2 H3 H4.
  destruct (app_warm scan strptime format_amount kpi_of trend_of dash_of
              clock2 ui st1 H1 H2 H3 H4) as (S & W & T).
  split; [| auto].
  rewrite app_page_of_store, S. unfold st1. symmetry. apply app_page_of_store.
Qed.

(** X14.  A run sends at most four statements, the four SELECTs of lines
    29, 48, 134 and 155, each at most once and in that order, and nothing
    else. *)
Theorem run_sends_four_selects_in_order
    (clock : Clock) (ui : UI) (st : State P World) :
  exists l,
    sublist l [KPI_QUERY; TRENDS_QUERY; LOCATION_QUERY; DASHBOARD_QUERY]
    /\ sent (app scan strptime format_amount kpi_of trend_of dash_of clock ui st).2
       = sent st ++ l.
Proof. apply app_sends_in_order. Qed.

Lemma decompose_raise_malformed {Q} (df : list (Row Q)) (e : string) :
  decompose strptime df = Raise e -> List.Exists (malformed strptime) (map stamp df).
Proof.
  unfold decompose.
  destruct (to_datetime strptime (map stamp df)) as [parsed|e'] eqn:Hp; [discriminate |].
  intros _. clear e. generalize dependent e'.
  induction (map stamp df) as [|c col IH]; simpl; intros e' Hp; [discriminate |].
  destruct (to_datetime_cell strptime c) as [c'|e1] eqn:Hc.
  - destruct (to_datetime strptime col) as [rest|e2]; [discriminate |].
    apply Exists_cons_tl. eapply IH. reflexivity.
  - apply Exists_cons_hd. eapply to_datetime_cell_raise, Hc.
Qed.

Lemma with_decomposed_raise {Q V} (body : list (ARow Q) -> V)
    (df : list (Row Q)) (e : string) :
  with_decomposed strptime body df = Raise e ->
  List.Exists (malformed strptime) (map stamp df).
Proof.
  unfold with_decomposed. destruct (is_empty df); [discriminate |].
  destruct (decompose strptime df) as [out|e'] eqn:Hd; [discriminate |].
  intros _. eapply decompose_raise_malformed, Hd.
Qed.

Lemma with_decomposed_ok {Q V} (body : list (ARow Q) -> V) (df : list (Row Q)) :
  List.Forall (fun c => ~ malformed strptime c) (map stamp df) ->
  exists v, with_decomposed strptime body df = Ok v.
Proof.
  intros Hall. unfold with_decomposed. destruct (is_empty df); [eauto |].
  rewrite (decompose_well_formed strptime df Hall). eauto.
Qed.

Lemma stamp_row_map {Q R} (f : Q -> R) (rows : list (Row Q)) :
  map stamp (map (row_map f) rows) = map stamp rows.
Proof. rewrite map_map. reflexivity. Qed.

(** X15.  A run is stopped by an exception only through the data: a KPI
    cell that cannot be shown, or a timestamp cell of the trends or the
    dashboard frame that does not parse.  When the KPI tiles do not raise
    and neither frame holds such a timestamp, the run reaches line 202,
    whatever the warehouse answered to the four statements. *)
Theorem run_stops_only_on_bad_cells (clock : Clock) (ui : UI) (st : State P World) :
  (forall e,
     (app scan strptime format_amount kpi_of trend_of dash_of clock ui st).1 = Raise e ->
     Kpi.kpi_section format_amount
       (map (fun r => kpi_of (cols r))
          (stored (store (app scan strptime format_amount kpi_of trend_of dash_of
                            clock ui st).2) KPI_QUERY)) = Raise e
     \/ List.Exists (malformed strptime)
          (map stamp
             (stored (store (app scan strptime format_amount kpi_of trend_of dash_of
                               clock ui st).2) TRENDS_QUERY))
     \/ List.Exists (malformed strptime)
          (map stamp
             (stored (store (app scan strptime format_amount kpi_of trend_of dash_of
                               clock ui st).2) DASHBOARD_QUERY)))
  /\ ((forall e,
         Kpi.kpi_section format_amount
           (map (fun r => kpi_of (cols r))
              (stored (store (app scan strptime format_amount kpi_of trend_of dash_of
                                clock ui st).2) KPI_QUERY)) <> Raise e) ->
      List.Forall (fun c => ~ malformed strptime c)
        (map stamp
           (stored (store (app scan strptime format_amount kpi_of trend_of dash_of
                             clock ui st).2) TRENDS_QUERY)) ->
      List.Forall (fun c => ~ malformed strptime c)
        (map stamp
           (stored (store (app scan strptime format_amount kpi_of trend_of dash_of
                             clock ui st).2) DASHBOARD_QUERY)) ->
      exists page,
        (app scan strptime format_amount kpi_of trend_of dash_of clock ui st).1
        = Ok page).
Proof.
  rewrite app_page_of_store.
  set (s := store (app scan strptime format_amount kpi_of trend_of dash_of
                     clock ui st).2).
  unfold page_of_store, Trend.trend_section, Drill.drill_section. split.
  - intros e.
    destruct (Kpi.kpi_section format_amount
                (map (fun r => kpi_of (cols r)) (stored s KPI_QUERY))) as [kpi|e1];
      [| intros [= ->]; left; reflexivity].
    destruct (with_decomposed strptime (Trend.charts (trend_ui ui))
                (map (row_map trend_of) (stored s TRENDS_QUERY))) as [t|e2] eqn:H2.
    + destruct (with_decomposed strptime
                  (fun df => Drill.drill_filter (Drill.selections (drill_ui ui) df) df)
                  (map (row_map dash_of) (stored s DASHBOARD_QUERY)))
        as [d|e3] eqn:H3; [discriminate |].
      intros _. right; right.
      apply with_decomposed_raise in H3. rewrite stamp_row_map in H3. exact H3.
    + intros _. right; left.
      apply with_decomposed_raise in H2. rewrite stamp_row_map in H2. exact H2.
  - intros Hkpi Htrend Hdash.
    destruct (Kpi.kpi_section format_amount
                (map (fun r => kpi_of (cols r)) (stored s KPI_QUERY))) as [kpi|e1];
      [| exfalso; apply (Hkpi e1); reflexivity].
    rewrite <- (stamp_row_map trend_of) in Htrend.
    rewrite <- (stamp_row_map dash_of) in Hdash.
    destruct (with_decomposed_ok (Trend.charts (trend_ui ui)) _ Htrend) as (t & ->).
    destruct (with_decomposed_ok
                (fun df => Drill.drill_filter (Drill.selections (drill_ui ui) df) df)
                _ Hdash) as (d & ->).
    eauto.
Qed.

End ScriptProperties.

Section WarehouseDown.
Import Pandas Frame Warehouse Cache App.
Context {P A World : Type}.
Variable scan : World -> string -> outcome (list (Row P)) * World.
Variable strptime : string -> option Timestamp.
Variable format_amount : A -> outcome string.
Variable kpi_of : P -> Kpi.KpiCols A.
Variable trend_of : P -> Trend.TrendCols.
Variable dash_of : P -> Drill.DashCols.
Hypothesis down : forall w view, exists e w', scan w view = (Raise e, w').

Lemma cache_read_insert_ne (now : Z) (q q' : Query) (e : Entry P)
    (s : gmap Query (Entry P)) :
  q <> q' -> cache_read now q' (<[q := e]> s) = cache_read now q' s.
Proof. intros Hne. unfold cache_read. rewrite lookup_insert_ne by exact Hne. reflexivity. Qed.

Lemma failing_call (now : Z) (q : Query) (st : State P World) :
  cache_read now q (store st) = None ->
  exists e w' l h,
    run_query scan now q st
    = (l, mkState w'
            (<[q := mkEntry empty_frame [String.append "Query Failed: " e] now]>
               (store st))
            h (screen st ++ [String.append "Query Failed: " e]) (sent st ++ [q]))
    /\ h !! l = Some (Fetched empty_frame).
Proof.
  intros Hmiss. destruct (down (world st) (from_view q)) as (e & w' & Hscan).
  exists e, w', (alloc (Fetched empty_frame) (heap st)).1,
    (alloc (Fetched empty_frame) (heap st)).2.
  split; [| apply alloc_fresh].
  apply run_query_miss; [exact Hmiss |].
  unfold run_query_body, session_sql. rewrite Hscan. reflexivity.
Qed.

Lemma block_on_empty {V} (body : list (ARow P) -> V) (l : nat) (st : State P World) :
  heap st !! l = Some (Fetched empty_frame) ->
  decomposed_block strptime body l st = (Ok None, st).
Proof.
  intros Hl. unfold decomposed_block, frame_at, fetched_rows. rewrite Hl. reflexivity.
Qed.

(** X16.  With the warehouse failing every statement and nothing reusable
    in the store, the run still reaches line 202: the four statements are
    sent, four Query Failed messages are shown, no section is drawn, and no
    exception leaves the script. *)
Theorem warehouse_down_still_loads (clock : Clock) (ui : UI) (st : State P World) :
  cache_read (at_kpi clock) KPI_QUERY (store st) = None ->
  cache_read (at_trends clock) TRENDS_QUERY (store st) = None ->
  cache_read (at_location clock) LOCATION_QUERY (store st) = None ->
  cache_read (at_dashboard clock) DASHBOARD_QUERY (store st) = None ->
  (app scan strptime format_amount kpi_of trend_of dash_of clock ui st).1
  = Ok (mkPage None None None None)
  /\ sent (app scan strptime format_amount kpi_of trend_of dash_of clock ui st).2
     = sent st ++ [KPI_QUERY; TRENDS_QUERY; LOCATION_QUERY; DASHBOARD_QUERY]
  /\ exists e1 e2 e3 e4,
       screen (app scan strptime format_amount kpi_of trend_of dash_of clock ui st).2
       = screen st ++ [String.append "Query Failed: " e1;
                       String.append "Query Failed: " e2;
                       String.append "Query Failed: " e3;
                       String.append "Query Failed: " e4].
Proof.
  intros H1 H2 H3 H4.
  destruct queries_distinct as (N12 & N13 & N14 & N23 & N24 & N34).
  unfold app.
  destruct (failing_call (at_kpi clock) KPI_QUERY st H1) as (e1 & w1 & l1 & h1 & -> & L1).
  unfold kpi_block, frame_at, fetched_rows. cbn [heap]. rewrite L1. cbn [map Kpi.kpi_section].
  match goal with |- context [run_query scan _ TRENDS_QUERY ?s] =>
    destruct (failing_call (at_trends clock) TRENDS_QUERY s)
      as (e2 & w2 & l2 & h2 & -> & L2);
      [cbn [store]; rewrite cache_read_insert_ne by exact N12; exact H2 |] end.
  unfold trend_block. rewrite block_on_empty by exact L2.
  match goal with |- context [run_query scan _ LOCATION_QUERY ?s] =>
    destruct (failing_call (at_location clock) LOCATION_QUERY s)
      as (e3 & w3 & l3 & h3 & -> & L3);
      [cbn [store]; rewrite !cache_read_insert_ne by congruence; exact H3 |] end.
  unfold location_block, frame_at, fetched_rows. cbn [heap]. rewrite L3. cbn [is_empty].
  match goal with |- context [run_query scan _ DASHBOARD_QUERY ?s] =>
    destruct (failing_call (at_dashboard clock) DASHBOARD_QUERY s)
      as (e4 & w4 & l4 & h4 & -> & L4);
      [cbn [store]; rewrite !cache_read_insert_ne by congruence; exact H4 |] end.
  unfold drill_block. rewrite block_on_empty by exact L4.
  cbn [fst snd sent screen store]. rewrite <- !app_assoc.
  split; [reflexivity |]. split; [reflexivity |].
  exists e1, e2, e3, e4. reflexivity.
Qed.

End WarehouseDown.

(* ===================================================================== *)
(** * The further properties on concrete data *)
(* ===================================================================== *)

Section FurtherExamples.
Import Pandas Frame Warehouse Cache Sample App Demo Totals.

(** The sample reader takes only days that exist. *)
Example iso_date_examples :
  iso_date "2024-02-29" = Some (mkTs 2024 2 29)
  /\ iso_date "2024-1-5" = Some (mkTs 2024 1 5)
  /\ iso_date "2024-02-30" = None
  /\ iso_date "2023-02-29" = None
  /\ iso_date "1677-09-21" = None
  /\ iso_date "soon" = None.
Proof. repeat split. Qed.

(** With the High Risk count missing, two tiles are on the page when line
    39 raises. *)
Example kpi_two_tiles_then_raise :
  Kpi.drawn plain_amount [Kpi.mkKpiCols (Some 3) 900 None (Some 1) (Some 1)]
  = ([Kpi.IntTile "Total Transactions" 3; Kpi.TextTile "Total Amount" "900"],
     Some "cannot convert float NaN to integer"%string).
Proof. reflexivity. Qed.

Example plain_amount_examples :
  plain_amount 900 = Ok "900"
  /\ plain_amount 1234567 = Ok "1,234,567"
  /\ plain_amount (-1000) = Ok "-1,000".
Proof. repeat split. Qed.

Lemma decompose_keeps_rows_witness :
  length [atrend 2024 1 5 10; atrend 2024 1 20 5; atrend 2024 2 1 7]
  = length trends_2024.
Proof.
  exact (proj1 (decompose_keeps_rows iso_date trends_2024
                  [atrend 2024 1 5 10; atrend 2024 1 20 5; atrend 2024 2 1 7]
                  eq_refl)).
Defined.

Lemma monthly_slices_witness :
  slices_total
    (Trend.monthly_df [atrend 2024 1 5 10; atrend 2024 1 20 5; atrend 2024 2 1 7]
       (Some 2024)) = 22.
Proof.
  apply (proj2 (monthly_slices_add_up_to_year iso_date trends_2024
                  [atrend 2024 1 5 10; atrend 2024 1 20 5; atrend 2024 2 1 7]
                  eq_refl 2024 22 (or_introl eq_refl))).
  reflexivity.
Defined.

Lemma monthly_slice_witness :
  15 = metric_total Trend.metric
         (Trend.daily_df [atrend 2024 1 5 10; atrend 2024 1 20 5; atrend 2024 2 1 7]
            (Some 2024) (Some 1)).
Proof.
  apply (proj2 (monthly_slice_is_daily_total
                  [atrend 2024 1 5 10; atrend 2024 1 20 5; atrend 2024 2 1 7]
                  (Some 2024) 1 15 (or_introl eq_refl))).
  split; [discriminate | reflexivity].
Defined.

Lemma daily_chart_witness :
  exists m,
    Trend.v_month_d
      (Trend.charts (Trend.mkTrendUI 0 0 1)
         [atrend 2024 1 5 10; atrend 2024 1 20 5; atrend 2024 2 1 7]) = Some m
    /\ Trend.v_daily
         (Trend.charts (Trend.mkTrendUI 0 0 1)
            [atrend 2024 1 5 10; atrend 2024 1 20 5; atrend 2024 2 1 7]) <> [].
Proof.
  destruct (daily_chart_never_empty iso_date (Trend.mkTrendUI 0 0 1) trends_2024
              (Trend.charts (Trend.mkTrendUI 0 0 1)
                 [atrend 2024 1 5 10; atrend 2024 1 20 5; atrend 2024 2 1 7])
              2024 eq_refl eq_refl) as (m & Hm & _ & Hne & _).
  exists m. split; [exact Hm | exact Hne].
Defined.

Lemma year_options_witness :
  StronglySorted (fun a b => num_lt a b = true) (Drill.year_options dash_two_years).
Proof.
  apply (proj2 (proj2 (proj2 (year_options_ascending [] dash_two_years)))).
  repeat constructor; eexists; reflexivity.
Defined.

Lemma selected_risk_witness :
  Drill.risk (Drill.selections (Drill.mkDrillUI 1 1 0 3) dash_two_years) <> Drill.ALL
  /\ In (Drill.risk (Drill.selections (Drill.mkDrillUI 1 1 0 3) dash_two_years))
        ["HIGH_RISK"; "MEDIUM_RISK"; "LOW_RISK"]%string.
Proof.
  split; [discriminate |].
  apply (proj1 (proj2 (proj2 (selected_city_and_risk_only
                                (Drill.mkDrillUI 1 1 0 3) dash_two_years)))).
  discriminate.
Defined.

Lemma stored_entries_witness :
  reachable play iso_date (run_query play 0 KPI_QUERY (boot healthy)).2
  /\ entry_ok (mkEntry [kpi_line 3 900 1 1 1] [] 0)
  /\ In KPI_QUERY (sent (run_query play 0 KPI_QUERY (boot healthy)).2).
Proof.
  split; [apply reach_query, reach_start |].
  apply (stored_entries_well_formed play iso_date
           (run_query play 0 KPI_QUERY (boot healthy)).2).
  - apply reach_query, reach_start.
  - vm_compute. reflexivity.
Defined.

Lemma rerun_witness :
  (run (mkClock 10 11 12 13) first_load (run noon first_load (boot healthy)).2).1
  = (run noon first_load (boot healthy)).1
  /\ sent (run (mkClock 10 11 12 13) first_load
             (run noon first_load (boot healthy)).2).2
     = sent (run noon first_load (boot healthy)).2.
Proof.
  destruct (rerun_within_ttl play iso_date plain_amount c_kpi c_trend c_dash
              noon (mkClock 10 11 12 13) first_load (boot healthy)
              ltac:(vm_compute; eexists; reflexivity)
              ltac:(vm_compute; eexists; reflexivity)
              ltac:(vm_compute; eexists; reflexivity)
              ltac:(vm_compute; eexists; reflexivity))
    as (Hpage & _ & _ & Hsent).
  split; [exact Hpage | exact Hsent].
Defined.

Lemma run_stops_witness :
  Kpi.kpi_section plain_amount
    (map (fun r => c_kpi (cols r))
       (stored (store (run noon first_load (boot spoiled)).2) KPI_QUERY))
  = Raise "Unknown datetime string format, unable to parse: soon"
  \/ List.Exists (malformed iso_date)
       (map stamp (stored (store (run noon first_load (boot spoiled)).2) TRENDS_QUERY))
  \/ List.Exists (malformed iso_date)
       (map stamp (stored (store (run noon first_load (boot spoiled)).2)
                     DASHBOARD_QUERY)).
Proof.
  apply (proj1 (run_stops_only_on_bad_cells play iso_date plain_amount
                  c_kpi c_trend c_dash noon first_load (boot spoiled))).
  vm_compute. reflexivity.
Defined.

Lemma warehouse_down_witness :
  (app unplugged iso_date plain_amount c_kpi c_trend c_dash noon first_load cold).1
  = Ok (mkPage None None None None).
Proof.
  apply (warehouse_down_still_loads unplugged iso_date plain_amount
           c_kpi c_trend c_dash
           (fun w view => ex_intro _ "connection lost"%string
                            (ex_intro _ w eq_refl))
           noon first_load cold eq_refl eq_refl eq_refl eq_refl).
Defined.

(** A run against the healthy warehouse on first load. *)
Example healthy_run_sends_four :
  sent (run noon first_load (boot healthy)).2
  = [KPI_QUERY; TRENDS_QUERY; LOCATION_QUERY; DASHBOARD_QUERY]
  /\ screen (run noon first_load (boot healthy)).2 = [].
Proof. vm_compute. split; reflexivity. Qed.

End FurtherExamples.

Section DailyMonthSelector.
Import Pandas Frame.

(** X17.  Lines 108-113: for whatever year the daily Year box holds, the
    daily Month box offers a month exactly when some row of that year has
    it, and offers it once; with no row of that year it offers nothing. *)
Theorem daily_month_selector_exact
    (trend_df : list (ARow Trend.TrendCols)) (year_d : num) :
  NoDup (Trend.daily_month_options trend_df year_d)
  /\ (forall m, In m (Trend.daily_month_options trend_df year_d)
                <-> exists r, In r trend_df
                              /\ num_eq (YEAR r) year_d = true /\ MONTH r = m)
  /\ ((forall r, In r trend_df -> num_eq (YEAR r) year_d = false) ->
      Trend.daily_month_options trend_df year_d = []).
Proof.
  split; [apply daily_month_options_NoDup |].
  split; [intros m; apply daily_month_options_exact |].
  intros Hnone.
  destruct (Trend.daily_month_options trend_df year_d) as [|m rest] eqn:Hopts;
    [reflexivity |].
  assert (Hin : In m (Trend.daily_month_options trend_df year_d))
    by (rewrite Hopts; left; reflexivity).
  apply daily_month_options_exact in Hin as (r & Hr & Hy & _).
  rewrite (Hnone r Hr) in Hy. discriminate Hy.
Qed.

End DailyMonthSelector.
